(** * WebInsight-API: the content extractor, the rate limiter and the
    retrying analyzer, embedded from [scraper.py], [rate_limiter.py] and
    [analyzer.py].

    Conventions of the embedding.
    - A Python [str] is a [string]; each [ascii] stands for the code point
      of the same number, so the model covers text over U+0000..U+00FF.
      Character classes ([str.isspace], the regex classes [\s] and [\d],
      case folding) are the restrictions of Python's to that range.
    - A Python function that may raise returns a [PyResult].
    - Calls into libraries whose code is not part of the repository
      (the HTML parser, [html2text], the HTTP client, the clock) are
      parameters of the functions that make them.  The parser and the
      HTTP client can raise; the queries on a tree that the parser has
      built ([find], [select], [get_text], [html2text]) are taken to
      return. *)

From Stdlib Require Import String Ascii List ZArith QArith Lia Lqa DecimalString.
From stdpp Require Import gmap strings list.

Local Open Scope string_scope.

(** ** Python values and built-in string methods *)

Inductive PyResult (A : Type) : Type :=
| Return (a : A)
| Raise (msg : string).
Arguments Return {A} a.
Arguments Raise {A} msg.

(** Sequencing: an exception ends the computation.  [x ← r; k] runs
    [k] on the value [r] returns. *)
#[global] Instance PyResult_bind : MBind PyResult :=
  fun A B (k : A -> PyResult B) (r : PyResult A) =>
    match r with
    | Return a => k a
    | Raise e => Raise e
    end.

Module Py.

Definition nl : ascii := "010"%char.
Definition NL : string := String nl "".

(** [str.isspace] on one character; the same set is what the regex
    class [\s] matches on [str] patterns. *)
Definition isspace (c : ascii) : bool :=
  let n := N_of_ascii c in
  (((9 <=? n) && (n <=? 13)) || ((28 <=? n) && (n <=? 32))
   || (n =? 133) || (n =? 160))%N.

(** [\d] on [str] patterns: a decimal digit. *)
Definition isdigit (c : ascii) : bool :=
  let n := N_of_ascii c in ((48 <=? n) && (n <=? 57))%N.

(** The simple lower-case mapping the regex engine applies under
    [re.IGNORECASE]. *)
Definition lower (c : ascii) : ascii :=
  let n := N_of_ascii c in
  if (((65 <=? n) && (n <=? 90))
      || ((192 <=? n) && (n <=? 222) && negb (n =? 215)))%N
  then ascii_of_N (n + 32) else c.

Definition len (s : string) : nat := String.length s.

Fixpoint lstrip (s : string) : string :=
  match s with
  | "" => ""
  | String c s' => if isspace c then lstrip s' else s
  end.

Fixpoint rstrip (s : string) : string :=
  match s with
  | "" => ""
  | String c s' =>
      match rstrip s' with
      | "" => if isspace c then "" else String c ""
      | r => String c r
      end
  end.

(** [s.strip()] *)
Definition strip (s : string) : string := rstrip (lstrip s).

(** [sep.join(parts)] *)
Fixpoint join (sep : string) (parts : list string) : string :=
  match parts with
  | [] => ""
  | [x] => x
  | x :: rest => x ++ sep ++ join sep rest
  end.

(** [s.split('\n')] *)
Fixpoint split_newline (s : string) : list string :=
  match s with
  | "" => [""]
  | String c s' =>
      if Ascii.eqb c nl then "" :: split_newline s'
      else match split_newline s' with
           | l :: ls => String c l :: ls
           | [] => [String c ""]
           end
  end.

(** [s.startswith(p)] *)
Fixpoint startswith (p s : string) : bool :=
  match p with
  | "" => true
  | String a p' =>
      match s with
      | "" => false
      | String b s' => Ascii.eqb a b && startswith p' s'
      end
  end.

(** [s.replace(old, new)] for a non-empty [old]: every occurrence
    found scanning from the left, without overlap.  [skip] counts the
    characters of an occurrence still to be passed over. *)
Fixpoint replace_from (old new : string) (skip : nat) (s : string) : string :=
  match s with
  | "" => ""
  | String c s' =>
      match skip with
      | S k => replace_from old new k s'
      | O =>
          if startswith old s
          then new ++ replace_from old new (len old - 1) s'
          else String c (replace_from old new 0 s')
      end
  end.

Definition replace (old new s : string) : string := replace_from old new 0 s.

(** The maximal substrings of non-whitespace characters ([\S+]). *)
Fixpoint split_ws_go (cur : string) (s : string) : list string :=
  match s with
  | "" => match cur with "" => [] | _ => [cur] end
  | String c s' =>
      if isspace c
      then match cur with "" => split_ws_go "" s' | _ => cur :: split_ws_go "" s' end
      else split_ws_go (cur ++ String c "") s'
  end.

Definition split_ws (s : string) : list string := split_ws_go "" s.

(** [sub in s] *)
Fixpoint contains (sub s : string) : bool :=
  startswith sub s ||
  match s with
  | "" => false
  | String _ s' => contains sub s'
  end.

(** Every character of [s] satisfies [P]. *)
Fixpoint all_chars (P : ascii -> bool) (s : string) : bool :=
  match s with
  | "" => true
  | String c s' => P c && all_chars P s'
  end.

(** [c * n] *)
Fixpoint times (c : ascii) (n : nat) : string :=
  match n with
  | O => ""
  | S k => String c (times c k)
  end.

(** A string that does not begin with whitespace. *)
Definition starts_clean (s : string) : Prop :=
  match s with
  | "" => True
  | String c _ => isspace c = false
  end.

(** A character that is not whitespace, or is the plain space. *)
Definition plain (c : ascii) : bool := negb (isspace c) || Ascii.eqb c " ".

(** [str(n)] for a non-negative integer. *)
Definition str_of_nat (n : nat) : string := NilZero.string_of_uint (Nat.to_uint n).

End Py.

(** ** The regular-expression substitutions the scraper performs

    Each [re.sub] call of [scraper.py] is modelled by a scanner that walks
    the subject from the left, as the regex engine does: at a position
    where the pattern matches, the replacement is emitted and the matched
    characters are skipped; elsewhere the character is copied. *)

Module Re.
Import Py.

(** [re.sub(r'\s+', ' ', text)]; [in_run] says the previous character
    belonged to a whitespace run already replaced. *)
Fixpoint sub_spaces_from (in_run : bool) (s : string) : string :=
  match s with
  | "" => ""
  | String c s' =>
      if isspace c
      then if in_run then sub_spaces_from true s'
           else String " " (sub_spaces_from true s')
      else String c (sub_spaces_from false s')
  end.

Definition sub_spaces (s : string) : string := sub_spaces_from false s.

(** The longest prefix of whitespace characters. *)
Fixpoint ws_run (s : string) : string :=
  match s with
  | "" => ""
  | String c s' => if isspace c then String c (ws_run s') else ""
  end.

(** Number of characters of [run] up to and including its last newline. *)
Fixpoint upto_last_newline (run : string) : option nat :=
  match run with
  | "" => None
  | String c r =>
      match upto_last_newline r with
      | Some n => Some (S n)
      | None => if Ascii.eqb c nl then Some 1 else None
      end
  end.

(** Length of the match of [\n\s*\n+] at the start of [s], if any:
    a newline, then the whitespace run after it as far as its last
    newline ([\s*] is greedy and gives back only what [\n+] needs). *)
Definition match_blank_lines (s : string) : option nat :=
  match s with
  | String c s' =>
      if Ascii.eqb c nl
      then n ← upto_last_newline (ws_run s'); Some (S n)
      else None
  | "" => None
  end.

(** [re.sub(r'\n\s*\n+', '\n\n', text)] *)
Fixpoint sub_blank_lines_from (skip : nat) (s : string) : string :=
  match s with
  | "" => ""
  | String c s' =>
      match skip with
      | S k => sub_blank_lines_from k s'
      | O =>
          match match_blank_lines s with
          | Some n => NL ++ NL ++ sub_blank_lines_from (n - 1) s'
          | None => String c (sub_blank_lines_from 0 s')
          end
      end
  end.

Definition sub_blank_lines (s : string) : string := sub_blank_lines_from 0 s.

(** One position of a fixed-width pattern. *)
Inductive Item :=
| Lit (c : ascii)   (* a literal character *)
| Digit.            (* [\d] *)

(** Does [c] match the item under [re.IGNORECASE]? *)
Definition item_matches (i : Item) (c : ascii) : bool :=
  match i with
  | Lit p => Ascii.eqb (lower p) (lower c)
  | Digit => isdigit c
  end.

Fixpoint match_items (p : list Item) (s : string) : bool :=
  match p with
  | [] => true
  | i :: p' =>
      match s with
      | "" => false
      | String c s' => item_matches i c && match_items p' s'
      end
  end.

(** [re.sub(pattern, '', text, flags=re.IGNORECASE)] for a pattern that
    is a non-empty sequence of items. *)
Fixpoint sub_delete_from (p : list Item) (skip : nat) (s : string) : string :=
  match s with
  | "" => ""
  | String c s' =>
      match skip with
      | S k => sub_delete_from p k s'
      | O =>
          if match_items p s
          then sub_delete_from p (length p - 1) s'
          else String c (sub_delete_from p 0 s')
      end
  end.

Definition sub_delete (p : list Item) (s : string) : string := sub_delete_from p 0 s.

(** [re.search(pattern, s, re.IGNORECASE) is not None] *)
Fixpoint search (p : list Item) (s : string) : bool :=
  match_items p s ||
  match s with
  | "" => false
  | String _ s' => search p s'
  end.

Fixpoint literal (s : string) : list Item :=
  match s with
  | "" => []
  | String c s' => Lit c :: literal s'
  end.

(** Index of the first occurrence of [pat] in [s] that is reached
    without passing a newline ([.] does not match a newline). *)
Fixpoint find_on_line (pat : string) (s : string) : option nat :=
  match s with
  | "" => if startswith pat s then Some 0%nat else None
  | String c s' =>
      if startswith pat s then Some 0%nat
      else if Ascii.eqb c nl then None
      else S <$> find_on_line pat s'
  end.

Fixpoint drop (n : nat) (s : string) : string :=
  match n, s with
  | S k, String _ s' => drop k s'
  | _, _ => s
  end.

(** Length of the match of [!\[.*?\]\(.*?\)] at the start of [s]:
    both [.*?] are lazy, so the first [](] and then the first [)] on
    the same line are taken. *)
Definition match_image (s : string) : option nat :=
  match s with
  | String "!" (String "[" r) =>
      j ← find_on_line "](" r;
      k ← find_on_line ")" (drop (j + 2) r);
      Some (2 + j + 2 + k + 1)%nat
  | _ => None
  end.

(** [re.sub(r'!\[.*?\]\(.*?\)', '', markdown)] *)
Fixpoint sub_images_from (skip : nat) (s : string) : string :=
  match s with
  | "" => ""
  | String c s' =>
      match skip with
      | S k => sub_images_from k s'
      | O =>
          match match_image s with
          | Some n => sub_images_from (n - 1) s'
          | None => String c (sub_images_from 0 s')
          end
      end
  end.

Definition sub_images (s : string) : string := sub_images_from 0 s.

End Re.

(** ** The document tree built by BeautifulSoup and its queries *)

Module Bs4.
Import Py.

(** A page element.  [NavigableString] is text that [get_text] yields;
    [Comment] stands for the string kinds it skips (comments, doctype,
    declarations).  The attributes of a tag are a dictionary. *)
#[warnings="-register-all"]
Inductive Node :=
| NavigableString (s : string)
| Comment (s : string)
| Tag (name : string) (attrs : gmap string string) (contents : list Node).

(** The [BeautifulSoup] object: the top-level elements of the page. *)
Definition Soup := list Node.

(** [tag.descendants]: document order, the tag itself excluded. *)
Fixpoint descendants (n : Node) : list Node :=
  match n with
  | Tag _ _ cs => flat_map (fun c => c :: descendants c) cs
  | _ => []
  end.

Definition soup_descendants (soup : Soup) : list Node :=
  flat_map (fun c => c :: descendants c) soup.

(** The strings [get_text] collects below an element. *)
Fixpoint all_strings (n : Node) : list string :=
  match n with
  | NavigableString s => [s]
  | Comment _ => []
  | Tag _ _ cs => flat_map all_strings cs
  end.

(** [tag.get_text(separator=sep)]; [tag.text] is [get_text ""]. *)
Definition get_text (sep : string) (n : Node) : string :=
  join sep (all_strings n).

(** [tag.get(key)], [None] when the attribute is absent. *)
Definition get (key : string) (n : Node) : option string :=
  match n with
  | Tag _ attrs _ => attrs !! key
  | _ => None
  end.

Definition has_name (name : string) (n : Node) : bool :=
  match n with
  | Tag nm _ _ => String.eqb nm name
  | _ => false
  end.

(** [soup.find_all(...)] with the search criteria as a predicate. *)
Definition find_all (crit : Node -> bool) (soup : Soup) : list Node :=
  List.filter crit (soup_descendants soup).

(** [soup.find(...)]: the first result of [find_all], or [None]. *)
Definition find (crit : Node -> bool) (soup : Soup) : option Node :=
  head (find_all crit soup).

(** The simple selectors [select] is called with. *)
Inductive Selector :=
| SelType (name : string)    (* [article] *)
| SelClass (cls : string)    (* [.article] *)
| SelId (id : string).       (* [#main] *)

(** The classes of a tag: its [class] attribute split at whitespace. *)
Definition classes (n : Node) : list string :=
  match get "class" n with
  | Some v => split_ws v
  | None => []
  end.

Definition matches (sel : Selector) (n : Node) : bool :=
  match n with
  | Tag nm _ _ =>
      match sel with
      | SelType t => String.eqb nm t
      | SelClass c => existsb (String.eqb c) (classes n)
      | SelId i => match get "id" n with
                   | Some v => String.eqb v i
                   | None => false
                   end
      end
  | _ => false
  end.

(** [soup.select('s1, s2, ...')]: the elements matching any selector of
    the group, in document order. *)
Definition select (group : list Selector) (soup : Soup) : list Node :=
  List.filter (fun n => existsb (fun sel => matches sel n) group)
              (soup_descendants soup).

End Bs4.

(** ** scraper.py: [WebScraper] *)

Module Scraper.
Import Py Bs4.

(** The dictionary [parse_content] returns. *)
Record PageContent := {
  title : string;
  description : string;
  og_data : gmap string string;
  content : string
}.

(** Python truthiness of [tag.get(key)]: present and not empty. *)
Definition truthy (v : option string) : bool :=
  match v with
  | Some "" | None => false
  | Some _ => true
  end.

(** [tag[key]]: the attribute's value, a [KeyError] when the tag has
    no such attribute. *)
Definition subscript (key : string) (tag : Node) : PyResult string :=
  match get key tag with
  | Some value => Return value
  | None => Raise ("'" ++ key ++ "'")
  end.

(** The value of [meta['content'].strip()] where the guard made sure
    the attribute exists. *)
Definition content_of (meta : Node) : string :=
  strip (default "" (get "content" meta)).

Definition container_selectors : list Selector :=
  [SelType "article"; SelClass "article"; SelClass "post"; SelClass "content";
   SelType "main"; SelId "main"; SelId "content"].

(** An element [select] returns for the container selectors. *)
Definition is_container (n : Node) : bool :=
  existsb (fun sel => matches sel n) container_selectors.

(** The tags the Open-Graph loop visits:
    [soup.find_all('meta', property=re.compile('^og:'))]. *)
Definition is_og_meta (n : Node) : bool :=
  has_name "meta" n &&
  match get "property" n with
  | Some p => startswith "og:" p
  | None => false
  end.

(** [meta.get('property', '').replace('og:', '')] *)
Definition property_name (meta : Node) : string :=
  replace "og:" "" (default "" (get "property" meta)).

(** The guard of the loop body:
    [if property_name and meta.get('content')]. *)
Definition og_stored (meta : Node) : bool :=
  negb (String.eqb (property_name meta) "") && truthy (get "content" meta).

(** The meta elements whose iteration writes the key [k]. *)
Definition writes (k : string) (meta : Node) : bool :=
  og_stored meta && String.eqb (property_name meta) k.

(** One iteration of the Open-Graph loop, as it runs: the subscript
    [meta['content']] can raise. *)
Definition og_iteration (og_data : gmap string string) (meta : Node)
  : PyResult (gmap string string) :=
  let property_name := property_name meta in
  if negb (String.eqb property_name "") && truthy (get "content" meta)
  then content ← subscript "content" meta;
       Return (<[property_name := strip content]> og_data)
  else Return og_data.

(** The loop [for meta in soup.find_all(...)]. *)
Fixpoint og_loop (og_data : gmap string string) (metas : list Node)
  : PyResult (gmap string string) :=
  match metas with
  | [] => Return og_data
  | meta :: rest => og_data ← og_iteration og_data meta; og_loop og_data rest
  end.

(** What one iteration makes of the map when it does not raise. *)
Definition og_step (og : gmap string string) (meta : Node) : gmap string string :=
  if og_stored meta
  then <[property_name meta := content_of meta]> og
  else og.

(** The map the loop builds when no iteration raises. *)
Definition extract_og (soup : Soup) : gmap string string :=
  foldl og_step ∅ (find_all is_og_meta soup).

(** The title block of [parse_content]; nothing in it can raise. *)
Definition page_title (soup : Soup) : string :=
  match find (has_name "title") soup with
  | Some title_tag => strip (get_text "" title_tag)
  | None => ""
  end.

(** The criteria of [soup.find('meta', attrs={'name': 'description'})]. *)
Definition is_meta_description (n : Node) : bool :=
  has_name "meta" n && bool_decide (get "name" n = Some "description").

(** The meta-description block of [parse_content] as it runs: the
    subscript [meta_desc['content']] can raise. *)
Definition description_block (soup : Soup) : PyResult string :=
  match find is_meta_description soup with
  | Some meta_desc =>
      if truthy (get "content" meta_desc)
      then content ← subscript "content" meta_desc; Return (strip content)
      else Return ""
  | None => Return ""
  end.

(** The description the block computes when it does not raise. *)
Definition page_description (soup : Soup) : string :=
  match find (fun n => has_name "meta" n &&
                       bool_decide (get "name" n = Some "description")) soup with
  | Some meta_desc =>
      if truthy (get "content" meta_desc) then content_of meta_desc else ""
  | None => ""
  end.

(** [text_blocks.sort(key=lambda x: len(x[1]), reverse=True)]: a stable
    sort, longest first; blocks of equal length keep their order. *)
Fixpoint insert_block (b : Node * string) (sorted : list (Node * string))
  : list (Node * string) :=
  match sorted with
  | [] => [b]
  | y :: rest =>
      if (len (snd b) <? len (snd y))%nat then y :: insert_block b rest
      else b :: sorted
  end.

Definition sort_blocks (blocks : list (Node * string)) : list (Node * string) :=
  foldr insert_block [] blocks.

(** The paragraphs Method 2 joins. *)
Definition paragraph_texts (soup : Soup) : list string :=
  List.filter (fun t => (40 <? len t)%nat)
    (map (fun p => strip (get_text "" p)) (find_all (has_name "p") soup)).

(** The candidates of Method 3, in document order. *)
Definition text_blocks (soup : Soup) : list (Node * string) :=
  List.filter (fun b => (200 <? len (snd b))%nat)
    (map (fun tag => (tag, strip (get_text "" tag)))
         (find_all (fun n => has_name "div" n || has_name "section" n) soup)).

(** The patterns of [_clean_text]; the eighth is [Â© \d{4}]. *)
Definition common_patterns : list (list Re.Item) :=
  [Re.literal "Menu"; Re.literal "Search"; Re.literal "Home";
   Re.literal "Contact"; Re.literal "About"; Re.literal "Privacy Policy";
   Re.literal "Terms of Service";
   [Re.Lit "194"; Re.Lit "169"; Re.Lit " "; Re.Digit; Re.Digit; Re.Digit; Re.Digit];
   Re.literal "All Rights Reserved"; Re.literal "Copyright"].

(** The loop [for pattern in common_patterns: text = re.sub(pattern, '', text,
    flags=re.IGNORECASE)]. *)
Definition delete_patterns (ps : list (list Re.Item)) (text : string) : string :=
  foldl (fun t pattern => Re.sub_delete pattern t) text ps.

Definition _clean_text (text : string) : string :=
  (* Remove excessive whitespace and line breaks *)
  let text := Re.sub_spaces text in
  let text := Re.sub_blank_lines text in
  (* Remove common website navigation and footer text *)
  let text := delete_patterns common_patterns text in
  (* Trim text and fix indentation *)
  let lines := split_newline text in
  let cleaned_lines := List.filter (fun l => negb (String.eqb l "")) (map strip lines) in
  join (NL ++ NL) cleaned_lines.

Section WithLibraries.
(** [str(soup)] followed by [self.h2t.handle]: the conversion of the
    document to Markdown by html2text, configured in [__init__]. *)
Variable h2t_handle : Soup -> string.

(** The HTML parser: [BeautifulSoup(html_content, 'html.parser')].
    It returns the tree or raises. *)
Variable BeautifulSoup : string -> PyResult Soup.

Definition _extract_article_content (soup : Soup) : string :=
  (* Method 1: common article containers *)
  match select container_selectors soup with
  | first :: _ => get_text NL first
  | [] =>
      (* Method 2: text of the paragraph tags *)
      let p_tags := find_all (has_name "p") soup in
      let joined := join (NL ++ NL) (paragraph_texts soup) in
      if (3 <? length p_tags)%nat && (500 <? len joined)%nat then joined
      else
        (* Method 3: the largest text block *)
        match sort_blocks (text_blocks soup) with
        | largest :: _ => snd largest
        | [] =>
            (* Method 4: HTML2Text *)
            let markdown := h2t_handle soup in
            let markdown := Re.sub_images markdown in
            Re.sub_blank_lines markdown
        end
  end.

(** The result of [parse_content] once the tree is built, when
    nothing in its body raises. *)
Definition parse_soup (soup : Soup) : PageContent :=
  let title := page_title soup in
  let description := page_description soup in
  let og := extract_og soup in
  let article_content := _extract_article_content soup in
  let article_content := _clean_text article_content in
  {| title := title; description := description;
     og_data := og; content := article_content |}.

(** [parse_content], statement by statement.  It has no [try]: what
    the parser or a subscript raises leaves the method. *)
Definition parse_content (html_content : string) : PyResult PageContent :=
  soup ← BeautifulSoup html_content;
  (* Title *)
  let title := page_title soup in
  (* Meta description *)
  description ← description_block soup;
  (* OGP metadata *)
  og_data ← og_loop ∅ (find_all is_og_meta soup);
  (* Extract main content, clean up the content *)
  let article_content := _extract_article_content soup in
  let article_content := _clean_text article_content in
  Return {| title := title; description := description;
            og_data := og_data; content := article_content |}.

End WithLibraries.

(** The extraction reaches Method 4: whatever html2text produces, the
    result is its output after the two clean-up substitutions. *)
Definition falls_to_method4 (soup : Soup) : Prop :=
  forall h2t_handle,
    _extract_article_content h2t_handle soup
    = Re.sub_blank_lines (Re.sub_images (h2t_handle soup)).

(** The condition under which Method 2 returns. *)
Definition method2_succeeds (soup : Soup) : bool :=
  (3 <? length (find_all (has_name "p") soup))%nat
  && (500 <? len (join (NL ++ NL) (paragraph_texts soup)))%nat.

End Scraper.

(** ** rate_limiter.py: [RateLimiter] *)

Module Limiter.

(** The limiter's fields.  A timestamp is a value of [time.time()],
    taken as an exact number of seconds. *)
Record RateLimiter := {
  limit : Z;
  window : Z;
  clients : gmap string (list Q)
}.

(** [current_time - t < self.window] *)
Definition in_window (self : RateLimiter) (current_time t : Q) : bool :=
  if Qlt_le_dec (current_time - t) (inject_Z (window self)) then true else false.

(** [[t for t in entries if current_time - t < self.window]] *)
Definition prune (self : RateLimiter) (current_time : Q) (entries : list Q) : list Q :=
  List.filter (in_window self current_time) entries.

Definition set_clients (self : RateLimiter) (c : gmap string (list Q)) : RateLimiter :=
  {| limit := limit self; window := window self; clients := c |}.

(** [is_rate_limited]: the body run under the lock, with the clock's
    reading as an argument.  Returns the answer and the limiter after
    the call. *)
Definition is_rate_limited (self : RateLimiter) (current_time : Q) (client_id : string)
  : bool * RateLimiter :=
  (* Create new entry for client if it doesn't exist *)
  let c0 := match clients self !! client_id with
            | Some _ => clients self
            | None => <[client_id := []]> (clients self)
            end in
  (* Remove expired requests *)
  let pruned := prune self current_time (default [] (c0 !! client_id)) in
  let c1 := <[client_id := pruned]> c0 in
  (* Check if request count exceeds limit *)
  if (limit self <=? Z.of_nat (length pruned))%Z
  then (true, set_clients self c1)
  else (false, set_clients self (<[client_id := (pruned ++ [current_time])%list]> c1)).

(** [_cleanup_old_entries]: prune every client and delete the empty ones. *)
Definition _cleanup_old_entries (self : RateLimiter) (current_time : Q) : RateLimiter :=
  set_clients self
    (filter (fun kv => kv.2 ≠ []) (prune self current_time <$> clients self)).

(** What the [rate_limit] decorator makes of the answer: the request is
    let through exactly when the client is not rate limited. *)
Definition allowed (r : bool * RateLimiter) : bool := negb (fst r).

(** A sequence of calls, each with its clock reading and client; the
    list says which were let through. *)
Fixpoint run_calls (self : RateLimiter) (calls : list (Q * string))
  : list bool * RateLimiter :=
  match calls with
  | [] => ([], self)
  | (t, c) :: rest =>
      let r := is_rate_limited self t c in
      let (out, final) := run_calls (snd r) rest in
      (allowed r :: out, final)
  end.

(** [RateLimiter(limit, window)] *)
Definition new (limit window : Z) : RateLimiter :=
  {| limit := limit; window := window; clients := ∅ |}.

End Limiter.

(** ** analyzer.py: [PerplexityAnalyzer] *)

Module Analyzer.
Import Py.

Inductive Level := DEBUG | INFO | WARNING | ERROR.

(** What a call does besides returning, in the order it happens. *)
Inductive Event :=
| Log (level : Level) (message : string)   (* [logger.<level>(message)] *)
| Sleep (seconds : nat)                    (* [time.sleep(seconds)] *)
| Post (prompt : string).                  (* [requests.post(...)] *)

(** The outcome of [requests.post], [raise_for_status] and [json()]. *)
Inductive Response :=
| RequestException (msg : string) (response_text : option string)
    (* a [requests.exceptions.RequestException] with [str(e) = msg];
       [response_text] is [e.response.text] when [e.response] is truthy *)
| OtherException (msg : string)
    (* any other exception raised while reading the answer *)
| JsonBody (choices : option (list string)).
    (* the decoded answer: the message contents under ["choices"],
       [None] when the key is absent.  The contents are taken to be
       strings: [_call_api] returns the first one unchecked, and an
       answer whose content is [null] or of another type is left out
       of the model. *)

(** The service: the outcome of the [k]-th request, given its prompt. *)
Definition Api := nat -> string -> Response.

Record PerplexityAnalyzer := {
  api_key : string;
  max_retries : nat;
  retry_delay : nat
}.

Definition _build_prompt (content query_type : string) : string :=
  if String.eqb query_type "summary" then
    "Please provide a summary and key points for the following content." ++ NL
    ++ "            " ++ NL
    ++ "Content:" ++ NL
    ++ content ++ NL
    ++ NL
    ++ "Summary (approximately 300 characters):" ++ NL
    ++ "Key points (up to 5):" ++ NL
  else if String.eqb query_type "analysis" then
    "Please provide a detailed analysis of the following content. Include main information, reliability assessment, additional related information, and different perspectives." ++ NL
    ++ NL
    ++ "Content:" ++ NL
    ++ content ++ NL
    ++ NL
    ++ "Analysis:" ++ NL
    ++ "1. Summary of main information" ++ NL
    ++ "2. Assessment of information reliability" ++ NL
    ++ "3. Supplementary information (from web search)" ++ NL
    ++ "4. Different perspectives or considerations" ++ NL
    ++ "5. Related data or statistics (if available)" ++ NL
  else if String.eqb query_type "custom" then
    content
  else
    "Please summarize the following content:" ++ NL
    ++ NL
    ++ content ++ NL.

(** [_call_api], as the [k]-th request to the service. *)
Definition _call_api (api : Api) (k : nat) (prompt : string)
  : PyResult string * list Event :=
  let sent := [Log DEBUG "Calling Perplexity API"; Post prompt] in
  match api k prompt with
  | JsonBody (Some (c :: _)) => (Return c, sent)
  | JsonBody _ => (Raise "Invalid response from Perplexity API", sent)
  | OtherException e => (Raise e, sent)
  | RequestException e resp =>
      (Raise ("Perplexity API call error: " ++ e),
       (sent ++ [Log ERROR ("Perplexity API call error: " ++ e)]
             ++ match resp with
                | Some text => [Log ERROR ("API response: " ++ text)]
                | None => []
                end)%list)
  end.

Definition attempt_warning (self : PerplexityAnalyzer) (attempt : nat) (e : string) : Event :=
  Log WARNING ("API call failed (attempt " ++ str_of_nat (attempt + 1) ++ "/"
               ++ str_of_nat (max_retries self) ++ "): " ++ e).

Definition terminal_error (e : string) : Event :=
  Log ERROR ("API call failed (max retries reached): " ++ e).

(** The loop [for attempt in range(self.max_retries)], entered at
    [attempt] with [remaining] iterations to go.  Falling out of the
    loop returns [None]. *)
Fixpoint retry_loop (self : PerplexityAnalyzer) (api : Api) (prompt : string)
         (remaining attempt : nat) : PyResult (option string) * list Event :=
  match remaining with
  | O => (Return None, [])
  | S remaining' =>
      match _call_api api attempt prompt with
      | (Return result, tr) => (Return (Some result), tr)
      | (Raise e, tr) =>
          if (attempt <? max_retries self - 1)%nat
          then
            let (r, tr') := retry_loop self api prompt remaining' (S attempt) in
            (r, (tr ++ [attempt_warning self attempt e; Sleep (retry_delay self)] ++ tr')%list)
          else
            (Raise ("Perplexity API call error: " ++ e),
             (tr ++ [attempt_warning self attempt e; terminal_error e])%list)
      end
  end.

Definition analyze (self : PerplexityAnalyzer) (api : Api) (content query_type : string)
  : PyResult (option string) * list Event :=
  if String.eqb (api_key self) ""
  then (Raise "Perplexity API key is not configured", [])
  else
    let prompt := _build_prompt content query_type in
    retry_loop self api prompt (max_retries self) 0.

(** The events [analyze] reports for failures: warnings and errors. *)
Definition is_failure_event (e : Event) : bool :=
  match e with
  | Log WARNING _ | Log ERROR _ => true
  | _ => false
  end.

Definition is_attempt_warning (e : Event) : bool :=
  match e with
  | Log WARNING m => startswith "API call failed (attempt " m
  | _ => false
  end.

(** An event marked terminal: the message says max retries reached. *)
Definition is_terminal (e : Event) : bool :=
  match e with
  | Log _ m => startswith "API call failed (max retries reached)" m
  | _ => false
  end.

End Analyzer.

(** ** Sample inputs *)

Module Samples.
Import Py Bs4 Analyzer.

Definition text_tag (name : string) (text : string) : Node :=
  Tag name ∅ [NavigableString text].

Definition og_meta (property content : string) : Node :=
  Tag "meta" (<["property" := property]> {["content" := content]}) [].

(** [<meta property="og:title" content="A">] and later
    [<meta property="og:title" content="B">] *)
Definition two_og_titles : Soup :=
  [Tag "head" ∅ [og_meta "og:title" "A"; og_meta "og:title" "B"]].

(** [<meta property="og:title" content="">] *)
Definition empty_og_title : Soup := [og_meta "og:title" ""].

(** [<meta property="og:title" content="A">] and later
    [<meta property="og:title" content="">] *)
Definition title_then_empty : Soup :=
  [og_meta "og:title" "A"; og_meta "og:title" ""].

(** A page without a title whose description and Open-Graph elements
    have no [content] attribute: [<meta name="description">] and
    [<meta property="og:title">]. *)
Definition bare_metas : Soup :=
  [Tag "head" ∅ [Tag "meta" {["name" := "description"]} [];
                 Tag "meta" {["property" := "og:title"]} []]].

(** A long [div], an [article] and a longer [div]. *)
Definition article_among_divs : Soup :=
  [text_tag "div" (times "x" 300);
   Tag "article" ∅ [NavigableString "Hello"; text_tag "b" "world"];
   text_tag "div" (times "y" 400)].

(** Five paragraphs of 50 characters each and nothing else. *)
Definition five_paragraphs : Soup :=
  [text_tag "p" (times "a" 50); text_tag "p" (times "b" 50);
   text_tag "p" (times "c" 50); text_tag "p" (times "d" 50);
   text_tag "p" (times "e" 50)].

(** One [div] whose text is exactly 200 characters long. *)
Definition div_of_200 : Soup := [text_tag "div" (times "x" 200)].

(** An HTML parser that rejects a marked section with an unknown
    keyword, the way [html.parser] refuses such markup, and builds
    the tree of a page without elements otherwise. *)
Definition rejecting_parser (html_content : string) : PyResult Soup :=
  if startswith "<![x[" html_content
  then Raise "unknown status keyword 'x' in marked section"
  else Return [NavigableString html_content].

(** The analyzer the claims speak of: a key and three attempts. *)
Definition three_attempts : PerplexityAnalyzer :=
  {| api_key := "key"; max_retries := 3; retry_delay := 2 |}.

(** A service that is unreachable at every request. *)
Definition always_down : Api :=
  fun _ _ => RequestException "connection refused" None.

(** A service whose answers never carry a choice. *)
Definition always_empty : Api := fun _ _ => JsonBody None.

End Samples.

(** ** The limiter over a sequence of requests *)

Module LimiterRuns.
Import Limiter.

(** The timestamps the client has on record, none when it has no entry. *)
Definition stored (self : RateLimiter) (client_id : string) : list Q :=
  default [] (clients self !! client_id).

(** The clock readings at which requests of [client_id] were let
    through, in a sequence of calls run from [self]. *)
Fixpoint admitted_times (client_id : string) (self : RateLimiter)
    (calls : list (Q * string)) : list Q :=
  match calls with
  | [] => []
  | (t, c) :: rest =>
      let r := is_rate_limited self t c in
      ((if String.eqb client_id c && allowed r then [t] else [])
       ++ admitted_times client_id (snd r) rest)%list
  end.

(** A clock that never goes back: readings in order, none before [lo]. *)
Fixpoint nondecreasing_from (lo : Q) (ts : list Q) : Prop :=
  match ts with
  | [] => True
  | t :: rest => (lo <= t)%Q /\ nondecreasing_from t rest
  end.

(** The last reading of the clock, [lo] when there was none. *)
Fixpoint final_time (lo : Q) (ts : list Q) : Q :=
  match ts with
  | [] => lo
  | t :: rest => final_time t rest
  end.

End LimiterRuns.

(** ** Reading the trace of the analyzer *)

Module AnalyzerTrace.
Import Analyzer.

(** The prompts of the requests sent, in order. *)
Definition posts (tr : list Event) : list string :=
  flat_map (fun e => match e with Post p => [p] | _ => [] end) tr.

(** The durations slept, in order. *)
Definition sleeps (tr : list Event) : list nat :=
  flat_map (fun e => match e with Sleep s => [s] | _ => [] end) tr.

(** The attempt warnings and the terminal events reported. *)
Definition attempt_warnings (tr : list Event) : list Event :=
  List.filter is_attempt_warning tr.

Definition terminal_events (tr : list Event) : list Event :=
  List.filter is_terminal tr.

(** The [k]-th request fails: [_call_api] raises. *)
Definition call_fails (api : Api) (prompt : string) (k : nat) : Prop :=
  exists e, fst (_call_api api k prompt) = Raise e.

End AnalyzerTrace.

(** ** security.py: API keys and Basic authentication *)

Module Security.
Import Py.

(** The settings read from the environment when the module is loaded.
    [None] is a variable that is not set. *)
Record Settings := {
  API_KEY : option string;
  API_KEYS : list string;
  BASIC_AUTH_USERNAME : option string;
  BASIC_AUTH_PASSWORD : option string
}.

(** Python truthiness of a value that is [None] or a string. *)
Definition truthy (v : option string) : bool :=
  match v with
  | Some (String _ _) => true
  | _ => false
  end.

Definition is_ascii (s : string) : bool :=
  all_chars (fun c => (N_of_ascii c <? 128)%N) s.

(** [hmac.compare_digest(a, b)] where [b] is a string and [a] a string
    or [None]: equality of two ASCII strings, a [TypeError] otherwise. *)
Definition compare_digest (a : option string) (b : string) : PyResult bool :=
  match a with
  | Some a =>
      if is_ascii a && is_ascii b then Return (String.eqb a b)
      else Raise "comparing strings with non-ASCII characters is not supported"
  | None =>
      Raise "unsupported operand types(s) or combination of types: 'NoneType' and 'str'"
  end.

(** The loop [for valid_key in API_KEYS] of [check_api_key]. *)
Fixpoint check_keys (api_key : string) (keys : list string) : PyResult bool :=
  match keys with
  | [] => Return false
  | valid_key :: rest =>
      if truthy (Some valid_key)
      then match compare_digest (Some api_key) valid_key with
           | Return true => Return true
           | Return false => check_keys api_key rest
           | Raise e => Raise e
           end
      else check_keys api_key rest
  end.

Definition check_api_key (cfg : Settings) (api_key : option string) : PyResult bool :=
  if negb (truthy api_key) then Return false
  else
    (* Check master API key *)
    let master :=
      if truthy (API_KEY cfg)
      then compare_digest api_key (default "" (API_KEY cfg))
      else Return false in
    match master with
    | Return true => Return true
    | Return false =>
        (* Check multiple API keys *)
        check_keys (default "" api_key) (API_KEYS cfg)
    | Raise e => Raise e
    end.

(** What the authentication reads of a request: [request.path],
    [request.headers.get('X-API-Key')], [request.args.get('api_key')]
    and [request.authorization] with its [username] and [password]. *)
Record Request := {
  path : string;
  header_api_key : option string;
  arg_api_key : option string;
  authorization : option (option string * option string)
}.

(** The two refusals: the 401 response that asks for Basic
    authentication and the 403 response. *)
Inductive Denied := Unauthorized401 | Forbidden403.

(** [request.headers.get('X-API-Key') or request.args.get('api_key')] *)
Definition presented_key (req : Request) : option string :=
  if truthy (header_api_key req) then header_api_key req else arg_api_key req.

(** [BASIC_AUTH_USERNAME and BASIC_AUTH_PASSWORD] *)
Definition basic_configured (cfg : Settings) : bool :=
  truthy (BASIC_AUTH_USERNAME cfg) && truthy (BASIC_AUTH_PASSWORD cfg).

(** [BASIC_AUTH_USERNAME and BASIC_AUTH_PASSWORD and auth and
    auth.username == BASIC_AUTH_USERNAME and
    hmac.compare_digest(auth.password, BASIC_AUTH_PASSWORD)] *)
Definition basic_auth_ok (cfg : Settings) (req : Request) : PyResult bool :=
  if basic_configured cfg
  then match authorization req with
       | Some (username, password) =>
           if bool_decide (username = BASIC_AUTH_USERNAME cfg)
           then compare_digest password (default "" (BASIC_AUTH_PASSWORD cfg))
           else Return false
       | None => Return false
       end
  else Return false.

(** Is the path one the [before_request] hook checks? *)
Definition protected (p : string) : bool :=
  startswith "/api/" p && negb (String.eqb p "/api/health").

(** The decision of the hook [authenticate] of [setup_security]:
    [None] lets the request go on, a refusal ends it.  The warning it
    logs before a refusal is added where the hook is run, in
    [App.before_request]. *)
Definition authenticate (cfg : Settings) (req : Request) : PyResult (option Denied) :=
  if protected (path req)
  then
    (* Check API key authentication *)
    match check_api_key cfg (presented_key req) with
    | Raise e => Raise e
    | Return true => Return None
    | Return false =>
        (* Check Basic authentication *)
        match basic_auth_ok cfg req with
        | Raise e => Raise e
        | Return true => Return None
        | Return false =>
            (* Authentication failed *)
            if basic_configured cfg
            then Return (Some Unauthorized401)
            else Return (Some Forbidden403)
        end
    end
  else Return None.

End Security.

(** ** app.py, error_handler.py and [WebScraper.scrape]: the two routes *)

Set Warnings "-abstract-large-number".

Module App.
Import Py Bs4 Scraper Analyzer Limiter.

(** [s[:n]] for a non-negative [n] *)
Fixpoint slice_to (n : nat) (s : string) : string :=
  match n, s with
  | S k, String c s' => String c (slice_to k s')
  | _, _ => ""
  end.

(** The outcome of [requests.get] and [raise_for_status]: a
    [RequestException] with its message, or a response with its declared
    encoding and its body decoded with the declared and with the
    apparent encoding. *)
Inductive HttpGet :=
| GetFails (msg : string)
| GetOk (encoding : option string) (text apparent_text : string).

(** What a request does besides answering: page fetches, and the
    events of the analyzer's trace, which also carries the log lines. *)
Inductive Effect :=
| Fetch (url : string)
| Ev (e : Event).

Definition log (level : Level) (message : string) : Effect := Ev (Log level message).

(** error_handler.py: the subclasses of [APIError] and their codes. *)
Inductive ErrorClass := ScrapingError | AnalysisError | ValidationError | ExternalAPIError.

Definition status_code (cls : ErrorClass) : nat :=
  match cls with
  | ScrapingError => 400
  | AnalysisError => 500
  | ValidationError => 400
  | ExternalAPIError => 502
  end.

(** An exception leaving a view: an [APIError] of some class, or any
    other exception, with [str(e)]. *)
Inductive Failure :=
| APIError (cls : ErrorClass) (message : string)
| PlainException (message : string).

(** [str(e)] *)
Definition message_of (f : Failure) : string :=
  match f with
  | APIError _ message => message
  | PlainException message => message
  end.

#[global] Instance ErrorClass_eq_dec : EqDecision ErrorClass.
Proof. solve_decision. Defined.

(** [APIError.to_dict] *)
Definition to_dict (payload : option (gmap string string)) (message : string)
  : gmap string string :=
  <["error" := message]> (default ∅ payload).

(** The environment of app.py; [MAX_CONTENT_LENGTH] is taken
    non-negative. *)
Record Env := {
  PERPLEXITY_API_KEY : option string;
  MAX_CONTENT_LENGTH : nat
}.

(** The dictionary [scrape_url] returns; [summary] tells which of the
    keys ["summary"] and ["summary_error"] it has. *)
Inductive Summary :=
| NoSummary
| SummaryText (text : option string)
| SummaryError (message : string).

Record ScrapeResult := {
  sr_url : string;
  sr_title : string;
  sr_description : string;
  sr_og_data : gmap string string;
  sr_content_length : nat;
  sr_content_preview : string;
  sr_summary : Summary
}.

(** A decoded JSON value, as [request.get_json()] returns it: [None],
    a [bool], an [int], a [float] (which stands by its [repr]), a
    [str], a [list] or a [dict]. *)
#[warnings="-register-all"]
Inductive Json :=
| JNull
| JBool (b : bool)
| JInt (z : Z)
| JFloat (repr : string)
| JString (s : string)
| JArray (items : list Json)
| JObject (members : gmap string Json).

(** Python truthiness, [bool(v)]. *)
Definition json_truthy (v : Json) : bool :=
  match v with
  | JNull => false
  | JBool b => b
  | JInt z => negb (z =? 0)%Z
  | JFloat repr => negb (String.eqb repr "0.0" || String.eqb repr "-0.0")
  | JString s => negb (String.eqb s "")
  | JArray items => match items with [] => false | _ :: _ => true end
  | JObject members => match map_to_list members with [] => false | _ :: _ => true end
  end.

(** [type(v).__name__] *)
Definition type_name (v : Json) : string :=
  match v with
  | JNull => "NoneType"
  | JBool _ => "bool"
  | JInt _ => "int"
  | JFloat _ => "float"
  | JString _ => "str"
  | JArray _ => "list"
  | JObject _ => "dict"
  end.

(** [str(e)] of the [AttributeError] that [v.name] raises when the
    type of [v] has no attribute [name]. *)
Definition no_attribute (v : Json) (name : string) : string :=
  "'" ++ type_name v ++ "' object has no attribute '" ++ name ++ "'".

(** The query type as [_build_prompt] compares it with its three
    names: a value that is no string equals none of them, as the empty
    string does. *)
Definition query_name (query_type : Json) : string :=
  match query_type with
  | JString s => s
  | _ => ""
  end.

(** The dictionary [analyze_url] returns; [ar_query_type],
    [ar_custom_query] and [ar_content_length] are the members of its
    ["metadata"]. *)
Record AnalyzeResult := {
  ar_url : string;
  ar_title : string;
  ar_description : string;
  ar_analysis : option string;
  ar_query_type : Json;
  ar_custom_query : Json;
  ar_content_length : nat
}.

(** The responses of the application. *)
Inductive Reply :=
| JsonReply (status : nat) (body : gmap string string)
| ScrapeReply (result : ScrapeResult)                 (* 200 *)
| AnalyzeReply (result : AnalyzeResult)               (* 200 *)
| RateLimitReply (limit window : Z)                   (* 429 *)
| AuthReply (refusal : Security.Denied).              (* 401 or 403 *)

(** A request: what the authentication reads, the client address and
    the outcome of [request.get_json()], which returns the decoded body
    or raises (a body that is no JSON, a content type that is not
    JSON). *)
Record HttpRequest := {
  credentials : Security.Request;
  remote_addr : string;
  json : PyResult Json
}.

(** [POST /api/scrape] and [POST /api/analyze] *)
Inductive Route := ScrapeRoute | AnalyzeRoute.

(** The two limiters of app.py. *)
Record Limiters := {
  api_limiter : RateLimiter;
  analysis_limiter : RateLimiter
}.

Definition limiters_at_start : Limiters :=
  {| api_limiter := new 10 60; analysis_limiter := new 5 60 |}.

Definition limiter_of (route : Route) (ls : Limiters) : RateLimiter :=
  match route with
  | ScrapeRoute => api_limiter ls
  | AnalyzeRoute => analysis_limiter ls
  end.

Definition other (route : Route) : Route :=
  match route with
  | ScrapeRoute => AnalyzeRoute
  | AnalyzeRoute => ScrapeRoute
  end.

(** The analyzer the routes build: [PerplexityAnalyzer(PERPLEXITY_API_KEY)]
    with the defaults of its constructor. *)
Definition analyzer_of (env : Env) : PerplexityAnalyzer :=
  {| api_key := default "" (PERPLEXITY_API_KEY env); max_retries := 3; retry_delay := 2 |}.

(** The validation both routes begin with, from [request.get_json()]
    on; it yields the body and the URL.  What [get_json], [data.get] or
    [url.startswith] raises is no [APIError]. *)
Definition validate (got : PyResult Json) : Failure + (gmap string Json * string) :=
  match got with
  | Raise e => inl (PlainException e)
  | Return data =>
      if negb (json_truthy data)
      then inl (APIError ValidationError "JSON data is required")
      else
        match data with
        | JObject members =>
            let url := default JNull (members !! "url") in
            if negb (json_truthy url)
            then inl (APIError ValidationError "URL is required")
            else
              match url with
              | JString url =>
                  if startswith "http://" url || startswith "https://" url
                  then inr (members, url)
                  else inl (APIError ValidationError "Not a valid URL")
              | _ => inl (PlainException (no_attribute url "startswith"))
              end
        | _ => inl (PlainException (no_attribute data "get"))
        end
  end.

(** [content[:n] + "..."] when the content is longer than [n]. *)
Definition shorten (n : nat) (content : string) : string :=
  if (n <? len content)%nat then slice_to n content ++ "..." else content.

Section WithWorld.
(** The web, the HTML parser, html2text and the analysis service. *)
Variable web : string -> HttpGet.
Variable BeautifulSoup : string -> PyResult Soup.
Variable h2t_handle : Soup -> string.
Variable api : Api.
(** [str(v)] of a decoded JSON value that is no string. *)
Variable py_str : Json -> string.
(** [str(hash(s))[:8]] and [traceback.format_exc()] in the handler of
    unexpected exceptions. *)
Variable error_id : string -> string.
Variable format_exc : string -> string.
Variable cfg : Security.Settings.
Variable env : Env.

(** [WebScraper.scrape] *)
Definition scrape (url : string) : PyResult string * list Effect :=
  match web url with
  | GetOk encoding text apparent_text =>
      (Return (if bool_decide (encoding = Some "ISO-8859-1") then apparent_text else text),
       [Fetch url])
  | GetFails e =>
      (Raise ("Scraping error: " ++ e),
       [Fetch url; log ERROR ("Scraping error [" ++ url ++ "]: " ++ e)])
  end.

(** The block "Execute scraping" of both routes. *)
Definition fetch_page (url : string) : (Failure + string) * list Effect :=
  match scrape url with
  | (Return html_content, tr) =>
      if (MAX_CONTENT_LENGTH env <? len html_content)%nat
      then (inr (slice_to (MAX_CONTENT_LENGTH env) html_content),
            (tr ++ [log WARNING ("Content too large: " ++ str_of_nat (len html_content)
                                 ++ " bytes")])%list)
      else (inr html_content, tr)
  | (Raise e, tr) =>
      (inl (APIError ScrapingError ("Failed to scrape URL: " ++ e)),
       (tr ++ [log ERROR ("Scraping error: " ++ e)])%list)
  end.

(** [scraper.parse_content(html_content)] inside a route: an exception
    of the parser is no [APIError]. *)
Definition parse_page (html_content : string) : Failure + PageContent :=
  match parse_content h2t_handle BeautifulSoup html_content with
  | Return parsed_content => inr parsed_content
  | Raise e => inl (PlainException e)
  end.

(** A value inside an f-string: a string is itself. *)
Definition render (v : Json) : string :=
  match v with
  | JString s => s
  | _ => py_str v
  end.

(** The outer [except] clauses of a view: an [APIError] of one of the
    classes it names is raised again as it is, any other exception after
    an error is logged. *)
Definition reraise (named : list ErrorClass) (f : Failure) : list Effect :=
  match f with
  | APIError cls _ =>
      if bool_decide (cls ∈ named) then []
      else [log ERROR ("Unexpected error: " ++ message_of f)]
  | PlainException e => [log ERROR ("Unexpected error: " ++ e)]
  end.

(** The view [scrape_url]. *)
Definition scrape_url (req : HttpRequest) : (Failure + ScrapeResult) * list Effect :=
  match validate (json req) with
  | inl f => (inl f, reraise [ValidationError; ScrapingError] f)
  | inr (_, url) =>
      let tr0 := [log INFO ("Scraping request: " ++ url)] in
      match fetch_page url with
      | (inl f, tr1) => (inl f, (tr0 ++ tr1 ++ reraise [ValidationError; ScrapingError] f)%list)
      | (inr html_content, tr1) =>
          match parse_page html_content with
          | inl f => (inl f, (tr0 ++ tr1 ++ reraise [ValidationError; ScrapingError] f)%list)
          | inr parsed_content =>
              let content_for_summary := shorten 10000 (content parsed_content) in
              let result summary :=
                {| sr_url := url;
                   sr_title := title parsed_content;
                   sr_description := description parsed_content;
                   sr_og_data := og_data parsed_content;
                   sr_content_length := len (content parsed_content);
                   sr_content_preview := shorten 500 (content parsed_content);
                   sr_summary := summary |} in
              let done :=
                [log INFO ("Scraping completed: " ++ url ++ " (title: "
                           ++ slice_to 30 (title parsed_content) ++ "...)")] in
              if Security.truthy (PERPLEXITY_API_KEY env)
              then
                match analyze (analyzer_of env) api content_for_summary "summary" with
                | (Return text, tr2) =>
                    (inr (result (SummaryText text)),
                     (tr0 ++ tr1 ++ map Ev tr2 ++ done)%list)
                | (Raise e, tr2) =>
                    (inr (result (SummaryError
                            ("Error occurred while summarizing content: " ++ e))),
                     (tr0 ++ tr1 ++ map Ev tr2
                      ++ [log ERROR ("Summary error: " ++ e)] ++ done)%list)
                end
              else (inr (result NoSummary), (tr0 ++ tr1 ++ done)%list)
          end
      end
  end.

(** The view [analyze_url]. *)
Definition analyze_url (req : HttpRequest) : (Failure + AnalyzeResult) * list Effect :=
  match validate (json req) with
  | inl f => (inl f, reraise [ValidationError; ScrapingError; AnalysisError] f)
  | inr (data, url) =>
      let query_type := default (JString "analysis") (data !! "query_type") in
      let custom_query := default (JString "") (data !! "custom_query") in
      let tr0 := [log INFO ("Analysis request: " ++ url ++ " (type: "
                            ++ render query_type ++ ")")] in
      if negb (Security.truthy (PERPLEXITY_API_KEY env))
      then (inl (APIError AnalysisError "Perplexity API key is not configured"), tr0)
      else
        match fetch_page url with
        | (inl f, tr1) => (inl f, (tr0 ++ tr1 ++ reraise [ValidationError; ScrapingError; AnalysisError] f)%list)
        | (inr html_content, tr1) =>
            match parse_page html_content with
            | inl f => (inl f, (tr0 ++ tr1 ++ reraise [ValidationError; ScrapingError; AnalysisError] f)%list)
            | inr parsed_content =>
                let content_for_analysis := shorten 15000 (content parsed_content) in
                let call :=
                  if json_truthy custom_query
                  then
                    analyze (analyzer_of env) api
                      (render custom_query ++ NL ++ NL ++ "URL: " ++ url ++ NL ++ NL
                       ++ "Content:" ++ NL ++ content_for_analysis)
                      "custom"
                  else analyze (analyzer_of env) api content_for_analysis
                         (query_name query_type) in
                match call with
                | (Return analysis_result, tr2) =>
                    (inr {| ar_url := url;
                            ar_title := title parsed_content;
                            ar_description := description parsed_content;
                            ar_analysis := analysis_result;
                            ar_query_type := query_type;
                            ar_custom_query :=
                              if json_truthy custom_query then custom_query else JNull;
                            ar_content_length := len (content parsed_content) |},
                     (tr0 ++ tr1 ++ map Ev tr2
                      ++ [log INFO ("Analysis completed: " ++ url)])%list)
                | (Raise e, tr2) =>
                    (inl (APIError AnalysisError
                            ("Error occurred while analyzing content: " ++ e)),
                     (tr0 ++ tr1 ++ map Ev tr2
                      ++ [log ERROR ("Analysis error: " ++ e)])%list)
                end
            end
        end
  end.

(** The error handlers registered by [register_error_handlers]. *)
Definition handle_failure (f : Failure) : Reply * list Effect :=
  match f with
  | APIError cls message =>
      (JsonReply (status_code cls) (to_dict None message),
       [log ERROR ("API Error: " ++ message ++ " (Code: "
                   ++ str_of_nat (status_code cls) ++ ")")])
  | PlainException e =>
      (JsonReply 500
         (<["error_id" := error_id e]>
            {["error" := "An internal server error occurred"]}),
       [log ERROR ("Unhandled Exception: " ++ e ++ NL ++ format_exc e)])
  end.

(** The hook run before every request. *)
Definition before_request (req : HttpRequest) : (Failure + option Reply) * list Effect :=
  match Security.authenticate cfg (credentials req) with
  | Raise e => (inl (PlainException e), [])
  | Return None => (inr None, [])
  | Return (Some refusal) =>
      (inr (Some (AuthReply refusal)),
       [log WARNING ("API authentication failed: " ++ remote_addr req ++ " - "
                     ++ Security.path (credentials req))])
  end.

(** The decorator [rate_limit(limiter)] around a view, with the
    clock's reading. *)
Definition rate_limit {A} (to_reply : A -> Reply)
    (view : HttpRequest -> (Failure + A) * list Effect)
    (limiter : RateLimiter) (now : Q) (req : HttpRequest)
  : (Failure + Reply) * list Effect * RateLimiter :=
  let r := is_rate_limited limiter now (remote_addr req) in
  if fst r
  then (inr (RateLimitReply (limit limiter) (window limiter)),
        [log WARNING ("Rate limit exceeded for client: " ++ remote_addr req)],
        snd r)
  else
    match view req with
    | (inl f, tr) => (inl f, tr, snd r)
    | (inr a, tr) => (inr (to_reply a), tr, snd r)
    end.

(** The two routes that take a POST, as decorated in app.py: each
    behind its own limiter. *)
Definition view_function (route : Route) (now : Q) (req : HttpRequest) (ls : Limiters)
  : (Failure + Reply) * list Effect * Limiters :=
  match route with
  | ScrapeRoute =>
      let '(r, tr, limiter) := rate_limit ScrapeReply scrape_url (api_limiter ls) now req in
      (r, tr, {| api_limiter := limiter; analysis_limiter := analysis_limiter ls |})
  | AnalyzeRoute =>
      let '(r, tr, limiter) :=
        rate_limit AnalyzeReply analyze_url (analysis_limiter ls) now req in
      (r, tr, {| api_limiter := api_limiter ls; analysis_limiter := limiter |})
  end.

(** A request to a route, from the hook to the response: the hook, the
    decorated view, and the error handler for what either raises. *)
Definition full_dispatch_request (route : Route) (now : Q) (req : HttpRequest)
    (ls : Limiters) : Reply * list Effect * Limiters :=
  match before_request req with
  | (inl f, tr) =>
      let (reply, tr') := handle_failure f in (reply, (tr ++ tr')%list, ls)
  | (inr (Some reply), tr) => (reply, tr, ls)
  | (inr None, tr) =>
      match view_function route now req ls with
      | (inl f, tr1, ls') =>
          let (reply, tr') := handle_failure f in (reply, (tr ++ tr1 ++ tr')%list, ls')
      | (inr reply, tr1, ls') => (reply, (tr ++ tr1)%list, ls')
      end
  end.

End WithWorld.

(** The pages fetched and the prompts sent in a trace. *)
Definition fetches (tr : list Effect) : list string :=
  flat_map (fun e => match e with Fetch u => [u] | _ => [] end) tr.

Definition prompts (tr : list Effect) : list string :=
  flat_map (fun e => match e with Ev (Post p) => [p] | _ => [] end) tr.

End App.

(** ** A small world for the routes *)

Module AppSamples.
Import Py Bs4 Analyzer App.

(** A web with a host that is down, a page the parser rejects and
    pages that say hello. *)
Definition web (url : string) : HttpGet :=
  if String.eqb url "https://down.example/" then GetFails "connection refused"
  else if String.eqb url "https://odd.example/" then GetOk (Some "utf-8") "<![x[" "<![x["
  else GetOk (Some "utf-8") "Hello" "Hello".

Definition h2t_handle (soup : Soup) : string := "Hello" ++ NL.

(** A service that answers every request. *)
Definition answering : Api := fun _ _ => JsonBody (Some ["Key points."]).

Definition py_str (v : Json) : string := "<" ++ type_name v ++ ">".

Definition error_id (e : string) : string := "12345678".

Definition format_exc (e : string) : string := "Traceback (most recent call last):".

Definition cfg : Security.Settings :=
  {| Security.API_KEY := Some "master"; Security.API_KEYS := [];
     Security.BASIC_AUTH_USERNAME := None; Security.BASIC_AUTH_PASSWORD := None |}.

Definition env : Env :=
  {| PERPLEXITY_API_KEY := Some "pplx-key"; MAX_CONTENT_LENGTH := 1000 |}.

Definition env_without_key : Env :=
  {| PERPLEXITY_API_KEY := None; MAX_CONTENT_LENGTH := 1000 |}.

(** A request of [client] to [path] with the key [key] in its header
    and [data] as its decoded body. *)
Definition request (path key client : string) (data : Json) : HttpRequest :=
  {| credentials :=
       {| Security.path := path; Security.header_api_key := Some key;
          Security.arg_api_key := None; Security.authorization := None |};
     remote_addr := client;
     json := Return data |}.

(** The body [{"url": url}]. *)
Definition url_only (url : string) : Json := JObject {["url" := JString url]}.

(** Limiters in which [client] has used up both budgets at time 0. *)
Definition exhausted (client : string) : Limiters :=
  {| api_limiter :=
       {| Limiter.limit := 10; Limiter.window := 60;
          Limiter.clients := {[client := repeat 0%Q 10]} |};
     analysis_limiter :=
       {| Limiter.limit := 5; Limiter.window := 60;
          Limiter.clients := {[client := repeat 0%Q 5]} |} |}.

End AppSamples.

(** * Properties *)

(** ** The string and regex functions on small inputs *)

Section Checks.
Import Py Re Scraper.

Example strip_both_ends : strip ("  " ++ NL ++ "a b " ++ NL) = "a b".
Proof. reflexivity. Qed.

Example split_newline_keeps_empty_lines :
  split_newline ("a" ++ NL ++ NL ++ "b") = ["a"; ""; "b"].
Proof. reflexivity. Qed.

Example replace_removes_every_occurrence : replace "og:" "" "og:blog:title" = "bltitle".
Proof. reflexivity. Qed.

Example sub_spaces_collapses_runs :
  sub_spaces (" a " ++ NL ++ NL ++ " b") = " a b".
Proof. reflexivity. Qed.

Example sub_blank_lines_collapses :
  sub_blank_lines ("a" ++ NL ++ " " ++ NL ++ NL ++ " b") = "a" ++ NL ++ NL ++ " b".
Proof. reflexivity. Qed.

Example sub_images_is_lazy : sub_images "x ![a](b) y ![c](d)) z" = "x  y ) z".
Proof. reflexivity. Qed.

Example sub_delete_ignores_case :
  sub_delete (literal "Menu") "a MENU b menus" = "a  b s".
Proof. reflexivity. Qed.

Example sub_delete_copyright_year :
  delete_patterns common_patterns
    (String "226" (String "169" " 2024 Acme. All rights reserved."))
  = " Acme. .".
Proof. reflexivity. Qed.

End Checks.

(** ** Strings *)

Section StringFacts.
Import Py.

Lemma all_chars_weaken (P Q : ascii -> bool) (s : string) :
  (forall c, P c = true -> Q c = true) ->
  all_chars P s = true -> all_chars Q s = true.
Proof.
  intros HPQ. induction s as [|c s IH]; [done|]. cbn.
  intros [Hc Hs]%andb_prop. by rewrite (HPQ _ Hc), (IH Hs).
Qed.

Lemma all_chars_lstrip P s : all_chars P s = true -> all_chars P (lstrip s) = true.
Proof.
  induction s as [|c s IH]; [done|]. cbn -[isspace].
  intros H. destruct (isspace c); [|done].
  apply andb_prop in H as [_ H]. auto.
Qed.

Lemma all_chars_rstrip P s : all_chars P s = true -> all_chars P (rstrip s) = true.
Proof.
  induction s as [|c s IH]; [done|]. cbn -[isspace].
  intros [Hc Hs]%andb_prop. specialize (IH Hs).
  destruct (rstrip s) as [|d r].
  - destruct (isspace c); [done|]. cbn. by rewrite Hc.
  - cbn in *. by rewrite Hc, IH.
Qed.

Lemma all_chars_strip P s : all_chars P s = true -> all_chars P (strip s) = true.
Proof. intros H. by apply all_chars_rstrip, all_chars_lstrip. Qed.

Lemma lstrip_starts_clean s : starts_clean (lstrip s).
Proof.
  induction s as [|c s IH]; [done|]. cbn -[isspace].
  destruct (isspace c) eqn:E; [done|]. exact E.
Qed.

Lemma lstrip_id s : starts_clean s -> lstrip s = s.
Proof. destruct s as [|c s]; [done|]. cbn -[isspace]. by intros ->. Qed.

Lemma rstrip_starts_clean s : starts_clean s -> starts_clean (rstrip s).
Proof.
  destruct s as [|c s]; [done|]. cbn -[isspace]. intros E.
  destruct (rstrip s); by rewrite ?E.
Qed.

Lemma rstrip_idemp s : rstrip (rstrip s) = rstrip s.
Proof.
  induction s as [|c s IH]; [done|]. cbn -[isspace].
  destruct (rstrip s) as [|d r] eqn:E.
  - destruct (isspace c) eqn:Ec; [done|]. cbn -[isspace]. by rewrite Ec.
  - cbn -[isspace] in *. by rewrite IH.
Qed.

Lemma strip_idemp s : strip (strip s) = strip s.
Proof.
  unfold strip.
  rewrite (lstrip_id (rstrip (lstrip s))).
  - apply rstrip_idemp.
  - apply rstrip_starts_clean, lstrip_starts_clean.
Qed.

Lemma split_newline_no_newline s :
  all_chars (fun c => negb (Ascii.eqb c nl)) s = true -> split_newline s = [s].
Proof.
  induction s as [|c s IH]; [done|]. cbn -[nl].
  intros [Hc Hs]%andb_prop. rewrite (IH Hs).
  by destruct (Ascii.eqb c nl).
Qed.

End StringFacts.

(** ** The normalizer *)

Section Normalizer.
Import Py Re Scraper.

Lemma plain_not_newline c : plain c = true -> negb (Ascii.eqb c nl) = true.
Proof.
  unfold plain. destruct (Ascii.eqb c nl) eqn:E; [|done].
  apply Ascii.eqb_eq in E as ->. done.
Qed.

Lemma sub_spaces_plain b s : all_chars plain (sub_spaces_from b s) = true.
Proof.
  revert b. induction s as [|c s IH]; intros b; [done|].
  cbn -[isspace]. destruct (isspace c) eqn:E.
  - destruct b; [apply IH|]. cbn -[isspace]. apply IH.
  - cbn -[isspace]. unfold plain at 1. rewrite E. cbn. apply IH.
Qed.

Lemma sub_blank_lines_no_newline s :
  all_chars (fun c => negb (Ascii.eqb c nl)) s = true ->
  sub_blank_lines_from 0 s = s.
Proof.
  induction s as [|c s IH]; [done|].
  cbn -[nl]. intros [Hc Hs]%andb_prop.
  apply negb_true_iff in Hc. rewrite Hc, (IH Hs). done.
Qed.

Lemma sub_spaces_no_newline text :
  all_chars (fun c => negb (Ascii.eqb c nl)) (sub_spaces text) = true.
Proof.
  eapply all_chars_weaken; [apply plain_not_newline|apply sub_spaces_plain].
Qed.

(** C9.  Collapsing blank lines after collapsing whitespace changes
    nothing: for every text, the second substitution of [_clean_text],
    [re.sub(r'\n\s*\n+', '\n\n', ...)], applied to the result of the
    first, [re.sub(r'\s+', ' ', ...)], returns that result unchanged,
    because the first leaves no newline to match. *)
Theorem blank_line_pass_is_noop (text : string) :
  sub_blank_lines (sub_spaces text) = sub_spaces text.
Proof.
  apply sub_blank_lines_no_newline, sub_spaces_no_newline.
Qed.

Lemma sub_delete_all_chars P p k s :
  all_chars P s = true -> all_chars P (sub_delete_from p k s) = true.
Proof.
  revert k. induction s as [|c s IH]; intros k; [done|].
  cbn -[match_items]. intros [Hc Hs]%andb_prop.
  destruct k; [|by apply IH].
  destruct (match_items p (String c s)); [by apply IH|].
  cbn. by rewrite Hc, IH.
Qed.

Lemma sub_delete_no_match p s : search p s = false -> sub_delete_from p 0 s = s.
Proof.
  induction s as [|c s IH]; [done|].
  cbn -[match_items]. intros [Hm Hs]%orb_false_elim.
  rewrite Hm, (IH Hs). done.
Qed.

Lemma delete_patterns_all_chars P ps s :
  all_chars P s = true -> all_chars P (delete_patterns ps s) = true.
Proof.
  revert s. induction ps as [|p ps IH]; intros s H; [done|].
  cbn. apply IH. by apply sub_delete_all_chars.
Qed.

Lemma delete_patterns_no_match ps s :
  existsb (fun p => search p s) ps = false -> delete_patterns ps s = s.
Proof.
  induction ps as [|p ps IH]; [done|].
  cbn. intros [Hp Hps]%orb_false_elim.
  unfold sub_delete. rewrite (sub_delete_no_match _ _ Hp). by apply IH.
Qed.

(** The last step: on a text without newline it is [strip]. *)
Lemma rejoin_single_line s :
  all_chars (fun c => negb (Ascii.eqb c nl)) s = true ->
  join (NL ++ NL)
    (List.filter (fun l => negb (String.eqb l "")) (map strip (split_newline s)))
  = strip s.
Proof.
  intros H. rewrite (split_newline_no_newline _ H). cbn -[strip].
  destruct (strip s); done.
Qed.

Lemma clean_text_unfold text :
  _clean_text text = strip (delete_patterns common_patterns (sub_spaces text)).
Proof.
  unfold _clean_text.
  change (sub_blank_lines (sub_spaces text))
    with (sub_blank_lines_from 0 (sub_spaces text)).
  rewrite (sub_blank_lines_no_newline _ (sub_spaces_no_newline text)).
  apply rejoin_single_line.
  eapply all_chars_weaken; [apply plain_not_newline|].
  apply delete_patterns_all_chars, sub_spaces_plain.
Qed.

Lemma clean_text_plain text : all_chars plain (_clean_text text) = true.
Proof.
  rewrite clean_text_unfold.
  apply all_chars_strip, delete_patterns_all_chars, sub_spaces_plain.
Qed.

Lemma clean_text_stripped text : strip (_clean_text text) = _clean_text text.
Proof. rewrite clean_text_unfold. apply strip_idemp. Qed.

(** On a text whose only whitespace is single plain spaces, the first
    substitution finds each space and puts it back. *)
Lemma sub_spaces_fixed s b :
  all_chars plain s = true ->
  contains "  " s = false ->
  (b = true -> starts_clean s) ->
  sub_spaces_from b s = s.
Proof.
  revert b. induction s as [|c s IH]; intros b Hp Hc Hb; [done|].
  cbn -[isspace] in Hp. apply andb_prop in Hp as [Hpc Hps].
  cbn -[isspace startswith] in Hc. apply orb_false_elim in Hc as [Hsw Hcs].
  cbn -[isspace]. destruct (isspace c) eqn:Ec.
  - destruct b; [specialize (Hb eq_refl); cbn -[isspace] in Hb; congruence|].
    unfold plain in Hpc. rewrite Ec in Hpc. cbn in Hpc.
    apply Ascii.eqb_eq in Hpc as ->.
    f_equal. apply IH; [done..|]. intros _.
    destruct s as [|d s]; [done|]. cbn -[isspace].
    destruct (isspace d) eqn:Ed; [|done].
    cbn -[isspace] in Hps. apply andb_prop in Hps as [Hpd _].
    unfold plain in Hpd. rewrite Ed in Hpd. cbn in Hpd.
    apply Ascii.eqb_eq in Hpd as ->. discriminate Hsw.
  - f_equal. apply IH; [done..|]. done.
Qed.

(** The substitutions never make a text longer, and make it shorter
    when they find something to replace. *)
Lemma len_lstrip s : (len (lstrip s) <= len s)%nat.
Proof.
  induction s as [|c s IH]; [done|]. cbn -[isspace].
  destruct (isspace c); cbn; unfold len in *; lia.
Qed.

Lemma len_rstrip s : (len (rstrip s) <= len s)%nat.
Proof.
  induction s as [|c s IH]; [done|]. cbn -[isspace]. unfold len in *.
  destruct (rstrip s) as [|d r]; [destruct (isspace c)|]; cbn in *; lia.
Qed.

Lemma len_strip s : (len (strip s) <= len s)%nat.
Proof.
  unfold strip. pose proof (len_rstrip (lstrip s)). pose proof (len_lstrip s). lia.
Qed.

Lemma len_sub_spaces b s : (len (sub_spaces_from b s) <= len s)%nat.
Proof.
  revert b. induction s as [|c s IH]; intros b; [done|].
  cbn -[isspace]. unfold len in *.
  destruct (isspace c); [destruct b|]; cbn;
    try (pose proof (IH true)); try (pose proof (IH false)); lia.
Qed.

Lemma len_sub_spaces_lt b s :
  contains "  " s = true -> (len (sub_spaces_from b s) < len s)%nat.
Proof.
  revert b. induction s as [|c s IH]; intros b; [done|].
  cbn -[isspace startswith]. intros H. apply orb_prop in H as [H|H].
  - destruct s as [|d s]; cbn [startswith] in H; [by rewrite andb_false_r in H|].
    apply andb_prop in H as [Hc H]. apply andb_prop in H as [Hd _].
    apply Ascii.eqb_eq in Hc as <-. apply Ascii.eqb_eq in Hd as <-.
    pose proof (len_sub_spaces true s). unfold len in *.
    destruct b; cbn -[isspace]; change (isspace " ") with true;
      cbn [String.length]; lia.
  - specialize (IH true H) as IHt. specialize (IH false H) as IHf.
    pose proof (len_sub_spaces true s). unfold len in *.
    destruct (isspace c); [destruct b|]; cbn; lia.
Qed.

Lemma len_sub_delete p k s : (len (sub_delete_from p k s) <= len s)%nat.
Proof.
  revert k. induction s as [|c s IH]; intros k; [done|].
  cbn -[match_items]. unfold len in *.
  destruct k; [destruct (match_items p (String c s))|]; cbn;
    try (pose proof (IH (length p - 1)%nat)); try (pose proof (IH 0%nat));
    try (pose proof (IH k)); lia.
Qed.

Lemma len_sub_delete_lt p s :
  p <> [] -> search p s = true -> (len (sub_delete_from p 0 s) < len s)%nat.
Proof.
  intros Hp. induction s as [|c s IH].
  - destruct p; done.
  - cbn -[match_items]. intros H. unfold len in *.
    destruct (match_items p (String c s)) eqn:E.
    + pose proof (len_sub_delete p (length p - 1) s). unfold len in *. cbn. lia.
    + cbn in H. specialize (IH H). cbn. lia.
Qed.

Lemma len_delete_patterns ps s : (len (delete_patterns ps s) <= len s)%nat.
Proof.
  revert s. induction ps as [|p ps IH]; intros s; [done|].
  change (delete_patterns (p :: ps) s) with (delete_patterns ps (sub_delete p s)).
  pose proof (IH (sub_delete p s)). pose proof (len_sub_delete p 0 s).
  unfold sub_delete in *. lia.
Qed.

Lemma len_delete_patterns_lt ps s :
  Forall (fun p => p <> []) ps ->
  existsb (fun p => search p s) ps = true ->
  (len (delete_patterns ps s) < len s)%nat.
Proof.
  intros Hne. revert s. induction Hne as [|p ps Hp _ IH]; intros s; [done|].
  change (delete_patterns (p :: ps) s) with (delete_patterns ps (sub_delete p s)).
  cbn [existsb]. destruct (search p s) eqn:E; cbn [orb].
  - intros _. pose proof (len_delete_patterns ps (sub_delete p s)).
    pose proof (len_sub_delete_lt p s Hp E). unfold sub_delete in *. lia.
  - unfold sub_delete. rewrite (sub_delete_no_match _ _ E). apply IH.
Qed.

Lemma common_patterns_nonempty : Forall (fun p => p <> []) common_patterns.
Proof. repeat constructor; done. Qed.

(** C8, as the code has it.  A second normalization leaves a
    normalized text unchanged exactly when that text contains neither
    two adjacent spaces nor a match of one of the boilerplate patterns. *)
Theorem clean_text_twice (text : string) :
  _clean_text (_clean_text text) = _clean_text text
  <-> contains "  " (_clean_text text) = false
      /\ existsb (fun p => search p (_clean_text text)) common_patterns = false.
Proof.
  split.
  - intros Heq. rewrite (clean_text_unfold (_clean_text text)) in Heq.
    set (t := _clean_text text) in *.
    assert (Hlen : len (strip (delete_patterns common_patterns (sub_spaces t))) = len t)
      by (by rewrite Heq).
    pose proof (len_strip (delete_patterns common_patterns (sub_spaces t))) as H1.
    pose proof (len_delete_patterns common_patterns (sub_spaces t)) as H2.
    pose proof (len_sub_spaces false t) as H3. fold (sub_spaces t) in H3.
    assert (Hsp : contains "  " t = false).
    { destruct (contains "  " t) eqn:E; [|done].
      pose proof (len_sub_spaces_lt false t E) as H4. fold (sub_spaces t) in H4. lia. }
    split; [done|].
    destruct (existsb (fun p => search p t) common_patterns) eqn:E; [|done].
    assert (Hfix : sub_spaces t = t).
    { apply sub_spaces_fixed; [apply clean_text_plain|done|done]. }
    rewrite Hfix in *.
    pose proof (len_delete_patterns_lt _ t common_patterns_nonempty E). lia.
  - intros [Hsp Hpat].
    rewrite (clean_text_unfold (_clean_text text)).
    unfold sub_spaces.
    rewrite sub_spaces_fixed; [|apply clean_text_plain|done|done].
    rewrite delete_patterns_no_match by done.
    apply clean_text_stripped.
Qed.

Lemma clean_text_twice_witness :
  _clean_text (_clean_text "Hello   world ") = _clean_text "Hello   world ".
Proof. apply (clean_text_twice "Hello   world "); vm_compute; split; reflexivity. Defined.

(** C8, as the spec has it, fails: deleting a boilerplate token can
    leave two spaces side by side, which the next normalization
    collapses. *)
Lemma clean_text_not_idempotent :
  _clean_text (_clean_text "a Menu b") <> _clean_text "a Menu b".
Proof. intros H. vm_compute in H. discriminate H. Qed.

End Normalizer.

(** ** The extraction cascade *)

Section Extraction.
Import Py Bs4 Scraper Samples.

Lemma filter_none {A} (f : A -> bool) (l : list A) :
  (forall y, In y l -> f y = false) -> List.filter f l = [].
Proof.
  induction l as [|y l IH]; [done|]. intros H.
  cbn. rewrite (H y) by (by left). apply IH. intros; apply H; by right.
Qed.

Lemma filter_first {A} (f : A -> bool) (pre : list A) (x : A) (post : list A) :
  (forall y, In y pre -> f y = false) -> f x = true ->
  List.filter f (pre ++ x :: post)%list = x :: List.filter f post.
Proof.
  intros Hpre Hx. rewrite List.filter_app. cbn.
  by rewrite Hx, (filter_none f pre Hpre).
Qed.

(** C4.  When some element of the page matches a container selector,
    the main content is the text of the first such element in
    document order: its strings, depth first, joined by newlines.
    Neither the paragraphs, the blocks nor html2text have a say. *)
Theorem container_wins h2t_handle (soup : Soup) (pre : list Node) (first : Node)
    (post : list Node) :
  soup_descendants soup = (pre ++ first :: post)%list ->
  (forall n, In n pre -> is_container n = false) ->
  is_container first = true ->
  _extract_article_content h2t_handle soup = join NL (all_strings first)
  /\ content (parse_soup h2t_handle soup) = _clean_text (join NL (all_strings first)).
Proof.
  intros Hd Hpre Hfirst.
  assert (Hsel : select container_selectors soup
                 = first :: List.filter is_container post).
  { unfold select. rewrite Hd. by apply (filter_first is_container). }
  assert (Hx : _extract_article_content h2t_handle soup = join NL (all_strings first)).
  { unfold _extract_article_content. by rewrite Hsel. }
  split; [done|]. unfold parse_soup. cbn [content]. by rewrite Hx.
Qed.

Lemma container_wins_witness :
  _extract_article_content (fun _ => "") article_among_divs
  = "Hello" ++ NL ++ "world".
Proof.
  apply (container_wins (fun _ => "") article_among_divs
           [text_tag "div" (times "x" 300); NavigableString (times "x" 300)]
           (Tag "article" ∅ [NavigableString "Hello"; text_tag "b" "world"])
           [NavigableString "Hello"; text_tag "b" "world"; NavigableString "world";
            text_tag "div" (times "y" 400); NavigableString (times "y" 400)]).
  - reflexivity.
  - intros n [<-|[<-|[]]]; reflexivity.
  - reflexivity.
Defined.

Lemma len_app (s1 s2 : string) : len (s1 ++ s2) = (len s1 + len s2)%nat.
Proof.
  induction s1 as [|c s1 IH]; [done|].
  change (String c s1 ++ s2) with (String c (s1 ++ s2)).
  unfold len in *. cbn [String.length]. by rewrite IH.
Qed.

(** C5, as the code has it.  On a page without container elements,
    with exactly five paragraphs of 50 characters each after trimming
    and no [div] or [section] longer than 200 characters, Method 2 is
    not selected: the paragraphs joined with a blank line between each
    make 258 characters, not more than the 500 that Method 2 asks for,
    and the extraction falls through to Method 4. *)
Theorem five_short_paragraphs_fall_through h2t_handle (soup : Soup) :
  select container_selectors soup = [] ->
  map (fun p => len (strip (get_text "" p))) (find_all (has_name "p") soup)
    = [50; 50; 50; 50; 50]%nat ->
  text_blocks soup = [] ->
  len (join (NL ++ NL) (paragraph_texts soup)) = 258%nat
  /\ method2_succeeds soup = false
  /\ _extract_article_content h2t_handle soup
     = Re.sub_blank_lines (Re.sub_images (h2t_handle soup)).
Proof.
  intros Hsel Hp Hblocks.
  assert (Hlen : length (find_all (has_name "p") soup) = 5%nat).
  { by rewrite <- (length_map (fun p => len (strip (get_text "" p)))), Hp. }
  assert (Hjoin : len (join (NL ++ NL) (paragraph_texts soup)) = 258%nat).
  { unfold paragraph_texts.
    destruct (find_all (has_name "p") soup) as [|p1 [|p2 [|p3 [|p4 [|p5 [|]]]]]];
      try discriminate Hlen.
    cbn [map] in Hp. injection Hp as H1 H2 H3 H4 H5.
    cbn [map List.filter]. rewrite H1, H2, H3, H4, H5. cbn [Nat.ltb Nat.leb List.filter].
    cbn [join]. rewrite !len_app, H1, H2, H3, H4, H5. reflexivity. }
  assert (Hm2 : method2_succeeds soup = false).
  { unfold method2_succeeds. rewrite Hjoin. apply andb_false_r. }
  split; [done|]. split; [done|].
  unfold _extract_article_content. rewrite Hsel.
  change ((3 <? length (find_all (has_name "p") soup))%nat
          && (500 <? len (join (NL ++ NL) (paragraph_texts soup)))%nat)
    with (method2_succeeds soup).
  by rewrite Hm2, Hblocks.
Qed.

Lemma five_short_paragraphs_witness :
  _extract_article_content (fun _ => "markdown") five_paragraphs = "markdown".
Proof.
  apply (five_short_paragraphs_fall_through (fun _ => "markdown") five_paragraphs);
    vm_compute; reflexivity.
Defined.

(** C5, as the spec has it, fails: on five paragraphs of 50 characters
    Method 2 is not selected; whatever html2text returns is the result,
    and it need not be the joined paragraphs. *)
Lemma five_paragraphs_not_method2 :
  select container_selectors five_paragraphs = []
  /\ map (fun p => len (strip (get_text "" p))) (find_all (has_name "p") five_paragraphs)
     = [50; 50; 50; 50; 50]%nat
  /\ text_blocks five_paragraphs = []
  /\ falls_to_method4 five_paragraphs
  /\ _extract_article_content (fun _ => "") five_paragraphs
     <> join (NL ++ NL) (paragraph_texts five_paragraphs).
Proof.
  split; [reflexivity|]. split; [reflexivity|]. split; [reflexivity|].
  split; [intros h; reflexivity|].
  intros H. vm_compute in H. discriminate H.
Qed.

(** The sort puts first the earliest block among the longest. *)
Lemma sort_blocks_head (blocks : list (Node * string)) :
  blocks <> [] ->
  exists pre b post,
    blocks = (pre ++ b :: post)%list
    /\ (forall x, In x pre -> (len (snd x) < len (snd b))%nat)
    /\ (forall x, In x post -> (len (snd x) <= len (snd b))%nat)
    /\ head (sort_blocks blocks) = Some b.
Proof.
  induction blocks as [|x l IH]; [done|]. intros _.
  destruct l as [|y l'].
  { exists [], x, []. repeat split; by try (intros ? []). }
  destruct IH as (pre & b & post & Hl & Hpre & Hpost & Hhd); [done|].
  change (sort_blocks (x :: y :: l')) with (insert_block x (sort_blocks (y :: l'))).
  destruct (sort_blocks (y :: l')) as [|b' tl] eqn:Hs; [done|].
  cbn in Hhd. injection Hhd as ->.
  cbn [insert_block]. destruct (len (snd x) <? len (snd b))%nat eqn:E.
  - apply Nat.ltb_lt in E.
    exists (x :: pre), b, post. rewrite Hl. repeat split; [|done..].
    intros z [<-|Hz]; [done|]. by apply Hpre.
  - apply Nat.ltb_ge in E.
    exists [], x, (y :: l'). repeat split; [by intros ? []|].
    intros z Hz. rewrite Hl in Hz. apply in_app_or in Hz as [Hz|[<-|Hz]].
    + specialize (Hpre z Hz). lia.
    + done.
    + specialize (Hpost z Hz). lia.
Qed.

Lemma insert_block_In b l x : In x (insert_block b l) -> x = b \/ In x l.
Proof.
  induction l as [|y l IH]; cbn [insert_block In].
  - intros H. destruct H as [H|H]; [by left|destruct H].
  - destruct (len (snd b) <? len (snd y))%nat; cbn [In].
    + intros H. destruct H as [H|H]; [right; by left|].
      destruct (IH H); [by left|right; by right].
    + intros H. destruct H as [H|H]; [by left|by right].
Qed.

Lemma sort_blocks_In l x : In x (sort_blocks l) -> In x l.
Proof.
  revert x. induction l as [|y l IH]; intros x; [done|].
  change (sort_blocks (y :: l)) with (insert_block y (sort_blocks l)).
  intros [->|H]%insert_block_In; [by left|right; by apply IH].
Qed.

Lemma sort_blocks_first_longest pre b post :
  (forall x, In x pre -> (len (snd x) < len (snd b))%nat) ->
  (forall x, In x post -> (len (snd x) <= len (snd b))%nat) ->
  head (sort_blocks (pre ++ b :: post)) = Some b.
Proof.
  intros Hpre Hpost. induction pre as [|x pre IH].
  - change (sort_blocks ([] ++ b :: post)) with (insert_block b (sort_blocks post)).
    destruct (sort_blocks post) as [|y tl] eqn:E; [done|].
    cbn [insert_block].
    assert (len (snd y) <= len (snd b))%nat as Hy.
    { apply Hpost, sort_blocks_In. rewrite E. by left. }
    apply Nat.ltb_ge in Hy. by rewrite Hy.
  - change (sort_blocks ((x :: pre) ++ b :: post))
      with (insert_block x (sort_blocks (pre ++ b :: post))).
    specialize (IH (fun y Hy => Hpre y (or_intror Hy))).
    destruct (sort_blocks (pre ++ b :: post)) as [|y tl]; [discriminate IH|].
    cbn in IH. injection IH as ->.
    cbn [insert_block].
    assert (len (snd x) < len (snd b))%nat as Hx by (apply Hpre; by left).
    apply Nat.ltb_lt in Hx. by rewrite Hx.
Qed.

(** C6, as the code has it.  When Methods 1 and 2 both fail, the
    candidates of Method 3 are the [div] and [section] elements whose
    trimmed text is longer than 200 characters; without candidates the
    extraction goes on to Method 4; otherwise the main content is the
    trimmed text of the longest candidate, the first in document order
    among those of that length. *)
Theorem largest_block_selected h2t_handle (soup : Soup) :
  select container_selectors soup = [] ->
  method2_succeeds soup = false ->
  (forall tag text,
      In (tag, text) (text_blocks soup) <->
      In tag (find_all (fun n => has_name "div" n || has_name "section" n) soup)
      /\ text = strip (get_text "" tag) /\ (200 < len text)%nat)
  /\ (text_blocks soup = [] ->
      _extract_article_content h2t_handle soup
      = Re.sub_blank_lines (Re.sub_images (h2t_handle soup)))
  /\ (text_blocks soup <> [] ->
      exists pre b post,
        text_blocks soup = (pre ++ b :: post)%list
        /\ (forall x, In x pre -> (len (snd x) < len (snd b))%nat)
        /\ (forall x, In x post -> (len (snd x) <= len (snd b))%nat))
  /\ (forall pre b post,
        text_blocks soup = (pre ++ b :: post)%list ->
        (forall x, In x pre -> (len (snd x) < len (snd b))%nat) ->
        (forall x, In x post -> (len (snd x) <= len (snd b))%nat) ->
        _extract_article_content h2t_handle soup = snd b).
Proof.
  intros Hsel Hm2.
  assert (Hx : _extract_article_content h2t_handle soup
               = match sort_blocks (text_blocks soup) with
                 | largest :: _ => snd largest
                 | [] => Re.sub_blank_lines (Re.sub_images (h2t_handle soup))
                 end).
  { unfold _extract_article_content. rewrite Hsel.
    change ((3 <? length (find_all (has_name "p") soup))%nat
            && (500 <? len (join (NL ++ NL) (paragraph_texts soup)))%nat)
      with (method2_succeeds soup).
    by rewrite Hm2. }
  split; [|split; [|split]].
  - intros tag text. unfold text_blocks. rewrite List.filter_In, List.in_map_iff.
    cbn [snd]. rewrite Nat.ltb_lt. split.
    + intros [(t & [= <- <-] & Hin) Hlen]. done.
    + intros (Hin & -> & Hlen). split; [|done]. by exists tag.
  - intros Hnil. by rewrite Hx, Hnil.
  - intros Hne. destruct (sort_blocks_head _ Hne) as (pre & b & post & H1 & H2 & H3 & _).
    by exists pre, b, post.
  - intros pre b post Hl Hpre Hpost. rewrite Hx, Hl.
    pose proof (sort_blocks_first_longest pre b post Hpre Hpost) as H.
    destruct (sort_blocks (pre ++ b :: post)); [done|].
    cbn in H. by injection H as ->.
Qed.

Lemma largest_block_witness :
  _extract_article_content (fun _ => "")
    [text_tag "div" (times "x" 201); text_tag "section" (times "y" 300);
     text_tag "div" (times "z" 300)]
  = times "y" 300.
Proof.
  apply (largest_block_selected (fun _ => "")
    [text_tag "div" (times "x" 201); text_tag "section" (times "y" 300);
     text_tag "div" (times "z" 300)] eq_refl eq_refl)
    with (pre := [(text_tag "div" (times "x" 201), times "x" 201)])
         (b := (text_tag "section" (times "y" 300), times "y" 300))
         (post := [(text_tag "div" (times "z" 300), times "z" 300)]).
  - reflexivity.
  - intros x [<-|[]]. vm_compute. lia.
  - intros x [<-|[]]. vm_compute. lia.
Defined.

(** C6, as the spec has it, fails at the boundary: a block of exactly
    200 characters is not shorter than 200, yet it is no candidate and
    the extraction goes on to Method 4. *)
Lemma block_of_200_not_selected :
  select container_selectors div_of_200 = []
  /\ method2_succeeds div_of_200 = false
  /\ map (fun tag => len (strip (get_text "" tag)))
         (find_all (fun n => has_name "div" n || has_name "section" n) div_of_200)
     = [200%nat]
  /\ text_blocks div_of_200 = []
  /\ falls_to_method4 div_of_200
  /\ _extract_article_content (fun _ => "") div_of_200 <> times "x" 200.
Proof.
  split; [reflexivity|]. split; [reflexivity|]. split; [reflexivity|].
  split; [reflexivity|]. split; [intros h; reflexivity|].
  intros H. vm_compute in H. discriminate H.
Qed.

End Extraction.

(** ** Open-Graph metadata *)

Section OpenGraph.
Import Py Bs4 Scraper Samples.

Lemma replace_no_occurrence old new s :
  contains old s = false -> replace_from old new 0 s = s.
Proof.
  induction s as [|c s IH]; [done|].
  cbn -[startswith]. intros [Hs Hc]%orb_false_elim.
  rewrite Hs, (IH Hc). done.
Qed.

(** Removing [og:] strips the prefix when it occurs nowhere else. *)
Lemma replace_og_prefix rest :
  contains "og:" rest = false -> replace "og:" "" ("og:" ++ rest) = rest.
Proof.
  intros H. unfold replace.
  change ("og:" ++ rest) with (String "o" (String "g" (String ":" rest))).
  cbn. by apply replace_no_occurrence.
Qed.

Lemma og_step_lookup og meta k :
  og_step og meta !! k
  = if writes k meta then Some (content_of meta) else og !! k.
Proof.
  unfold og_step, writes. destruct (og_stored meta); cbn; [|done].
  destruct (String.eqb_spec (property_name meta) k) as [->|Hne].
  - by rewrite lookup_insert_eq.
  - by rewrite lookup_insert_ne.
Qed.

(** After the loop a key holds what the last element writing it stored. *)
Lemma og_loop_lookup metas og k :
  foldl og_step og metas !! k
  = match last (List.filter (writes k) metas) with
    | Some meta => Some (content_of meta)
    | None => og !! k
    end.
Proof.
  revert og. induction metas as [|m metas IH]; intros og; [done|].
  cbn [foldl List.filter]. rewrite IH, og_step_lookup.
  destruct (writes k m); [|done].
  rewrite last_cons. by destruct (last (List.filter (writes k) metas)).
Qed.

Lemma og_step_skips og meta : og_stored meta = false -> og_step og meta = og.
Proof. intros H. unfold og_step. by rewrite H. Qed.

Lemma og_stored_false meta :
  truthy (get "content" meta) = false \/ property_name meta = "" ->
  og_stored meta = false.
Proof.
  unfold og_stored. intros [->| ->]; [apply andb_false_r|done].
Qed.

(** C7, as the code has it.  Let [meta] be one of the [<meta>]
    elements the loop visits.  If its [property] is [og:] followed by
    a non-empty key in which [og:] does not occur again, its [content]
    is present and not empty, and no later element stores under the
    same key, the Open-Graph map holds the trimmed [content] of [meta]
    under that key, whatever earlier elements stored there.  If its
    [content] is missing or empty, or its key is empty, it stores
    nothing: its iteration leaves every map as it is, and the map of
    the page is the one the other elements give. *)
Theorem og_last_wins (soup : Soup) (before : list Node) (meta : Node)
    (after : list Node) (key : string) :
  find_all is_og_meta soup = (before ++ meta :: after)%list ->
  (get "property" meta = Some ("og:" ++ key) ->
   contains "og:" key = false ->
   key <> "" ->
   truthy (get "content" meta) = true ->
   (forall later, In later after -> writes key later = false) ->
   extract_og soup !! key = Some (strip (default "" (get "content" meta))))
  /\ (truthy (get "content" meta) = false \/ property_name meta = "" ->
      (forall og, og_step og meta = og)
      /\ extract_og soup = foldl og_step ∅ (before ++ after)%list).
Proof.
  intros Hall. split.
  - intros Hprop Hocc Hkey Hcontent Hafter.
    assert (Hname : property_name meta = key).
    { unfold property_name. rewrite Hprop. cbn [default]. by apply replace_og_prefix. }
    assert (Hw : writes key meta = true).
    { unfold writes, og_stored. rewrite Hname, Hcontent, String.eqb_refl.
      destruct (String.eqb_spec key ""); done. }
    unfold extract_og. rewrite og_loop_lookup, Hall, List.filter_app.
    cbn [List.filter]. rewrite Hw.
    by rewrite (filter_none _ after Hafter), last_snoc.
  - intros Hno%og_stored_false. split.
    + intros og. by apply og_step_skips.
    + unfold extract_og. rewrite Hall, !foldl_app. cbn [foldl].
      by rewrite og_step_skips.
Qed.

Lemma og_last_wins_witness :
  (extract_og two_og_titles !! "title" = Some "B"
   /\ extract_og two_og_titles = {["title" := "B"]})
  /\ extract_og title_then_empty = {["title" := "A"]}.
Proof.
  split; [split|].
  - apply (og_last_wins two_og_titles [og_meta "og:title" "A"]
             (og_meta "og:title" "B") [] "title"); try reflexivity.
    + done.
    + intros later [].
  - vm_compute. reflexivity.
  - destruct (og_last_wins title_then_empty [og_meta "og:title" "A"]
                (og_meta "og:title" "") [] "title" eq_refl) as [_ H].
    destruct H as [_ ->]; [by left|]. vm_compute. reflexivity.
Defined.

(** C7, as the spec has it, fails: an element whose [content] is the
    empty string stores nothing, not the empty string. *)
Lemma og_empty_content_not_stored :
  find_all is_og_meta empty_og_title = [og_meta "og:title" ""]
  /\ extract_og empty_og_title !! "title" <> Some (strip "").
Proof.
  split; [reflexivity|]. intros H. vm_compute in H. discriminate H.
Qed.

End OpenGraph.

(** ** [parse_content] as a whole *)

Section ParseContent.
Import Py Bs4 Scraper Samples.

(** Behind its guard the subscript finds the attribute. *)
Lemma guarded_subscript tag :
  truthy (get "content" tag) = true ->
  (content ← subscript "content" tag; Return (strip content))
  = Return (content_of tag).
Proof.
  unfold content_of, subscript.
  destruct (get "content" tag) as [value|]; [done|discriminate].
Qed.

Lemma og_iteration_returns og meta :
  og_iteration og meta = Return (og_step og meta).
Proof.
  unfold og_iteration, og_step, og_stored. cbn zeta.
  destruct (negb (String.eqb (property_name meta) "")); [|done].
  cbn [andb]. destruct (truthy (get "content" meta)) eqn:E; [|done].
  unfold content_of, subscript.
  destruct (get "content" meta) as [value|]; [done|discriminate].
Qed.

(** No iteration of the Open-Graph loop raises. *)
Lemma og_loop_returns metas : forall og,
  og_loop og metas = Return (foldl og_step og metas).
Proof.
  induction metas as [|meta rest IH]; intros og; [done|].
  cbn [og_loop foldl]. rewrite og_iteration_returns. apply IH.
Qed.

Lemma description_block_returns soup :
  description_block soup = Return (page_description soup).
Proof.
  unfold description_block, page_description.
  change (fun n => has_name "meta" n && bool_decide (get "name" n = Some "description"))
    with is_meta_description.
  destruct (find is_meta_description soup) as [meta_desc|]; [|done].
  destruct (truthy (get "content" meta_desc)) eqn:E; [|done].
  by apply guarded_subscript.
Qed.

Lemma find_first crit soup first rest :
  find_all crit soup = first :: rest -> find crit soup = Some first.
Proof. intros H. unfold find. by rewrite H. Qed.

Lemma find_nothing crit soup :
  (forall n, In n (soup_descendants soup) -> crit n = false) -> find crit soup = None.
Proof. intros H. unfold find, find_all. by rewrite filter_none. Qed.

Lemma foldl_og_step_skips metas : forall og,
  (forall meta, In meta metas -> og_stored meta = false) ->
  foldl og_step og metas = og.
Proof.
  induction metas as [|meta rest IH]; intros og H; [done|].
  cbn [foldl]. rewrite og_step_skips by (apply H; by left).
  apply IH. intros m Hm. apply H. by right.
Qed.

(** C1, as the code has it.  Once the parser has built the tree,
    [parse_content] does not raise: its two subscripts are reached only
    behind guards that make sure the attribute is there.  It returns a
    result with its four fields.  The title is the trimmed text of the
    first [<title>] element and empty without one; the description is
    the trimmed [content] of the first [<meta name="description">] and
    empty when there is none or its [content] is missing or empty; the
    Open-Graph map is empty when no Open-Graph element has both a key
    and a non-empty [content]; the content is the normalized text of
    the page.  It has no handler of its own, so when the parser raises,
    [parse_content] raises the same. *)
Theorem parse_content_total h2t_handle BeautifulSoup (html_content : string) :
  (forall soup,
      BeautifulSoup html_content = Return soup ->
      parse_content h2t_handle BeautifulSoup html_content
      = Return {| title := page_title soup;
                  description := page_description soup;
                  og_data := extract_og soup;
                  content := _clean_text (_extract_article_content h2t_handle soup) |}
      /\ (forall title_tag rest,
            find_all (has_name "title") soup = title_tag :: rest ->
            page_title soup = strip (get_text "" title_tag))
      /\ ((forall n, In n (soup_descendants soup) -> has_name "title" n = false) ->
          page_title soup = "")
      /\ (forall meta_desc rest value,
            find_all is_meta_description soup = meta_desc :: rest ->
            get "content" meta_desc = Some value ->
            page_description soup = strip value)
      /\ ((forall n, In n (soup_descendants soup) -> is_meta_description n = false)
          \/ (exists meta_desc rest,
                find_all is_meta_description soup = meta_desc :: rest
                /\ truthy (get "content" meta_desc) = false) ->
          page_description soup = "")
      /\ ((forall n, In n (soup_descendants soup) ->
                     is_og_meta n = true -> og_stored n = false) ->
          extract_og soup = ∅))
  /\ (forall e,
      BeautifulSoup html_content = Raise e ->
      parse_content h2t_handle BeautifulSoup html_content = Raise e).
Proof.
  split.
  - intros soup H. split; [|split; [|split; [|split; [|split]]]].
    + unfold parse_content. rewrite H. cbn [mbind PyResult_bind].
      rewrite description_block_returns. cbn [mbind PyResult_bind].
      by rewrite og_loop_returns.
    + intros title_tag rest Hfind. unfold page_title.
      by rewrite (find_first _ _ _ _ Hfind).
    + intros Hnone. unfold page_title. by rewrite find_nothing.
    + intros meta_desc rest value Hfind Hvalue. unfold page_description.
      change (fun n => has_name "meta" n && bool_decide (get "name" n = Some "description"))
        with is_meta_description.
      rewrite (find_first _ _ _ _ Hfind). unfold content_of. rewrite Hvalue.
      by destruct value.
    + intros Hcase. unfold page_description.
      change (fun n => has_name "meta" n && bool_decide (get "name" n = Some "description"))
        with is_meta_description.
      destruct Hcase as [Hnone|(meta_desc & rest & Hfind & Hempty)].
      * by rewrite find_nothing.
      * by rewrite (find_first _ _ _ _ Hfind), Hempty.
    + intros Hnone. unfold extract_og. apply foldl_og_step_skips.
      intros meta [Hin Hog]%List.filter_In. by apply Hnone.
  - intros e H. unfold parse_content. by rewrite H.
Qed.

Lemma parse_content_total_witness :
  parse_content (fun _ => "") (fun _ => Return bare_metas) "<html>"
  = Return {| title := ""; description := ""; og_data := ∅; content := "" |}.
Proof.
  destruct (parse_content_total (fun _ => "") (fun _ => Return bare_metas) "<html>")
    as [H _].
  destruct (H bare_metas eq_refl) as [-> _].
  vm_compute. reflexivity.
Defined.

(** C1, as the spec has it, fails: markup the parser rejects makes
    [parse_content] raise instead of returning empty fields. *)
Lemma parse_content_propagates :
  parse_content (fun _ => "") rejecting_parser "<![x["
  = Raise "unknown status keyword 'x' in marked section".
Proof. reflexivity. Qed.

End ParseContent.

(** ** The rate limiter *)

Section RateLimiting.
Import Limiter.

Lemma in_window_true self now t :
  (now - t < inject_Z (window self))%Q -> in_window self now t = true.
Proof.
  intros H. unfold in_window.
  destruct (Qlt_le_dec (now - t) (inject_Z (window self))) as [_|Hle]; [done|].
  exfalso. by apply (Qlt_not_le _ _ H).
Qed.

Lemma in_window_false self now t :
  (inject_Z (window self) <= now - t)%Q -> in_window self now t = false.
Proof.
  intros H. unfold in_window.
  destruct (Qlt_le_dec (now - t) (inject_Z (window self))) as [Hlt|_]; [|done].
  exfalso. by apply (Qlt_not_le _ _ Hlt).
Qed.

Lemma in_window_iff self now t :
  in_window self now t = true <-> (now - t < inject_Z (window self))%Q.
Proof.
  split; [|apply in_window_true]. unfold in_window.
  by destruct (Qlt_le_dec (now - t) (inject_Z (window self))).
Qed.

(** The call in one step: the client's entry is replaced by the pruned
    sequence, with the current time appended unless the limit is met. *)
Lemma is_rate_limited_unfold self now client_id :
  is_rate_limited self now client_id
  = let pruned := prune self now (default [] (clients self !! client_id)) in
    if (limit self <=? Z.of_nat (length pruned))%Z
    then (true, set_clients self (<[client_id := pruned]> (clients self)))
    else (false, set_clients self
                   (<[client_id := (pruned ++ [now])%list]> (clients self))).
Proof.
  unfold is_rate_limited.
  destruct (clients self !! client_id) as [entries|] eqn:E; cbn zeta.
  - rewrite E. cbn [default]. by rewrite insert_insert_eq.
  - rewrite lookup_insert_eq. cbn [default]. by rewrite !insert_insert_eq.
Qed.

Lemma allowed_step self now client_id :
  let pruned := prune self now (default [] (clients self !! client_id)) in
  let r := is_rate_limited self now client_id in
  (Z.of_nat (length pruned) < limit self)%Z ->
  allowed r = true
  /\ limit (snd r) = limit self /\ window (snd r) = window self
  /\ clients (snd r) !! client_id = Some (pruned ++ [now])%list.
Proof.
  intros pruned r Hlt. subst r. rewrite is_rate_limited_unfold. fold pruned.
  apply Z.leb_gt in Hlt. cbn zeta. rewrite Hlt. cbn. by rewrite lookup_insert_eq.
Qed.

Lemma rejected_step self now client_id :
  let pruned := prune self now (default [] (clients self !! client_id)) in
  let r := is_rate_limited self now client_id in
  (limit self <= Z.of_nat (length pruned))%Z ->
  allowed r = false
  /\ limit (snd r) = limit self /\ window (snd r) = window self
  /\ clients (snd r) !! client_id = Some pruned.
Proof.
  intros pruned r Hle. subst r. rewrite is_rate_limited_unfold. fold pruned.
  apply Z.leb_le in Hle. cbn zeta. rewrite Hle. cbn. by rewrite lookup_insert_eq.
Qed.

(** C2.  Every call prunes the client's stored timestamps to those
    less than [window] seconds old.  If at least [limit] remain, the
    client is rate limited and its entry is the pruned sequence, the
    attempt not recorded; otherwise the current time is appended and
    the request is let through.  With [limit = 2] and [window = 10],
    three calls of one client within a second are answered allowed,
    allowed, refused, and a fourth call once the window has passed
    since the first is allowed. *)
Theorem rate_limiter_admission :
  (forall self now client_id,
      let stored := default [] (clients self !! client_id) in
      let pruned := prune self now stored in
      let r := is_rate_limited self now client_id in
      (forall t, In t pruned <-> In t stored /\ (now - t < inject_Z (window self))%Q)
      /\ ((limit self <= Z.of_nat (length pruned))%Z ->
          allowed r = false
          /\ snd r = set_clients self (<[client_id := pruned]> (clients self)))
      /\ ((Z.of_nat (length pruned) < limit self)%Z ->
          allowed r = true
          /\ snd r = set_clients self
                       (<[client_id := (pruned ++ [now])%list]> (clients self))))
  /\ (forall client_id (t1 t2 t3 t4 : Q),
        (t1 <= t2)%Q -> (t2 <= t3)%Q -> (t3 - t1 <= 1)%Q -> (10 <= t4 - t1)%Q ->
        fst (run_calls (new 2 10)
               [(t1, client_id); (t2, client_id); (t3, client_id); (t4, client_id)])
        = [true; true; false; true]).
Proof.
  split.
  - intros self now c stored pruned r. split; [|split].
    + intros t. subst pruned. unfold prune. rewrite List.filter_In.
      by rewrite in_window_iff.
    + intros Hle. subst r. rewrite is_rate_limited_unfold.
      fold stored. fold pruned. apply Z.leb_le in Hle. cbn zeta. by rewrite Hle.
    + intros Hlt. subst r. rewrite is_rate_limited_unfold.
      fold stored. fold pruned. apply Z.leb_gt in Hlt. cbn zeta. by rewrite Hlt.
  - intros c t1 t2 t3 t4 H12 H23 H31 H41.
    cbn [run_calls].
    (* first call *)
    assert (P1 : prune (new 2 10) t1 (default [] (clients (new 2 10) !! c)) = []).
    { cbn [new clients]. by rewrite lookup_empty. }
    destruct (allowed_step (new 2 10) t1 c) as (A1 & L1 & W1 & C1).
    { rewrite P1. cbn. lia. }
    rewrite P1 in C1. set (s1 := snd (is_rate_limited (new 2 10) t1 c)) in *.
    cbn in C1.
    (* second call *)
    assert (P2 : prune s1 t2 (default [] (clients s1 !! c)) = [t1]).
    { rewrite C1. cbn. rewrite in_window_true; [done|].
      rewrite W1. change (inject_Z (window (new 2 10))) with 10%Q. lra. }
    destruct (allowed_step s1 t2 c) as (A2 & L2 & W2 & C2).
    { rewrite P2, L1. cbn. lia. }
    rewrite P2 in C2. set (s2 := snd (is_rate_limited s1 t2 c)) in *. cbn in C2.
    (* third call *)
    assert (P3 : prune s2 t3 (default [] (clients s2 !! c)) = [t1; t2]).
    { rewrite C2. cbn. rewrite !in_window_true; [done|..];
        rewrite W2, W1; change (inject_Z (window (new 2 10))) with 10%Q; lra. }
    destruct (rejected_step s2 t3 c) as (A3 & L3 & W3 & C3).
    { rewrite P3, L2, L1. cbn. lia. }
    rewrite P3 in C3. set (s3 := snd (is_rate_limited s2 t3 c)) in *.
    (* fourth call *)
    assert (P4 : (length (prune s3 t4 (default [] (clients s3 !! c))) <= 1)%nat).
    { rewrite C3. cbn. rewrite (in_window_false s3 t4 t1).
      - destruct (in_window s3 t4 t2); cbn; lia.
      - rewrite W3, W2, W1. change (inject_Z (window (new 2 10))) with 10%Q. lra. }
    destruct (allowed_step s3 t4 c) as (A4 & _).
    { rewrite L3, L2, L1. cbn. lia. }
    cbn. by rewrite A1, A2, A3, A4.
Qed.

Lemma rate_limiter_admission_witness :
  fst (run_calls (new 2 10)
         [(0, "10.0.0.1"); (1 # 2, "10.0.0.1"); (1, "10.0.0.1"); (21 # 2, "10.0.0.1")]%Q)
  = [true; true; false; true].
Proof.
  apply (proj2 rate_limiter_admission "10.0.0.1" 0 (1 # 2) 1 (21 # 2))%Q;
    vm_compute; discriminate.
Defined.

End RateLimiting.

(** ** The retrying analyzer *)

Section Retrying.
Import Py Analyzer Samples.

(** [_call_api] reports neither attempt warnings nor the terminal event. *)
Lemma call_api_events api k prompt :
  List.filter is_attempt_warning (snd (_call_api api k prompt)) = []
  /\ List.filter is_terminal (snd (_call_api api k prompt)) = [].
Proof.
  unfold _call_api. destruct (api k prompt) as [e [text|]|e|[[|c cs]|]]; done.
Qed.

(** C3, as the code has it.  When the operation fails on each of the
    three attempts, [analyze] reports every failed attempt with a
    warning before it sleeps or gives up, three warnings in all, then
    reports the last failure once more as a separate error event
    marked max retries reached, and raises an exception whose message
    carries the message of the last failure. *)
Theorem analyze_all_attempts_fail (self : PerplexityAnalyzer) (api : Api)
    (content query_type e0 e1 e2 : string) (tr0 tr1 tr2 : list Event) :
  api_key self <> "" ->
  max_retries self = 3%nat ->
  _call_api api 0 (_build_prompt content query_type) = (Raise e0, tr0) ->
  _call_api api 1 (_build_prompt content query_type) = (Raise e1, tr1) ->
  _call_api api 2 (_build_prompt content query_type) = (Raise e2, tr2) ->
  let r := analyze self api content query_type in
  fst r = Raise ("Perplexity API call error: " ++ e2)
  /\ snd r
     = (tr0 ++ [Log WARNING ("API call failed (attempt 1/3): " ++ e0);
                 Sleep (retry_delay self)]
        ++ tr1 ++ [Log WARNING ("API call failed (attempt 2/3): " ++ e1);
                    Sleep (retry_delay self)]
        ++ tr2 ++ [Log WARNING ("API call failed (attempt 3/3): " ++ e2);
                    Log ERROR ("API call failed (max retries reached): " ++ e2)])%list
  /\ List.filter is_attempt_warning (snd r)
     = [Log WARNING ("API call failed (attempt 1/3): " ++ e0);
        Log WARNING ("API call failed (attempt 2/3): " ++ e1);
        Log WARNING ("API call failed (attempt 3/3): " ++ e2)]
  /\ List.filter is_terminal (snd r)
     = [Log ERROR ("API call failed (max retries reached): " ++ e2)].
Proof.
  intros Hkey Hmax H0 H1 H2 r.
  assert (Hr : r = (Raise ("Perplexity API call error: " ++ e2),
                    (tr0 ++ [attempt_warning self 0 e0; Sleep (retry_delay self)]
                     ++ tr1 ++ [attempt_warning self 1 e1; Sleep (retry_delay self)]
                     ++ tr2 ++ [attempt_warning self 2 e2; terminal_error e2])%list)).
  { subst r. unfold analyze.
    destruct (String.eqb_spec (api_key self) "") as [E|_]; [done|].
    rewrite Hmax. cbn [retry_loop]. rewrite H0, H1, H2, Hmax. cbn.
    reflexivity. }
  assert (Hw : forall k e, attempt_warning self k e
               = Log WARNING ("API call failed (attempt " ++ str_of_nat (k + 1)
                              ++ "/3): " ++ e)).
  { intros k e. unfold attempt_warning. by rewrite Hmax. }
  rewrite Hr. cbn [fst snd]. split; [done|]. split.
  { by rewrite !Hw. }
  pose proof (call_api_events api 0 (_build_prompt content query_type)) as [F0 G0].
  pose proof (call_api_events api 1 (_build_prompt content query_type)) as [F1 G1].
  pose proof (call_api_events api 2 (_build_prompt content query_type)) as [F2 G2].
  rewrite H0 in F0, G0. rewrite H1 in F1, G1. rewrite H2 in F2, G2. cbn [snd] in *.
  rewrite !List.filter_app, F0, F1, F2, G0, G1, G2, !Hw. done.
Qed.

Lemma analyze_all_attempts_fail_witness :
  fst (analyze three_attempts always_down "text" "summary")
  = Raise "Perplexity API call error: Perplexity API call error: connection refused".
Proof.
  apply (analyze_all_attempts_fail three_attempts always_down "text" "summary"
           "Perplexity API call error: connection refused"
           "Perplexity API call error: connection refused"
           "Perplexity API call error: connection refused"
           (snd (_call_api always_down 0 (_build_prompt "text" "summary")))
           (snd (_call_api always_down 1 (_build_prompt "text" "summary")))
           (snd (_call_api always_down 2 (_build_prompt "text" "summary"))));
    done.
Defined.

(** C3, as the spec has it, fails: three failed attempts leave four
    failure events, not three, and the one marked terminal is not
    among the three that report the attempts. *)
Lemma four_failure_events :
  length (List.filter is_failure_event
            (snd (analyze three_attempts always_empty "text" "summary")))
  <> 3%nat
  /\ existsb is_terminal
       (List.filter is_attempt_warning
          (snd (analyze three_attempts always_empty "text" "summary")))
     = false.
Proof. split; [intros H; vm_compute in H; discriminate H|reflexivity]. Qed.

(** C10.  A query type other than [summary], [analysis] and [custom]
    is not refused: the prompt is the default one, the content after
    the line asking to summarize it, and [analyze] goes on with that
    prompt as with any other, returning the answer of the service when
    the first request succeeds. *)
Theorem unknown_query_type_defaults (self : PerplexityAnalyzer) (api : Api)
    (content query_type : string) :
  query_type <> "summary" ->
  query_type <> "analysis" ->
  query_type <> "custom" ->
  let prompt := "Please summarize the following content:" ++ NL ++ NL ++ content ++ NL in
  _build_prompt content query_type = prompt
  /\ (api_key self <> "" ->
      analyze self api content query_type
      = retry_loop self api prompt (max_retries self) 0)
  /\ (forall answer rest,
        api_key self <> "" -> (0 < max_retries self)%nat ->
        api 0%nat prompt = JsonBody (Some (answer :: rest)) ->
        fst (analyze self api content query_type) = Return (Some answer)).
Proof.
  intros H1 H2 H3 prompt.
  assert (Hp : _build_prompt content query_type = prompt).
  { unfold _build_prompt.
    destruct (String.eqb_spec query_type "summary"); [done|].
    destruct (String.eqb_spec query_type "analysis"); [done|].
    destruct (String.eqb_spec query_type "custom"); done. }
  assert (Ha : api_key self <> "" ->
               analyze self api content query_type
               = retry_loop self api prompt (max_retries self) 0).
  { intros Hk. unfold analyze. rewrite Hp.
    destruct (String.eqb_spec (api_key self) ""); done. }
  split; [done|]. split; [done|].
  intros answer rest Hk Hm Hapi. rewrite (Ha Hk).
  destruct (max_retries self) as [|n]; [lia|].
  cbn [retry_loop]. unfold _call_api. by rewrite Hapi.
Qed.

Lemma unknown_query_type_witness :
  fst (analyze three_attempts (fun _ _ => JsonBody (Some ["A summary."]))
         "text" "translate")
  = Return (Some "A summary.").
Proof.
  apply (unknown_query_type_defaults three_attempts
           (fun _ _ => JsonBody (Some ["A summary."])) "text" "translate")
    with (rest := []); try done. cbn. lia.
Defined.

End Retrying.

(** ** The rate limiter over time *)

Section RateLimiterRuns.
Import Limiter LimiterRuns.

Lemma in_window_same_window s1 s2 now t :
  window s1 = window s2 -> in_window s1 now t = in_window s2 now t.
Proof. unfold in_window. by intros ->. Qed.

Lemma prune_same_window s1 s2 now l :
  window s1 = window s2 -> prune s1 now l = prune s2 now l.
Proof.
  intros H. unfold prune. apply List.filter_ext. intros t.
  by apply in_window_same_window.
Qed.

(** Pruning at a later time makes an earlier pruning redundant. *)
Lemma prune_prune self (t1 t2 : Q) l :
  (t1 <= t2)%Q -> prune self t2 (prune self t1 l) = prune self t2 l.
Proof.
  intros Hle. unfold prune. induction l as [|x l IH]; [done|].
  cbn [List.filter]. destruct (in_window self t1 x) eqn:E1.
  - cbn [List.filter]. by rewrite IH.
  - rewrite IH. destruct (in_window self t2 x) eqn:E2; [|done].
    apply in_window_iff in E2.
    assert (in_window self t1 x = true) as E; [|congruence].
    apply in_window_true. lra.
Qed.

Lemma prune_length self now l : (length (prune self now l) <= length l)%nat.
Proof. apply List.filter_length_le. Qed.

Lemma prune_app self now l1 l2 :
  prune self now (l1 ++ l2) = (prune self now l1 ++ prune self now l2)%list.
Proof. apply List.filter_app. Qed.

(** The answer and the client's new entry depend on the limiter only
    through its limit, its window and what pruning leaves of the entry. *)
Lemma is_rate_limited_by_pruned s1 s2 now c :
  limit s1 = limit s2 -> window s1 = window s2 ->
  prune s1 now (stored s1 c) = prune s2 now (stored s2 c) ->
  fst (is_rate_limited s1 now c) = fst (is_rate_limited s2 now c)
  /\ clients (snd (is_rate_limited s1 now c)) !! c
     = clients (snd (is_rate_limited s2 now c)) !! c.
Proof.
  intros Hl Hw Hp. rewrite !is_rate_limited_unfold. cbn zeta.
  unfold stored in Hp. rewrite Hp, Hl.
  destruct (limit s2 <=? _)%Z; cbn; by rewrite !lookup_insert_eq.
Qed.

Lemma is_rate_limited_keeps self now c :
  limit (snd (is_rate_limited self now c)) = limit self
  /\ window (snd (is_rate_limited self now c)) = window self.
Proof.
  rewrite is_rate_limited_unfold. cbn zeta. by destruct (limit self <=? _)%Z.
Qed.

Lemma is_rate_limited_other self now a b :
  a <> b -> clients (snd (is_rate_limited self now a)) !! b = clients self !! b.
Proof.
  intros Hne. rewrite is_rate_limited_unfold. cbn zeta.
  destruct (limit self <=? _)%Z; cbn; by rewrite lookup_insert_ne.
Qed.

(** X1.  Clients do not interfere: a call for one client leaves the
    entry of every other client as it was, and changes neither the
    answer another client gets afterwards nor the entry that answer
    leaves behind. *)
Theorem clients_do_not_interfere self (now now' : Q) (a b : string) :
  a <> b ->
  let after_a := snd (is_rate_limited self now a) in
  clients after_a !! b = clients self !! b
  /\ fst (is_rate_limited after_a now' b) = fst (is_rate_limited self now' b)
  /\ clients (snd (is_rate_limited after_a now' b)) !! b
     = clients (snd (is_rate_limited self now' b)) !! b.
Proof.
  intros Hne after_a.
  assert (H : clients after_a !! b = clients self !! b)
    by (by apply is_rate_limited_other).
  split; [done|].
  destruct (is_rate_limited_keeps self now a) as [Hl Hw].
  apply is_rate_limited_by_pruned; [done..|].
  unfold stored. fold after_a. rewrite H. by apply prune_same_window.
Qed.

Lemma clients_do_not_interfere_witness :
  fst (is_rate_limited (snd (is_rate_limited (new 1 10) 0 "a")) 1 "b") = false.
Proof.
  rewrite (proj1 (proj2 (clients_do_not_interfere (new 1 10) 0 1 "a" "b"
                           ltac:(discriminate)))).
  reflexivity.
Defined.

Lemma run_calls_cons self t c rest :
  run_calls self ((t, c) :: rest)
  = (allowed (is_rate_limited self t c)
       :: fst (run_calls (snd (is_rate_limited self t c)) rest),
     snd (run_calls (snd (is_rate_limited self t c)) rest)).
Proof. cbn [run_calls]. by destruct (run_calls _ rest). Qed.

Lemma run_calls_app self l1 l2 :
  run_calls self (l1 ++ l2)
  = ((fst (run_calls self l1) ++ fst (run_calls (snd (run_calls self l1)) l2))%list,
     snd (run_calls (snd (run_calls self l1)) l2)).
Proof.
  revert self. induction l1 as [|[t c] l1 IH]; intros self.
  - cbn. by destruct (run_calls self l2).
  - change (((t, c) :: l1) ++ l2)%list with ((t, c) :: (l1 ++ l2))%list.
    rewrite !run_calls_cons, IH. done.
Qed.

Lemma admitted_times_app c self l1 l2 :
  admitted_times c self (l1 ++ l2)
  = (admitted_times c self l1
     ++ admitted_times c (snd (run_calls self l1)) l2)%list.
Proof.
  revert self. induction l1 as [|[t c'] l1 IH]; intros self; [done|].
  change (((t, c') :: l1) ++ l2)%list with ((t, c') :: (l1 ++ l2))%list.
  cbn [admitted_times]. rewrite IH, run_calls_cons. cbn [snd].
  by rewrite <- app_assoc.
Qed.

Lemma nondecreasing_from_app lo l t :
  nondecreasing_from lo (l ++ [t]) ->
  nondecreasing_from lo l /\ (final_time lo l <= t)%Q.
Proof.
  revert lo. induction l as [|x l IH]; intros lo; cbn.
  - intros [H _]. done.
  - intros [H1 H2]. destruct (IH _ H2). done.
Qed.

(** One call of the client whose entry holds the admitted requests
    still in the window at some earlier time. *)
Lemma step_same_client self (t T : Q) c hist :
  (0 < window self)%Z -> (T <= t)%Q ->
  stored self c = prune self T hist ->
  let r := is_rate_limited self t c in
  stored (snd r) c
  = prune self t (hist ++ (if allowed r then [t] else []))
  /\ (allowed r = true <-> (Z.of_nat (length (prune self t hist)) < limit self)%Z).
Proof.
  intros Hw HT Hst r. subst r. rewrite is_rate_limited_unfold. cbn zeta.
  fold (stored self c). rewrite Hst, prune_prune by done.
  assert (Hself : prune self t [t] = [t]).
  { unfold prune. cbn. rewrite in_window_true; [done|].
    assert (0 < inject_Z (window self))%Q.
    { change 0%Q with (inject_Z 0). by rewrite <- Zlt_Qlt. }
    lra. }
  destruct (limit self <=? Z.of_nat (length (prune self t hist)))%Z eqn:E;
    unfold stored, allowed; cbn; rewrite lookup_insert_eq; cbn.
  - rewrite app_nil_r. split; [done|]. apply Z.leb_le in E. split; [done|lia].
  - rewrite prune_app, Hself. split; [done|]. apply Z.leb_gt in E. done.
Qed.

(** The entry of a client along a sequence of calls: it holds the
    requests admitted so far that were in the window at some time not
    after the last call, and never more than [limit] of them. *)
Lemma run_calls_entry c calls : forall self hist lo T,
  (0 < window self)%Z ->
  nondecreasing_from lo (map fst calls) ->
  (T <= lo)%Q ->
  stored self c = prune self T hist ->
  (Z.of_nat (length (stored self c)) <= Z.max 0 (limit self))%Z ->
  let final := snd (run_calls self calls) in
  limit final = limit self /\ window final = window self
  /\ (exists T', (T' <= final_time lo (map fst calls))%Q
        /\ stored final c = prune self T' (hist ++ admitted_times c self calls))
  /\ (Z.of_nat (length (stored final c)) <= Z.max 0 (limit self))%Z.
Proof.
  induction calls as [|[t c'] calls IH]; intros self hist lo T Hw Hnd HT Hst Hlen final.
  - subst final. cbn. rewrite app_nil_r. repeat split; [|done]. by exists T.
  - subst final. cbn [map fst] in Hnd. destruct Hnd as [Hlo Hnd].
    rewrite run_calls_cons. cbn [snd admitted_times map fst final_time].
    set (r := is_rate_limited self t c') in *.
    destruct (is_rate_limited_keeps self t c') as [Hl' Hw']. fold r in Hl', Hw'.
    destruct (String.eqb_spec c c') as [<-|Hne].
    + destruct (step_same_client self t T c hist Hw) as [Hst' Hal]; [lra|done|].
      fold r in Hst', Hal. cbn [andb].
      assert (Hlen' : (Z.of_nat (length (stored (snd r) c)) <= Z.max 0 (limit self))%Z).
      { rewrite Hst'. destruct (allowed r).
        - rewrite prune_app, length_app.
          assert (Z.of_nat (length (prune self t hist)) < limit self)%Z by (by apply Hal).
          pose proof (prune_length self t [t]). cbn in *. lia.
        - rewrite app_nil_r. rewrite Hst in Hlen.
          assert (prune self t hist = prune self t (prune self T hist)) as ->
            by (rewrite prune_prune; [done|lra]).
          pose proof (prune_length self t (prune self T hist)). lia. }
      destruct (IH (snd r) (hist ++ (if allowed r then [t] else []))%list t t)
        as (IH1 & IH2 & (T' & IH3 & IH4) & IH5).
      { by rewrite Hw'. } { done. } { lra. }
      { rewrite Hst'. by apply prune_same_window. }
      { by rewrite Hl'. }
      rewrite IH1, IH2, Hl', Hw'. repeat split; [|by rewrite IH5, Hl'].
      exists T'. split; [done|]. rewrite IH4, <- app_assoc.
      by apply prune_same_window.
    + cbn [andb app].
      assert (Hsame : stored (snd r) c = stored self c).
      { unfold stored, r. by rewrite is_rate_limited_other. }
      destruct (IH (snd r) hist t T) as (IH1 & IH2 & (T' & IH3 & IH4) & IH5).
      { by rewrite Hw'. } { done. } { lra. }
      { rewrite Hsame, Hst. by apply prune_same_window. }
      { by rewrite Hsame, Hl'. }
      rewrite IH1, IH2, Hl', Hw'. repeat split; [|by rewrite IH5, Hl'].
      exists T'. split; [done|]. rewrite IH4. by apply prune_same_window.
Qed.

(** X2.  The sliding window.  Take a fresh limiter with a positive
    window and a clock that never goes back.  After any sequence of
    calls, a call of a client at time [t] is let through exactly when
    fewer than [limit] of the client's earlier admitted requests are
    less than [window] seconds old; and counting the call itself if it
    was admitted, the client never has more than [limit] admitted
    requests that recent. *)
Theorem sliding_window (limit window : Z) (t0 : Q) (earlier : list (Q * string))
    (t : Q) (c : string) :
  (0 < window)%Z ->
  nondecreasing_from t0 (map fst (earlier ++ [(t, c)])) ->
  let fresh := new limit window in
  let before := admitted_times c fresh earlier in
  let r := is_rate_limited (snd (run_calls fresh earlier)) t c in
  (allowed r = true <-> (Z.of_nat (length (prune fresh t before)) < limit)%Z)
  /\ admitted_times c fresh (earlier ++ [(t, c)])
     = (before ++ (if allowed r then [t] else []))%list
  /\ (Z.of_nat (length (prune fresh t (admitted_times c fresh (earlier ++ [(t, c)]))))
      <= Z.max 0 limit)%Z.
Proof.
  intros Hw Hnd fresh before r.
  rewrite map_app in Hnd. cbn [map fst] in Hnd.
  apply nondecreasing_from_app in Hnd as [Hnd Hfin].
  assert (Hnew : stored fresh c = []) by (unfold stored; cbn; by rewrite lookup_empty).
  destruct (run_calls_entry c earlier fresh [] t0 t0) as (H1 & H2 & (T & H3 & H4) & H5);
    [done|done|lra|by rewrite Hnew|rewrite Hnew; cbn; lia|].
  cbn [app] in H4. fold before in H4.
  set (s := snd (run_calls fresh earlier)) in *.
  destruct (step_same_client s t T c before) as [Hst Hal].
  { by rewrite H2. } { lra. } { rewrite H4. by apply prune_same_window. }
  fold r in Hst, Hal.
  assert (Hadm : admitted_times c fresh (earlier ++ [(t, c)])
                 = (before ++ (if allowed r then [t] else []))%list).
  { rewrite admitted_times_app. fold s. cbn [admitted_times]. fold r.
    rewrite String.eqb_refl. cbn [andb]. by rewrite app_nil_r. }
  split; [|split; [done|]].
  - rewrite Hal, H1. by rewrite (prune_same_window s fresh).
  - rewrite Hadm, <- (prune_same_window s fresh) by done. rewrite <- Hst.
    destruct (run_calls_entry c [(t, c)] s before t T) as (_ & _ & _ & H6).
    { by rewrite H2. } { cbn. split; [lra|done]. } { lra. }
    { rewrite H4. by apply prune_same_window. } { by rewrite H1 in *. }
    rewrite run_calls_cons in H6. cbn [snd run_calls] in H6. fold r in H6.
    by rewrite H1 in H6.
Qed.

Lemma sliding_window_witness :
  (Z.of_nat (length (prune (new 2 10) 3%Q
      (admitted_times "a" (new 2 10)
         ([(1%Q, "a"); (2%Q, "b"); (2%Q, "a")] ++ [(3%Q, "a")])%list))) <= Z.max 0 2)%Z.
Proof.
  apply (sliding_window 2 10 0%Q [(1%Q, "a"); (2%Q, "b"); (2%Q, "a")] 3%Q "a").
  - done.
  - cbn. repeat split; discriminate.
Defined.

Lemma cleanup_lookup self now c :
  clients (_cleanup_old_entries self now) !! c
  = match prune self now (stored self c) with
    | [] => None
    | pruned => Some pruned
    end.
Proof.
  unfold _cleanup_old_entries, stored. cbn [clients set_clients].
  destruct (clients self !! c) as [entries|] eqn:E; cbn [default from_option id].
  - destruct (prune self now entries) as [|x l] eqn:Ep.
    + apply map_lookup_filter_None. right. intros y Hy.
      rewrite lookup_fmap, E in Hy. cbn in Hy. injection Hy as <-.
      cbn. rewrite Ep. by intros H.
    + apply map_lookup_filter_Some. split.
      * rewrite lookup_fmap, E. cbn. by rewrite Ep.
      * done.
  - cbn. apply map_lookup_filter_None. left. by rewrite lookup_fmap, E.
Qed.

Lemma cleanup_stored self now c :
  stored (_cleanup_old_entries self now) c = prune self now (stored self c).
Proof.
  unfold stored at 1. rewrite cleanup_lookup.
  by destruct (prune self now (stored self c)).
Qed.

(** X3.  The periodic cleanup leaves each client the timestamps still
    inside the window and nothing else, and forgets exactly the clients
    for which none is left: no entry it keeps is empty or holds an
    expired timestamp. *)
Theorem cleanup_keeps_live_entries self (now : Q) (c : string) :
  let after := _cleanup_old_entries self now in
  (forall entries,
      clients after !! c = Some entries ->
      entries <> []
      /\ entries = prune self now (stored self c)
      /\ forall t, In t entries ->
           In t (stored self c) /\ (now - t < inject_Z (window self))%Q)
  /\ (clients after !! c = None <->
      forall t, In t (stored self c) -> (inject_Z (window self) <= now - t)%Q)
  /\ limit after = limit self /\ window after = window self.
Proof.
  intros after. subst after. split; [|split; [|done]].
  - intros entries H. rewrite cleanup_lookup in H.
    destruct (prune self now (stored self c)) as [|x l] eqn:E; [done|].
    injection H as <-. split; [done|]. split; [done|].
    intros t Ht. rewrite <- E in Ht. unfold prune in Ht.
    apply List.filter_In in Ht as [Hin Hw]. by apply in_window_iff in Hw.
  - rewrite cleanup_lookup. split.
    + destruct (prune self now (stored self c)) as [|x l] eqn:E; [|done].
      intros _ t Ht. destruct (Qlt_le_dec (now - t) (inject_Z (window self))) as [Hlt|]; [|done].
      exfalso. assert (In t (prune self now (stored self c))) as Hin.
      { apply List.filter_In. split; [done|]. by apply in_window_true. }
      by rewrite E in Hin.
    + intros Hall. unfold prune.
      rewrite (filter_none (in_window self now) (stored self c)); [done|].
      intros t Ht. by apply in_window_false, Hall.
Qed.

(** X4.  The cleanup is invisible to the admission check: a call made
    at or after a cleanup gets the answer it would have got without the
    cleanup, and leaves the client the same entry. *)
Theorem cleanup_is_transparent self (now t : Q) (c : string) :
  (now <= t)%Q ->
  fst (is_rate_limited (_cleanup_old_entries self now) t c)
  = fst (is_rate_limited self t c)
  /\ clients (snd (is_rate_limited (_cleanup_old_entries self now) t c)) !! c
     = clients (snd (is_rate_limited self t c)) !! c.
Proof.
  intros Hle. apply is_rate_limited_by_pruned; [done..|].
  rewrite cleanup_stored.
  rewrite (prune_same_window (_cleanup_old_entries self now) self) by done.
  by apply prune_prune.
Qed.

Lemma cleanup_is_transparent_witness :
  fst (is_rate_limited
         (_cleanup_old_entries (snd (is_rate_limited (new 1 10) 0 "a")) 5) 6 "a")
  = true.
Proof.
  rewrite (proj1 (cleanup_is_transparent (snd (is_rate_limited (new 1 10) 0 "a"))
                    5 6 "a" ltac:(discriminate))).
  reflexivity.
Defined.

End RateLimiterRuns.

(** ** The retry loop for any number of attempts *)

Section RetryLoop.
Import Py Analyzer AnalyzerTrace Samples.

Lemma posts_app tr1 tr2 : posts (tr1 ++ tr2) = (posts tr1 ++ posts tr2)%list.
Proof. apply flat_map_app. Qed.

Lemma sleeps_app tr1 tr2 : sleeps (tr1 ++ tr2) = (sleeps tr1 ++ sleeps tr2)%list.
Proof. apply flat_map_app. Qed.

Lemma warnings_app tr1 tr2 :
  attempt_warnings (tr1 ++ tr2) = (attempt_warnings tr1 ++ attempt_warnings tr2)%list.
Proof. apply List.filter_app. Qed.

Lemma terminal_app tr1 tr2 :
  terminal_events (tr1 ++ tr2) = (terminal_events tr1 ++ terminal_events tr2)%list.
Proof. apply List.filter_app. Qed.

(** One call to the service: one request, no sleep, none of the
    events of the retry loop. *)
Lemma call_api_trace api k prompt :
  posts (snd (_call_api api k prompt)) = [prompt]
  /\ sleeps (snd (_call_api api k prompt)) = []
  /\ attempt_warnings (snd (_call_api api k prompt)) = []
  /\ terminal_events (snd (_call_api api k prompt)) = [].
Proof.
  unfold _call_api. destruct (api k prompt) as [e [text|]|e|[[|c cs]|]]; done.
Qed.

(** What one iteration adds to the trace when the call fails and
    another attempt follows. *)
Lemma retry_events self attempt e :
  posts [attempt_warning self attempt e; Sleep (retry_delay self)] = []
  /\ sleeps [attempt_warning self attempt e; Sleep (retry_delay self)]
     = [retry_delay self]
  /\ attempt_warnings [attempt_warning self attempt e; Sleep (retry_delay self)]
     = [attempt_warning self attempt e]
  /\ terminal_events [attempt_warning self attempt e; Sleep (retry_delay self)] = [].
Proof. done. Qed.

Lemma giving_up_events self attempt e :
  posts [attempt_warning self attempt e; terminal_error e] = []
  /\ sleeps [attempt_warning self attempt e; terminal_error e] = []
  /\ attempt_warnings [attempt_warning self attempt e; terminal_error e]
     = [attempt_warning self attempt e]
  /\ terminal_events [attempt_warning self attempt e; terminal_error e]
     = [terminal_error e].
Proof. done. Qed.

Lemma retry_loop_step self api prompt remaining attempt :
  retry_loop self api prompt (S remaining) attempt
  = match _call_api api attempt prompt with
    | (Return result, tr) => (Return (Some result), tr)
    | (Raise e, tr) =>
        if (attempt <? max_retries self - 1)%nat
        then
          let (r, tr') := retry_loop self api prompt remaining (S attempt) in
          (r, (tr ++ [attempt_warning self attempt e; Sleep (retry_delay self)] ++ tr')%list)
        else
          (Raise ("Perplexity API call error: " ++ e),
           (tr ++ [attempt_warning self attempt e; terminal_error e])%list)
    end.
Proof. reflexivity. Qed.

(** The loop when the attempts before [k] fail and the [k]-th succeeds. *)
Lemma retry_loop_succeeds self api prompt answer k :
  (k < max_retries self)%nat ->
  fst (_call_api api k prompt) = Return answer ->
  forall d attempt remaining,
    (attempt + d = k)%nat -> (attempt + remaining = max_retries self)%nat ->
    (forall j, (attempt <= j < k)%nat -> call_fails api prompt j) ->
    let r := retry_loop self api prompt remaining attempt in
    fst r = Return (Some answer)
    /\ posts (snd r) = repeat prompt (S d)
    /\ sleeps (snd r) = repeat (retry_delay self) d
    /\ length (attempt_warnings (snd r)) = d
    /\ terminal_events (snd r) = [].
Proof.
  intros Hk Hok. induction d as [|d IH]; intros attempt remaining Hd Hrem Hfail r; subst r.
  - assert (attempt = k) as -> by lia.
    destruct remaining as [|remaining]; [lia|]. rewrite retry_loop_step.
    pose proof (call_api_trace api k prompt) as (HP & HS & HW & HT).
    destruct (_call_api api k prompt) as [[a|e] tr]; cbn in Hok; [|done].
    injection Hok as ->. cbn [fst snd] in *. by rewrite HP, HS, HW, HT.
  - destruct remaining as [|remaining]; [lia|]. rewrite retry_loop_step.
    pose proof (call_api_trace api attempt prompt) as (HP & HS & HW & HT).
    destruct (Hfail attempt) as [e He]; [lia|].
    destruct (_call_api api attempt prompt) as [[a|e'] tr]; cbn in He; [done|].
    injection He as ->. cbn [snd] in *.
    assert ((attempt <? max_retries self - 1)%nat = true) as -> by (apply Nat.ltb_lt; lia).
    specialize (IH (S attempt) remaining).
    destruct IH as (I1 & I2 & I3 & I4 & I5); [lia|lia|intros; apply Hfail; lia|].
    destruct (retry_loop self api prompt remaining (S attempt)) as [r' tr'].
    cbn [fst snd] in *.
    pose proof (retry_events self attempt e) as (HP' & HS' & HW' & HT').
    rewrite !posts_app, !sleeps_app, !warnings_app, !terminal_app.
    rewrite HP, HS, HW, HT, HP', HS', HW', HT', I2, I3, I5, !length_app, I4. done.
Qed.

(** The loop when every attempt that is left fails. *)
Lemma retry_loop_gives_up self api prompt last :
  fst (_call_api api (max_retries self - 1) prompt) = Raise last ->
  forall d attempt,
    (attempt + S d = max_retries self)%nat ->
    (forall j, (attempt <= j < max_retries self)%nat -> call_fails api prompt j) ->
    let r := retry_loop self api prompt (S d) attempt in
    fst r = Raise ("Perplexity API call error: " ++ last)
    /\ posts (snd r) = repeat prompt (S d)
    /\ sleeps (snd r) = repeat (retry_delay self) d
    /\ length (attempt_warnings (snd r)) = S d
    /\ terminal_events (snd r) = [terminal_error last].
Proof.
  intros Hlast. induction d as [|d IH]; intros attempt Hrem Hfail r; subst r.
  - assert (attempt = max_retries self - 1)%nat as -> by lia.
    rewrite retry_loop_step.
    pose proof (call_api_trace api (max_retries self - 1) prompt) as (HP & HS & HW & HT).
    destruct (_call_api api (max_retries self - 1) prompt) as [[a|e] tr];
      cbn in Hlast; [done|].
    injection Hlast as ->. rewrite Nat.ltb_irrefl. cbn [fst snd] in *.
    pose proof (giving_up_events self (max_retries self - 1) last) as (HP' & HS' & HW' & HT').
    rewrite !posts_app, !sleeps_app, !warnings_app, !terminal_app.
    rewrite HP, HS, HW, HT, HP', HS', HW', HT'. done.
  - rewrite retry_loop_step.
    pose proof (call_api_trace api attempt prompt) as (HP & HS & HW & HT).
    destruct (Hfail attempt) as [e He]; [lia|].
    destruct (_call_api api attempt prompt) as [[a|e'] tr]; cbn in He; [done|].
    injection He as ->. cbn [snd] in *.
    assert ((attempt <? max_retries self - 1)%nat = true) as -> by (apply Nat.ltb_lt; lia).
    specialize (IH (S attempt)).
    destruct IH as (I1 & I2 & I3 & I4 & I5); [lia|intros; apply Hfail; lia|].
    destruct (retry_loop self api prompt (S d) (S attempt)) as [r' tr'].
    cbn [fst snd] in *.
    pose proof (retry_events self attempt e) as (HP' & HS' & HW' & HT').
    rewrite !posts_app, !sleeps_app, !warnings_app, !terminal_app.
    rewrite HP, HS, HW, HT, HP', HS', HW', HT', I2, I3, I5, !length_app, I4. done.
Qed.

(** X5.  Success after failures.  With an API key, when the first [k]
    requests fail and the next succeeds within the budget of
    [max_retries], [analyze] returns that answer, having sent [k + 1]
    requests with the same prompt, slept [retry_delay] after each of
    the [k] failures and reported [k] attempt warnings and no terminal
    error. *)
Theorem analyze_succeeds_after_failures (self : PerplexityAnalyzer) (api : Api)
    (content query_type answer : string) (k : nat) :
  api_key self <> "" ->
  (k < max_retries self)%nat ->
  (forall j, (j < k)%nat -> call_fails api (_build_prompt content query_type) j) ->
  fst (_call_api api k (_build_prompt content query_type)) = Return answer ->
  let r := analyze self api content query_type in
  fst r = Return (Some answer)
  /\ posts (snd r) = repeat (_build_prompt content query_type) (S k)
  /\ sleeps (snd r) = repeat (retry_delay self) k
  /\ length (attempt_warnings (snd r)) = k
  /\ terminal_events (snd r) = [].
Proof.
  intros Hkey Hk Hfail Hok r. subst r. unfold analyze.
  destruct (String.eqb_spec (api_key self) ""); [done|].
  apply (retry_loop_succeeds self api _ answer k Hk Hok k 0 (max_retries self));
    [lia|lia|]. intros j Hj. apply Hfail. lia.
Qed.

Lemma analyze_succeeds_after_failures_witness :
  fst (analyze three_attempts
         (fun k _ => if (k <? 2)%nat then JsonBody None else JsonBody (Some ["done"]))
         "text" "analysis")
  = Return (Some "done").
Proof.
  apply (analyze_succeeds_after_failures three_attempts
           (fun k _ => if (k <? 2)%nat then JsonBody None else JsonBody (Some ["done"]))
           "text" "analysis" "done" 2).
  - done.
  - cbn. lia.
  - intros j Hj. exists "Invalid response from Perplexity API".
    destruct j as [|[|j]]; [reflexivity|reflexivity|lia].
  - reflexivity.
Defined.

(** X6.  Giving up.  With an API key and [max_retries] at least one,
    when every request fails, [analyze] sends exactly [max_retries]
    requests, sleeps [retry_delay] between them ([max_retries - 1]
    times), reports one warning per attempt and one terminal error,
    and raises an exception that carries the message of the last
    failure. *)
Theorem analyze_gives_up (self : PerplexityAnalyzer) (api : Api)
    (content query_type last : string) :
  api_key self <> "" ->
  (0 < max_retries self)%nat ->
  (forall j, (j < max_retries self)%nat ->
             call_fails api (_build_prompt content query_type) j) ->
  fst (_call_api api (max_retries self - 1) (_build_prompt content query_type))
    = Raise last ->
  let r := analyze self api content query_type in
  fst r = Raise ("Perplexity API call error: " ++ last)
  /\ posts (snd r) = repeat (_build_prompt content query_type) (max_retries self)
  /\ sleeps (snd r) = repeat (retry_delay self) (max_retries self - 1)
  /\ length (attempt_warnings (snd r)) = max_retries self
  /\ terminal_events (snd r) = [terminal_error last].
Proof.
  intros Hkey Hn Hfail Hlast r. subst r. unfold analyze.
  destruct (String.eqb_spec (api_key self) ""); [done|].
  destruct (max_retries self) as [|d] eqn:En; [lia|].
  rewrite <- En in *.
  pose proof (retry_loop_gives_up self api _ last Hlast d 0) as H.
  replace (max_retries self - 1)%nat with d by lia.
  rewrite En. apply H; [lia|]. intros j Hj. apply Hfail. lia.
Qed.

Lemma analyze_gives_up_witness :
  fst (analyze {| api_key := "key"; max_retries := 5; retry_delay := 1 |}
         always_down "text" "summary")
  = Raise "Perplexity API call error: Perplexity API call error: connection refused".
Proof.
  apply (analyze_gives_up {| api_key := "key"; max_retries := 5; retry_delay := 1 |}
           always_down "text" "summary"
           "Perplexity API call error: connection refused").
  - done.
  - cbn. lia.
  - intros j _. by exists "Perplexity API call error: connection refused".
  - reflexivity.
Defined.

(** The loop for any behaviour of the service. *)
Lemma retry_loop_budget self api prompt : forall remaining attempt,
  (attempt + remaining = max_retries self)%nat -> (0 < remaining)%nat ->
  let r := retry_loop self api prompt remaining attempt in
  (1 <= length (posts (snd r)) <= remaining)%nat
  /\ posts (snd r) = repeat prompt (length (posts (snd r)))
  /\ sleeps (snd r) = repeat (retry_delay self) (length (posts (snd r)) - 1)
  /\ (forall e, fst r = Raise e -> length (posts (snd r)) = remaining).
Proof.
  induction remaining as [|remaining IH]; intros attempt Hrem Hpos r; [lia|]. subst r.
  rewrite retry_loop_step.
  pose proof (call_api_trace api attempt prompt) as (HP & HS & HW & HT).
  destruct (_call_api api attempt prompt) as [[a|e] tr]; cbn [fst snd] in *.
  - rewrite HP, HS. cbn. repeat split; try done; lia.
  - destruct (attempt <? max_retries self - 1)%nat eqn:E.
    + apply Nat.ltb_lt in E.
      destruct (IH (S attempt)) as (I1 & I2 & I3 & I5); [lia|lia|].
      destruct (retry_loop self api prompt remaining (S attempt)) as [r' tr'].
      cbn [fst snd] in *.
      pose proof (retry_events self attempt e) as (HP' & HS' & HW' & HT').
      rewrite !posts_app, !sleeps_app, HP, HS, HP', HS'. cbn [app length].
      split; [lia|]. split; [cbn; by rewrite <- I2|]. split.
      { rewrite I3. replace (S (length (posts tr')) - 1)%nat
          with (S (length (posts tr') - 1)) by lia. done. }
      intros e' He'. rewrite (I5 e' He'). done.
    + apply Nat.ltb_ge in E. assert (remaining = 0)%nat as -> by lia.
      pose proof (giving_up_events self attempt e) as (HP' & HS' & HW' & HT').
      cbn [fst snd]. rewrite !posts_app, !sleeps_app, HP, HS, HP', HS'. cbn.
      repeat split; try done; lia.
Qed.

(** X7.  The budget.  Whatever the service answers, [analyze] with an
    API key and [max_retries] at least one sends at least one and at
    most [max_retries] requests, all with the same prompt, sleeps
    [retry_delay] between consecutive requests and at no other time,
    and raises only after [max_retries] requests. *)
Theorem analyze_stays_within_budget (self : PerplexityAnalyzer) (api : Api)
    (content query_type : string) :
  api_key self <> "" ->
  (0 < max_retries self)%nat ->
  let r := analyze self api content query_type in
  let n := length (posts (snd r)) in
  (1 <= n <= max_retries self)%nat
  /\ posts (snd r) = repeat (_build_prompt content query_type) n
  /\ sleeps (snd r) = repeat (retry_delay self) (n - 1)
  /\ (forall e, fst r = Raise e -> n = max_retries self).
Proof.
  intros Hkey Hn r n. subst n r. unfold analyze.
  destruct (String.eqb_spec (api_key self) ""); [done|].
  by apply retry_loop_budget.
Qed.

Lemma analyze_stays_within_budget_witness :
  (1 <= length (posts (snd (analyze three_attempts always_empty "text" "custom"))) <= 3)%nat.
Proof.
  apply (analyze_stays_within_budget three_attempts always_empty "text" "custom").
  - done.
  - cbn. lia.
Defined.

(** X8.  Nothing to try.  Without an API key [analyze] raises the
    configuration error, and with a key but [max_retries] zero it
    returns [None]; in both cases no request is sent and nothing is
    logged. *)
Theorem analyze_without_key_or_attempts (self : PerplexityAnalyzer) (api : Api)
    (content query_type : string) :
  (api_key self = "" ->
   analyze self api content query_type
   = (Raise "Perplexity API key is not configured", []))
  /\ (api_key self <> "" -> max_retries self = 0%nat ->
      analyze self api content query_type = (Return None, [])).
Proof.
  unfold analyze. split.
  - by intros ->.
  - intros Hkey ->. by destruct (String.eqb_spec (api_key self) "").
Qed.

Lemma analyze_without_key_or_attempts_witness :
  analyze {| api_key := "key"; max_retries := 0; retry_delay := 2 |}
    always_down "text" "summary"
  = (Return None, []).
Proof.
  apply (analyze_without_key_or_attempts
           {| api_key := "key"; max_retries := 0; retry_delay := 2 |}
           always_down "text" "summary"); done.
Defined.

End RetryLoop.

(** ** The prompt *)

Section Prompt.
Import Py Analyzer.

Lemma contains_unfold sub s :
  contains sub s
  = startswith sub s || match s with "" => false | String _ s' => contains sub s' end.
Proof. by destruct s. Qed.

Lemma startswith_app p s : startswith p (p ++ s) = true.
Proof.
  induction p as [|c p IH]; [done|].
  change (String c p ++ s) with (String c (p ++ s)). cbn [startswith].
  by rewrite Ascii.eqb_refl, IH.
Qed.

Lemma contains_here sub s : contains sub (sub ++ s) = true.
Proof. by rewrite contains_unfold, startswith_app. Qed.

Lemma contains_later sub a s : contains sub s = true -> contains sub (a ++ s) = true.
Proof.
  intros H. induction a as [|c a IH]; [done|].
  change (String c a ++ s) with (String c (a ++ s)).
  rewrite contains_unfold, IH. apply orb_true_r.
Qed.

(** X9.  Whatever the query type, the prompt sent to the service
    carries the content unchanged as a substring; for the type
    [custom] the prompt is the content itself. *)
Theorem build_prompt_carries_content (content query_type : string) :
  contains content (_build_prompt content query_type) = true
  /\ _build_prompt content "custom" = content.
Proof.
  split; [|done]. unfold _build_prompt.
  destruct (String.eqb query_type "summary");
    [|destruct (String.eqb query_type "analysis");
      [|destruct (String.eqb query_type "custom")]].
  - do 6 apply contains_later. apply contains_here.
  - do 5 apply contains_later. apply contains_here.
  - rewrite contains_unfold.
    replace (startswith content content) with true; [done|].
    symmetry. induction content as [|c s IH]; [done|].
    cbn [startswith]. by rewrite Ascii.eqb_refl.
  - do 3 apply contains_later. apply contains_here.
Qed.

End Prompt.

(** ** What the normalizer and the extractor guarantee *)

Section ScraperGuarantees.
Import Py Re Bs4 Scraper Samples.

Lemma no_newline_not_contained s :
  all_chars (fun c => negb (Ascii.eqb c nl)) s = true -> contains NL s = false.
Proof.
  induction s as [|c s IH]; [done|].
  cbn [all_chars contains startswith NL]. intros [Hc Hs]%andb_prop.
  rewrite (IH Hs). apply negb_true_iff in Hc.
  rewrite Ascii.eqb_sym, Hc. done.
Qed.

(** X10.  Normalized text is one line of words: its only whitespace
    characters are plain spaces (no newline, no tab), it neither begins
    nor ends with whitespace, and it is never longer than the input. *)
Theorem clean_text_shape (text : string) :
  all_chars plain (_clean_text text) = true
  /\ contains NL (_clean_text text) = false
  /\ strip (_clean_text text) = _clean_text text
  /\ (len (_clean_text text) <= len text)%nat.
Proof.
  split; [apply clean_text_plain|]. split.
  { apply no_newline_not_contained.
    eapply all_chars_weaken; [apply plain_not_newline|apply clean_text_plain]. }
  split; [apply clean_text_stripped|].
  rewrite clean_text_unfold.
  pose proof (len_strip (delete_patterns common_patterns (sub_spaces text))).
  pose proof (len_delete_patterns common_patterns (sub_spaces text)).
  pose proof (len_sub_spaces false text). fold (sub_spaces text) in *. lia.
Qed.

Lemma sub_spaces_of_whitespace s :
  all_chars isspace s = true ->
  sub_spaces_from true s = ""
  /\ (sub_spaces_from false s = "" \/ sub_spaces_from false s = " ").
Proof.
  induction s as [|c s IH]; [by split; [|left]|].
  cbn -[isspace]. intros [Hc Hs]%andb_prop. rewrite Hc.
  destruct (IH Hs) as [IH1 _]. rewrite IH1. split; [done|by right].
Qed.

(** X11.  Text made of whitespace only, the empty text included,
    normalizes to the empty string. *)
Theorem clean_text_of_whitespace (text : string) :
  all_chars isspace text = true -> _clean_text text = "".
Proof.
  intros H. rewrite clean_text_unfold. unfold sub_spaces.
  destruct (sub_spaces_of_whitespace text H) as [_ [-> | ->]]; reflexivity.
Qed.

Lemma clean_text_of_whitespace_witness :
  _clean_text (String "009" (" " ++ NL ++ " ")) = "".
Proof. apply (clean_text_of_whitespace (String "009" (" " ++ NL ++ " "))). reflexivity. Defined.

(** X12.  Every entry of the Open-Graph map comes from an element of
    the page: a key is never empty, and its value is the trimmed,
    non-empty [content] attribute of a [<meta>] element whose [property]
    begins with [og:] and gives that key. *)
Theorem og_entries_come_from_metas (soup : Soup) (key value : string) :
  extract_og soup !! key = Some value ->
  key <> ""
  /\ exists meta,
       In meta (soup_descendants soup)
       /\ is_og_meta meta = true
       /\ property_name meta = key
       /\ truthy (get "content" meta) = true
       /\ value = strip (default "" (get "content" meta)).
Proof.
  unfold extract_og. rewrite og_loop_lookup. rewrite lookup_empty.
  destruct (last (List.filter (writes key) (find_all is_og_meta soup))) as [meta|] eqn:E;
    [|done].
  intros [= <-].
  apply last_Some_elem_of, list_elem_of_In, List.filter_In in E as [Hin Hw].
  unfold find_all in Hin. apply List.filter_In in Hin as [Hin Hog].
  unfold writes, og_stored in Hw.
  apply andb_prop in Hw as [Hst Heq]. apply andb_prop in Hst as [Hne Htr].
  apply String.eqb_eq in Heq. subst key.
  split.
  - intros H0. rewrite H0 in Hne. discriminate Hne.
  - by exists meta.
Qed.

Lemma og_entries_come_from_metas_witness :
  "title" <> ""
  /\ exists meta,
       In meta (soup_descendants two_og_titles)
       /\ is_og_meta meta = true
       /\ property_name meta = "title"
       /\ truthy (get "content" meta) = true
       /\ "B" = strip (default "" (get "content" meta)).
Proof.
  apply (og_entries_come_from_metas two_og_titles "title" "B"). reflexivity.
Defined.

(** X13.  No field of the parsed page begins or ends with whitespace:
    the title, the description, the content and every Open-Graph value
    are trimmed; the content moreover contains no newline. *)
Theorem parsed_fields_are_trimmed h2t_handle (soup : Soup) :
  let page := parse_soup h2t_handle soup in
  strip (title page) = title page
  /\ strip (description page) = description page
  /\ strip (content page) = content page
  /\ contains NL (content page) = false
  /\ forall key value, og_data page !! key = Some value -> strip value = value.
Proof.
  cbn zeta. unfold parse_soup. cbn [title description content og_data].
  split; [|split; [|split; [|split]]].
  - unfold page_title. destruct (find _ soup); [apply strip_idemp|done].
  - unfold page_description, content_of. destruct (find _ soup) as [m|]; [|done].
    destruct (truthy (get "content" m)); [apply strip_idemp|done].
  - apply clean_text_stripped.
  - apply no_newline_not_contained.
    eapply all_chars_weaken; [apply plain_not_newline|apply clean_text_plain].
  - intros key value H. unfold extract_og in H.
    rewrite og_loop_lookup, lookup_empty in H.
    destruct (last _) as [meta|]; [|done]. injection H as <-.
    apply strip_idemp.
Qed.

(** X14.  Paragraphs win over blocks.  On a page without container
    elements that has more than three paragraphs, if the paragraphs
    longer than 40 characters joined by blank lines exceed 500
    characters, the raw content is exactly that: the trimmed texts of
    those paragraphs, in document order, whatever [div] and [section]
    blocks the page has and whatever html2text would produce. *)
Theorem paragraphs_selected h2t_handle (soup : Soup) :
  select container_selectors soup = [] ->
  (3 < length (find_all (has_name "p") soup))%nat ->
  (500 < len (join (NL ++ NL) (paragraph_texts soup)))%nat ->
  _extract_article_content h2t_handle soup = join (NL ++ NL) (paragraph_texts soup)
  /\ forall text, In text (paragraph_texts soup) <->
       (40 < len text)%nat
       /\ exists p, In p (find_all (has_name "p") soup) /\ text = strip (get_text "" p).
Proof.
  intros Hsel Hp Hj. split.
  - unfold _extract_article_content. rewrite Hsel.
    apply Nat.ltb_lt in Hp, Hj. by rewrite Hp, Hj.
  - intros text. unfold paragraph_texts.
    rewrite List.filter_In, List.in_map_iff, Nat.ltb_lt. split.
    + intros [(p & <- & Hin) Hlen]. split; [done|]. by exists p.
    + intros [Hlen (p & Hin & ->)]. split; [|done]. by exists p.
Qed.

Lemma paragraphs_selected_witness :
  _extract_article_content (fun _ => "")
    [text_tag "p" (times "a" 200); text_tag "p" "short"; text_tag "p" (times "b" 200);
     text_tag "p" (times "c" 200); text_tag "div" (times "d" 900)]
  = times "a" 200 ++ NL ++ NL ++ times "b" 200 ++ NL ++ NL ++ times "c" 200.
Proof.
  apply (paragraphs_selected (fun _ => "")
    [text_tag "p" (times "a" 200); text_tag "p" "short"; text_tag "p" (times "b" 200);
     text_tag "p" (times "c" 200); text_tag "div" (times "d" 900)]).
  - reflexivity.
  - vm_compute. lia.
  - vm_compute. lia.
Defined.

(** X15.  Few paragraphs never count.  On a page without container
    elements and with at most three paragraphs, the raw content is the
    trimmed text of a [div] or [section] longer than 200 characters if
    there is one, and the cleaned html2text output otherwise; the
    paragraphs' own texts play no part in the choice. *)
Theorem few_paragraphs_skip_method2 h2t_handle (soup : Soup) :
  select container_selectors soup = [] ->
  (length (find_all (has_name "p") soup) <= 3)%nat ->
  (text_blocks soup <> [] /\
   exists tag,
     In tag (find_all (fun n => has_name "div" n || has_name "section" n) soup)
     /\ (200 < len (strip (get_text "" tag)))%nat
     /\ _extract_article_content h2t_handle soup = strip (get_text "" tag))
  \/ (text_blocks soup = [] /\
      _extract_article_content h2t_handle soup
      = sub_blank_lines (sub_images (h2t_handle soup))).
Proof.
  intros Hsel Hp. unfold _extract_article_content. rewrite Hsel.
  apply Nat.ltb_ge in Hp. rewrite Hp. cbn [andb].
  destruct (text_blocks soup) as [|b0 bs] eqn:Eb; [by right|]. left.
  split; [done|].
  destruct (sort_blocks_head (b0 :: bs)) as (pre & b & post & _ & _ & _ & Hhd); [done|].
  destruct (sort_blocks (b0 :: bs)) as [|b' rest] eqn:Es; [done|].
  cbn in Hhd. injection Hhd as ->.
  assert (Hin : In b (text_blocks soup)).
  { rewrite Eb. apply sort_blocks_In. rewrite Es. by left. }
  unfold text_blocks in Hin. apply List.filter_In in Hin as [Hin Hlen].
  apply List.in_map_iff in Hin as (tag & <- & Htag).
  cbn [snd] in *. apply Nat.ltb_lt in Hlen. by exists tag.
Qed.

Lemma few_paragraphs_skip_method2_witness :
  _extract_article_content (fun _ => "")
    [text_tag "p" (times "a" 600); text_tag "p" (times "b" 600)]
  = "".
Proof.
  destruct (few_paragraphs_skip_method2 (fun _ => "")
    [text_tag "p" (times "a" 600); text_tag "p" (times "b" 600)])
    as [[H _]|[_ H]].
  - reflexivity.
  - vm_compute. lia.
  - exfalso. by apply H.
  - rewrite H. reflexivity.
Defined.

End ScraperGuarantees.

(** ** Authentication *)

Section Authentication.
Import Py Security.

Lemma compare_digest_ascii a b :
  is_ascii a = true -> is_ascii b = true ->
  compare_digest (Some a) b = Return (String.eqb a b).
Proof. intros Ha Hb. unfold compare_digest. by rewrite Ha, Hb. Qed.

Lemma check_keys_true_iff key keys :
  is_ascii key = true -> Forall (fun k => is_ascii k = true) keys -> key <> "" ->
  check_keys key keys = Return (existsb (String.eqb key) keys).
Proof.
  intros Hk Hall Hne. induction Hall as [|k keys Hka _ IH]; cbn [check_keys existsb]; [done|].
  destruct k as [|c k]; cbn [truthy].
  - rewrite IH. by rewrite (proj2 (String.eqb_neq key "") Hne).
  - rewrite compare_digest_ascii by done.
    destruct (String.eqb key (String c k)); [done|]. by rewrite IH.
Qed.

Lemma check_api_key_accepts_helper (cfg : Settings) (key : string) :
  is_ascii key = true ->
  is_ascii (default "" (API_KEY cfg)) = true ->
  Forall (fun k => is_ascii k = true) (API_KEYS cfg) ->
  exists answer, check_api_key cfg (Some key) = Return answer
     /\ (answer = true <->
         key <> "" /\ (API_KEY cfg = Some key \/ In key (API_KEYS cfg))).
Proof.
  intros Hk Hm Hl.
  destruct key as [|c key].
  { exists false. split; [done|]. split; [done|]. by intros [? _]. }
  unfold check_api_key. cbn [truthy negb default from_option id].
  destruct (API_KEY cfg) as [[|d m]|] eqn:Em; cbn [truthy default from_option id] in *.
  - rewrite check_keys_true_iff by done. eexists. split; [reflexivity|].
    rewrite existsb_exists. split.
    + intros (x & Hin & Heq). apply String.eqb_eq in Heq. subst x. split; [done|]. by right.
    + intros [_ [[=]|Hin]]. exists (String c key). by rewrite String.eqb_refl.
  - rewrite compare_digest_ascii by done.
    destruct (String.eqb_spec (String c key) (String d m)) as [->|Hne].
    + exists true. split; [done|]. split; [|done]. intros _. split; [done|]. by left.
    + rewrite check_keys_true_iff by done. eexists. split; [reflexivity|].
      rewrite existsb_exists. split.
      * intros (x & Hin & Heq). apply String.eqb_eq in Heq. subst x. split; [done|]. by right.
      * intros [_ [[=]|Hin]]; [congruence|].
        exists (String c key). by rewrite String.eqb_refl.
  - rewrite check_keys_true_iff by done. eexists. split; [reflexivity|].
    rewrite existsb_exists. split.
    + intros (x & Hin & Heq). apply String.eqb_eq in Heq. subst x. split; [done|]. by right.
    + intros [_ [[=]|Hin]]. exists (String c key). by rewrite String.eqb_refl.
Qed.

(** X16.  Which keys are accepted.  When the presented key and the
    configured keys are ASCII, [check_api_key] never raises and answers
    [True] exactly for a non-empty key that equals the master key or
    one of the listed keys; a missing or empty key is refused even if
    an empty string is configured. *)
Theorem check_api_key_accepts (cfg : Settings) (key : string) :
  is_ascii key = true ->
  is_ascii (default "" (API_KEY cfg)) = true ->
  Forall (fun k => is_ascii k = true) (API_KEYS cfg) ->
  (exists answer, check_api_key cfg (Some key) = Return answer
     /\ (answer = true <->
         key <> "" /\ (API_KEY cfg = Some key \/ In key (API_KEYS cfg))))
  /\ check_api_key cfg None = Return false
  /\ check_api_key cfg (Some "") = Return false.
Proof.
  intros Hk Hm Hl. split; [|done]. by apply check_api_key_accepts_helper.
Qed.

Lemma check_api_key_accepts_witness :
  exists answer,
    check_api_key {| API_KEY := Some "master"; API_KEYS := ["k1"; ""; "k2"];
                     BASIC_AUTH_USERNAME := None; BASIC_AUTH_PASSWORD := None |}
      (Some "k2") = Return answer
    /\ (answer = true <->
        "k2" <> "" /\ (Some "master" = Some "k2" \/ In "k2" ["k1"; ""; "k2"])).
Proof.
  apply (check_api_key_accepts
           {| API_KEY := Some "master"; API_KEYS := ["k1"; ""; "k2"];
              BASIC_AUTH_USERNAME := None; BASIC_AUTH_PASSWORD := None |} "k2").
  - reflexivity.
  - reflexivity.
  - repeat constructor.
Defined.

Lemma check_keys_all_empty key keys :
  Forall (fun k => k = "") keys -> check_keys key keys = Return false.
Proof. induction 1 as [|k keys -> _ IH]; [done|]. exact IH. Qed.

(** X17.  Who gets in.  For a request to a protected path whose
    credentials and the configured ones are ASCII, the hook lets the
    request through exactly when it presents a valid API key, or Basic
    authentication is configured and the request carries that user
    name and password.  A request without a valid key that carries the
    configured user name but no password makes the comparison of the
    passwords raise a [TypeError]; every other request is answered 401
    when Basic authentication is configured and 403 when it is not.  A
    key in the [X-API-Key] header takes precedence over the [api_key]
    parameter. *)
Theorem authenticate_decides (cfg : Settings) (req : Request) :
  protected (path req) = true ->
  is_ascii (default "" (presented_key req)) = true ->
  (forall username password,
      authorization req = Some (username, Some password) -> is_ascii password = true) ->
  is_ascii (default "" (API_KEY cfg)) = true ->
  Forall (fun k => is_ascii k = true) (API_KEYS cfg) ->
  is_ascii (default "" (BASIC_AUTH_PASSWORD cfg)) = true ->
  let key := default "" (presented_key req) in
  let key_valid := key <> "" /\ (API_KEY cfg = Some key \/ In key (API_KEYS cfg)) in
  let basic_valid :=
    basic_configured cfg = true
    /\ authorization req = Some (BASIC_AUTH_USERNAME cfg, BASIC_AUTH_PASSWORD cfg) in
  let password_missing :=
    basic_configured cfg = true
    /\ authorization req = Some (BASIC_AUTH_USERNAME cfg, None) in
  (key_valid \/ basic_valid -> authenticate cfg req = Return None)
  /\ (~ key_valid -> password_missing ->
      authenticate cfg req
      = Raise "unsupported operand types(s) or combination of types: 'NoneType' and 'str'")
  /\ (~ (key_valid \/ basic_valid) -> ~ password_missing ->
      authenticate cfg req
      = Return (Some (if basic_configured cfg then Unauthorized401 else Forbidden403)))
  /\ (truthy (header_api_key req) = true -> presented_key req = header_api_key req).
Proof.
  intros Hp Hka Hpa Hma Hla Hba key key_valid basic_valid password_missing.
  assert (Hkey : exists answer,
             check_api_key cfg (presented_key req) = Return answer
             /\ (answer = true <-> key_valid)).
  { subst key_valid key. destruct (presented_key req) as [k|] eqn:Ek.
    - by apply check_api_key_accepts_helper.
    - exists false. split; [done|]. split; [done|]. by intros [? _]. }
  destruct Hkey as (answer & Hc & Hiff).
  assert (Hmissing : password_missing ->
            basic_auth_ok cfg req
            = Raise "unsupported operand types(s) or combination of types: 'NoneType' and 'str'").
  { intros [Eb Ha]. unfold basic_auth_ok. rewrite Eb, Ha.
    by rewrite bool_decide_eq_true_2. }
  assert (Hbasic : ~ password_missing ->
            exists b, basic_auth_ok cfg req = Return b /\ (b = true <-> basic_valid)).
  { intros Hnm. unfold basic_auth_ok, basic_valid.
    destruct (basic_configured cfg) eqn:Eb;
      [|exists false; split; [done|]; split; [done|by intros [? _]]].
    destruct (authorization req) as [[username password]|] eqn:Ha;
      [|exists false; split; [done|]; split; [done|by intros [_ ?]]].
    unfold basic_configured in Eb. apply andb_prop in Eb as [Eu Ep].
    destruct (BASIC_AUTH_PASSWORD cfg) as [[|c pw]|] eqn:Epw; try done.
    cbn [default from_option id] in *.
    destruct (decide (username = BASIC_AUTH_USERNAME cfg)) as [->|Hne].
    - rewrite bool_decide_eq_true_2 by done.
      destruct password as [password|].
      + rewrite compare_digest_ascii by (by eauto). eexists. split; [reflexivity|].
        destruct (String.eqb_spec password (String c pw)) as [->|Hne]; [done|].
        split; [done|]. intros [_ [=]]. congruence.
      + exfalso. apply Hnm. by split.
    - rewrite bool_decide_eq_false_2 by done. exists false. split; [done|].
      split; [done|]. intros [_ [=]]. congruence. }
  split; [|split; [|split]].
  - intros Hv. unfold authenticate. rewrite Hp, Hc.
    destruct answer; [done|].
    destruct Hv as [Hv|Hv]; [by apply Hiff in Hv|].
    destruct Hbasic as (b & Hb & Hbiff).
    { intros [_ Hm]. destruct Hv as [Ec Hv]. rewrite Hm in Hv.
      injection Hv as Hv. unfold basic_configured in Ec.
      rewrite <- Hv in Ec. cbn in Ec. by rewrite andb_false_r in Ec. }
    rewrite Hb. destruct b; [done|]. by apply Hbiff in Hv.
  - intros Hno Hm. unfold authenticate. rewrite Hp, Hc.
    destruct answer; [exfalso; apply Hno; by apply Hiff|].
    by rewrite (Hmissing Hm).
  - intros Hno Hnm. unfold authenticate. rewrite Hp, Hc.
    destruct answer; [exfalso; apply Hno; left; by apply Hiff|].
    destruct (Hbasic Hnm) as (b & Hb & Hbiff).
    rewrite Hb. destruct b; [exfalso; apply Hno; right; by apply Hbiff|].
    by destruct (basic_configured cfg).
  - intros Hh. unfold presented_key. by rewrite Hh.
Qed.

Lemma authenticate_decides_witness :
  authenticate
    {| API_KEY := Some "master"; API_KEYS := [];
       BASIC_AUTH_USERNAME := Some "admin"; BASIC_AUTH_PASSWORD := Some "secret" |}
    {| path := "/api/scrape"; header_api_key := None; arg_api_key := Some "wrong";
       authorization := Some (Some "admin", Some "secret") |}
  = Return None
  /\ authenticate
       {| API_KEY := Some "master"; API_KEYS := [];
          BASIC_AUTH_USERNAME := Some "admin"; BASIC_AUTH_PASSWORD := Some "secret" |}
       {| path := "/api/scrape"; header_api_key := None; arg_api_key := Some "wrong";
          authorization := Some (Some "admin", None) |}
     = Raise "unsupported operand types(s) or combination of types: 'NoneType' and 'str'".
Proof.
  split.
  - apply (authenticate_decides
      {| API_KEY := Some "master"; API_KEYS := [];
         BASIC_AUTH_USERNAME := Some "admin"; BASIC_AUTH_PASSWORD := Some "secret" |}
      {| path := "/api/scrape"; header_api_key := None; arg_api_key := Some "wrong";
         authorization := Some (Some "admin", Some "secret") |}); try reflexivity.
    + by intros username password [= _ <-].
    + constructor.
    + right. done.
  - apply (authenticate_decides
      {| API_KEY := Some "master"; API_KEYS := [];
         BASIC_AUTH_USERNAME := Some "admin"; BASIC_AUTH_PASSWORD := Some "secret" |}
      {| path := "/api/scrape"; header_api_key := None; arg_api_key := Some "wrong";
         authorization := Some (Some "admin", None) |}); try reflexivity.
    + by intros username password [=].
    + constructor.
    + intros [_ [[=]|[]]].
    + done.
Defined.

(** X18.  Nothing configured, nobody gets in.  When no master key, no
    listed key and no complete Basic credentials are configured, every
    request to a protected path is answered 403, whatever credentials
    it carries; the health check and the paths outside [/api/] stay
    open. *)
Theorem unconfigured_refuses_all (cfg : Settings) (req : Request) :
  truthy (API_KEY cfg) = false ->
  Forall (fun k => k = "") (API_KEYS cfg) ->
  basic_configured cfg = false ->
  authenticate cfg req
  = if protected (path req) then Return (Some Forbidden403) else Return None.
Proof.
  intros Hm Hl Hb. unfold authenticate.
  destruct (protected (path req)); [|done].
  assert (check_api_key cfg (presented_key req) = Return false) as ->.
  { unfold check_api_key. destruct (truthy (presented_key req)); [|done].
    cbn [negb]. rewrite Hm. by apply check_keys_all_empty. }
  unfold basic_auth_ok. by rewrite Hb.
Qed.

Lemma unconfigured_refuses_all_witness :
  authenticate
    {| API_KEY := None; API_KEYS := []; BASIC_AUTH_USERNAME := Some "admin";
       BASIC_AUTH_PASSWORD := None |}
    {| path := "/api/analyze"; header_api_key := Some "anything"; arg_api_key := None;
       authorization := Some (Some "admin", Some "") |}
  = Return (Some Forbidden403).
Proof.
  apply (unconfigured_refuses_all
    {| API_KEY := None; API_KEYS := []; BASIC_AUTH_USERNAME := Some "admin";
       BASIC_AUTH_PASSWORD := None |}
    {| path := "/api/analyze"; header_api_key := Some "anything"; arg_api_key := None;
       authorization := Some (Some "admin", Some "") |}); done.
Defined.

(** X19.  A key that is not ASCII.  When a master key is configured
    and the request to a protected path presents a key with a
    character outside ASCII, the hook does not answer with a refusal:
    the comparison raises a [TypeError]. *)
Theorem non_ascii_key_raises (cfg : Settings) (req : Request) (key : string) :
  protected (path req) = true ->
  presented_key req = Some key ->
  is_ascii key = false ->
  truthy (API_KEY cfg) = true ->
  authenticate cfg req
  = Raise "comparing strings with non-ASCII characters is not supported".
Proof.
  intros Hp Hkey Hk Hm. unfold authenticate, check_api_key.
  rewrite Hp, Hkey, Hm.
  assert (truthy (Some key) = true) as -> by (by destruct key).
  cbn [negb]. unfold compare_digest. by rewrite Hk.
Qed.

Lemma non_ascii_key_raises_witness :
  authenticate
    {| API_KEY := Some "master"; API_KEYS := []; BASIC_AUTH_USERNAME := None;
       BASIC_AUTH_PASSWORD := None |}
    {| path := "/api/scrape"; header_api_key := Some (String "233" "clair");
       arg_api_key := None; authorization := None |}
  = Raise "comparing strings with non-ASCII characters is not supported".
Proof.
  apply (non_ascii_key_raises _ _ (String "233" "clair")); reflexivity.
Defined.

End Authentication.

(** ** The routes of app.py *)

Section Routes.
Import Py Bs4 Scraper Analyzer AnalyzerTrace Limiter App.

Variable web : string -> HttpGet.
Variable BeautifulSoup : string -> PyResult Soup.
Variable h2t_handle : Soup -> string.
Variable api : Api.
Variable py_str : Json -> string.
Variable error_id : string -> string.
Variable format_exc : string -> string.
Variable cfg : Security.Settings.
Variable env : Env.

Local Abbreviation serve :=
  (full_dispatch_request web BeautifulSoup h2t_handle api py_str error_id format_exc
     cfg env).
Local Abbreviation scrape_view := (scrape_url web BeautifulSoup h2t_handle api env).
Local Abbreviation analyze_view :=
  (analyze_url web BeautifulSoup h2t_handle api py_str env).
Local Abbreviation handle := (handle_failure error_id format_exc).

Lemma fetches_app tr1 tr2 : fetches (tr1 ++ tr2) = (fetches tr1 ++ fetches tr2)%list.
Proof. apply flat_map_app. Qed.

Lemma prompts_app tr1 tr2 : prompts (tr1 ++ tr2) = (prompts tr1 ++ prompts tr2)%list.
Proof. apply flat_map_app. Qed.

Lemma prompts_map_Ev tr : prompts (map Ev tr) = posts tr.
Proof.
  induction tr as [|e tr IH]; [done|].
  cbn [map]. change (prompts (Ev e :: map Ev tr))
    with ((match e with Post p => [p] | _ => [] end) ++ prompts (map Ev tr))%list.
  rewrite IH. done.
Qed.

Lemma fetches_map_Ev tr : fetches (map Ev tr) = [].
Proof. induction tr as [|e tr IH]; [done|]. exact IH. Qed.

Lemma slice_to_len n s : (len (slice_to n s) <= n)%nat.
Proof.
  revert s. induction n as [|n IH]; intros [|c s]; unfold len in *; cbn; try lia.
  specialize (IH s). lia.
Qed.

Lemma shorten_len n s : (len (shorten n s) <= n + 3)%nat.
Proof.
  unfold shorten. destruct (Nat.ltb_spec n (len s)).
  - rewrite len_app. pose proof (slice_to_len n s).
    change (len "...") with 3%nat. lia.
  - lia.
Qed.

Lemma truthy_key (v : option string) :
  Security.truthy v = true -> default "" v <> "".
Proof. by destruct v as [[|c k]|]. Qed.

(** The requests of [analyze] as the routes call it. *)
Lemma analyze_posts content query_type :
  exists n, (n <= 3)%nat
    /\ posts (snd (analyze (analyzer_of env) api content query_type))
       = repeat (_build_prompt content query_type) n.
Proof.
  unfold analyze.
  destruct (String.eqb (api_key (analyzer_of env)) ""); [by exists 0%nat; split; [lia|]|].
  pose proof (retry_loop_budget (analyzer_of env) api
                (_build_prompt content query_type) 3 0) as H.
  cbn zeta in H. destruct H as (H1 & H2 & _); [done|lia|].
  change (max_retries (analyzer_of env)) with 3%nat.
  eexists. split; [|exact H2]. lia.
Qed.

Lemma analyze_all_fail content query_type :
  Security.truthy (PERPLEXITY_API_KEY env) = true ->
  (forall j, (j < 3)%nat -> call_fails api (_build_prompt content query_type) j) ->
  exists last,
    fst (_call_api api 2 (_build_prompt content query_type)) = Raise last
    /\ fst (analyze (analyzer_of env) api content query_type)
       = Raise ("Perplexity API call error: " ++ last)
    /\ posts (snd (analyze (analyzer_of env) api content query_type))
       = repeat (_build_prompt content query_type) 3.
Proof.
  intros Hkey Hfail. destruct (Hfail 2%nat) as [last Hlast]; [lia|].
  exists last. split; [done|].
  unfold analyze.
  destruct (String.eqb_spec (api_key (analyzer_of env)) "") as [E|_].
  { by apply truthy_key in Hkey. }
  pose proof (retry_loop_gives_up (analyzer_of env) api
                (_build_prompt content query_type) last Hlast 2 0) as H.
  cbn zeta in H. destruct H as (H1 & H2 & _); [done| |done].
  intros j Hj. apply Hfail. change (max_retries (analyzer_of env)) with 3%nat in Hj. lia.
Qed.

Lemma object_truthy (d : gmap string Json) : d <> ∅ -> json_truthy (JObject d) = true.
Proof.
  intros H. cbn [json_truthy].
  destruct (map_to_list d) as [|kv l] eqn:E; [|done].
  by apply map_to_list_empty_iff in E.
Qed.

Lemma validate_ok got d url :
  got = Return (JObject d) -> d !! "url" = Some (JString url) ->
  startswith "http://" url || startswith "https://" url = true ->
  validate got = inr (d, url).
Proof.
  intros -> Hurl Hs. unfold validate.
  rewrite object_truthy.
  2:{ intros ->. by rewrite lookup_empty in Hurl. }
  cbn [negb]. rewrite Hurl. cbn [default from_option id json_truthy].
  destruct url as [|c url]; [done|]. cbn [String.eqb negb]. by rewrite Hs.
Qed.

Lemma scrape_view_invalid req f :
  validate (json req) = inl f -> scrape_view req = (inl f, reraise [ValidationError; ScrapingError] f).
Proof. intros H. unfold scrape_url. by rewrite H. Qed.

Lemma analyze_view_invalid req f :
  validate (json req) = inl f ->
  analyze_view req = (inl f, reraise [ValidationError; ScrapingError; AnalysisError] f).
Proof. intros H. unfold analyze_url. by rewrite H. Qed.

Lemma scrape_admitted now req ls :
  Security.authenticate cfg (credentials req) = Return None ->
  fst (is_rate_limited (api_limiter ls) now (remote_addr req)) = false ->
  serve ScrapeRoute now req ls
  = (match fst (scrape_view req) with
     | inl f => fst (handle f)
     | inr a => ScrapeReply a
     end,
     (snd (scrape_view req)
      ++ match fst (scrape_view req) with inl f => snd (handle f) | inr _ => [] end)%list,
     {| api_limiter := snd (is_rate_limited (api_limiter ls) now (remote_addr req));
        analysis_limiter := analysis_limiter ls |}).
Proof.
  intros Ha Hl. unfold full_dispatch_request, before_request, view_function, rate_limit.
  rewrite Ha, Hl.
  destruct (scrape_view req) as [[f|a] tr]; cbn [fst snd app].
  - by destruct (handle f).
  - by rewrite app_nil_r.
Qed.

Lemma analyze_admitted now req ls :
  Security.authenticate cfg (credentials req) = Return None ->
  fst (is_rate_limited (analysis_limiter ls) now (remote_addr req)) = false ->
  serve AnalyzeRoute now req ls
  = (match fst (analyze_view req) with
     | inl f => fst (handle f)
     | inr a => AnalyzeReply a
     end,
     (snd (analyze_view req)
      ++ match fst (analyze_view req) with inl f => snd (handle f) | inr _ => [] end)%list,
     {| api_limiter := api_limiter ls;
        analysis_limiter := snd (is_rate_limited (analysis_limiter ls) now (remote_addr req)) |}).
Proof.
  intros Ha Hl. unfold full_dispatch_request, before_request, view_function, rate_limit.
  rewrite Ha, Hl.
  destruct (analyze_view req) as [[f|a] tr]; cbn [fst snd app].
  - by destruct (handle f).
  - by rewrite app_nil_r.
Qed.

(** X20.  Stopped by the hook.  A request to either route that the
    authentication hook does not let through is answered by the hook's
    refusal, or with the generic 500 response when the hook raises; it
    does not count against any rate limit, fetches no page and sends
    nothing to the analysis service. *)
Theorem stopped_by_the_hook (route : Route) (now : Q) (req : HttpRequest) (ls : Limiters) :
  Security.authenticate cfg (credentials req) <> Return None ->
  let r := serve route now req ls in
  snd r = ls
  /\ fetches (snd (fst r)) = []
  /\ prompts (snd (fst r)) = []
  /\ (forall refusal,
        Security.authenticate cfg (credentials req) = Return (Some refusal) ->
        fst (fst r) = AuthReply refusal)
  /\ (forall e,
        Security.authenticate cfg (credentials req) = Raise e ->
        fst (fst r)
        = JsonReply 500
            (<["error_id" := error_id e]>
               {["error" := "An internal server error occurred"]})).
Proof.
  intros H r. subst r. unfold full_dispatch_request, before_request.
  destruct (Security.authenticate cfg (credentials req)) as [[refusal|]|e]; [|done|].
  - cbn. repeat split; try done. by intros ? [= <-].
  - cbn. repeat split; try done. by intros ? [= <-].
Qed.

(** X21.  Over the limit.  A request that passes the hook but meets a
    full window of its route's limiter is answered 429 with that
    limiter's limit and window; the view does not run (no fetch, no
    request to the service), the call is not recorded (the client's
    entries are the pruned ones), and the other route's limiter is
    untouched. *)
Theorem limited_request_does_no_work (route : Route) (now : Q) (req : HttpRequest)
    (ls : Limiters) :
  Security.authenticate cfg (credentials req) = Return None ->
  fst (is_rate_limited (limiter_of route ls) now (remote_addr req)) = true ->
  let r := serve route now req ls in
  fst (fst r) = RateLimitReply (limit (limiter_of route ls)) (window (limiter_of route ls))
  /\ fetches (snd (fst r)) = []
  /\ prompts (snd (fst r)) = []
  /\ LimiterRuns.stored (limiter_of route (snd r)) (remote_addr req)
     = prune (limiter_of route ls) now
         (LimiterRuns.stored (limiter_of route ls) (remote_addr req))
  /\ limiter_of (other route) (snd r) = limiter_of (other route) ls.
Proof.
  intros Ha Hl r. subst r.
  unfold full_dispatch_request, before_request, view_function, rate_limit.
  rewrite Ha.
  assert (LimiterRuns.stored
            (snd (is_rate_limited (limiter_of route ls) now (remote_addr req)))
            (remote_addr req)
          = prune (limiter_of route ls) now
              (LimiterRuns.stored (limiter_of route ls) (remote_addr req))) as Hst.
  { revert Hl. rewrite is_rate_limited_unfold. cbn zeta.
    unfold LimiterRuns.stored.
    destruct (limit (limiter_of route ls) <=? _)%Z; [|done].
    intros _. cbn. by rewrite lookup_insert_eq. }
  destruct route; cbn [limiter_of other] in *; rewrite Hl; cbn; by rewrite Hst.
Qed.

Lemma served_validation_error route now req ls msg :
  Security.authenticate cfg (credentials req) = Return None ->
  fst (is_rate_limited (limiter_of route ls) now (remote_addr req)) = false ->
  validate (json req) = inl (APIError ValidationError msg) ->
  let r := serve route now req ls in
  fst (fst r) = JsonReply 400 {["error" := msg]}
  /\ snd (fst r) = [log ERROR ("API Error: " ++ msg ++ " (Code: 400)")]
  /\ limiter_of route (snd r)
     = snd (is_rate_limited (limiter_of route ls) now (remote_addr req)).
Proof.
  intros Ha Hl Hv r. subst r.
  destruct route; cbn [limiter_of] in *.
  - rewrite scrape_admitted by done. rewrite (scrape_view_invalid _ _ Hv).
    cbn. unfold to_dict. cbn. by rewrite insert_empty.
  - rewrite analyze_admitted by done. rewrite (analyze_view_invalid _ _ Hv).
    cbn. unfold to_dict. cbn. by rewrite insert_empty.
Qed.

Lemma served_exception route now req ls e :
  Security.authenticate cfg (credentials req) = Return None ->
  fst (is_rate_limited (limiter_of route ls) now (remote_addr req)) = false ->
  validate (json req) = inl (PlainException e) ->
  let r := serve route now req ls in
  fst (fst r)
  = JsonReply 500
      (<["error_id" := error_id e]> {["error" := "An internal server error occurred"]})
  /\ snd (fst r)
     = [log ERROR ("Unexpected error: " ++ e);
        log ERROR ("Unhandled Exception: " ++ e ++ NL ++ format_exc e)]
  /\ limiter_of route (snd r)
     = snd (is_rate_limited (limiter_of route ls) now (remote_addr req)).
Proof.
  intros Ha Hl Hv r. subst r.
  destruct route; cbn [limiter_of] in *.
  - rewrite scrape_admitted by done. by rewrite (scrape_view_invalid _ _ Hv).
  - rewrite analyze_admitted by done. by rewrite (analyze_view_invalid _ _ Hv).
Qed.

(** X22.  A body without a usable URL.  An admitted request to either
    route whose body gives no usable URL does no outside work: the only
    effects are log lines, nothing is fetched or sent, and the request
    has been counted by the route's limiter.  It is answered 400 with
    "JSON data is required" when the decoded body is falsy, with "URL
    is required" when the body is an object whose [url] is absent or
    falsy, and with "Not a valid URL" when the [url] is a string that
    begins with neither [http://] nor [https://].  It is answered with
    the generic 500 response when [get_json] raises, when the body is
    truthy but no object ([data.get] raises), and when the [url] is
    truthy but no string ([url.startswith] raises). *)
Theorem invalid_body_is_refused (route : Route) (now : Q) (req : HttpRequest)
    (ls : Limiters) :
  Security.authenticate cfg (credentials req) = Return None ->
  fst (is_rate_limited (limiter_of route ls) now (remote_addr req)) = false ->
  let r := serve route now req ls in
  let refused msg :=
    fst (fst r) = JsonReply 400 {["error" := msg]}
    /\ snd (fst r) = [log ERROR ("API Error: " ++ msg ++ " (Code: 400)")] in
  let failed e :=
    fst (fst r)
    = JsonReply 500
        (<["error_id" := error_id e]> {["error" := "An internal server error occurred"]})
    /\ snd (fst r)
       = [log ERROR ("Unexpected error: " ++ e);
          log ERROR ("Unhandled Exception: " ++ e ++ NL ++ format_exc e)] in
  limiter_of route (snd r)
  = snd (is_rate_limited (limiter_of route ls) now (remote_addr req))
  /\ (forall data,
        json req = Return data -> json_truthy data = false ->
        refused "JSON data is required")
  /\ (forall d,
        json req = Return (JObject d) -> d <> ∅ ->
        json_truthy (default JNull (d !! "url")) = false ->
        refused "URL is required")
  /\ (forall d url,
        json req = Return (JObject d) -> d !! "url" = Some (JString url) ->
        url <> "" ->
        startswith "http://" url || startswith "https://" url = false ->
        refused "Not a valid URL")
  /\ (forall e, json req = Raise e -> failed e)
  /\ (forall data,
        json req = Return data -> json_truthy data = true ->
        (forall d, data <> JObject d) ->
        failed (no_attribute data "get"))
  /\ (forall d url,
        json req = Return (JObject d) -> d !! "url" = Some url ->
        json_truthy url = true ->
        (forall s, url <> JString s) ->
        failed (no_attribute url "startswith")).
Proof.
  intros Ha Hl r refused failed.
  assert (Hrefused : forall msg,
             validate (json req) = inl (APIError ValidationError msg) -> refused msg).
  { intros msg Hv.
    destruct (served_validation_error route now req ls msg Ha Hl Hv) as (H1 & H2 & H3).
    by split. }
  assert (Hfailed : forall e,
             validate (json req) = inl (PlainException e) -> failed e).
  { intros e Hv.
    destruct (served_exception route now req ls e Ha Hl Hv) as (H1 & H2 & H3).
    by split. }
  split; [|split; [|split; [|split; [|split; [|split]]]]].
  - destruct (validate (json req)) as [[cls msg|e]|[d url]] eqn:Hv.
    + assert (cls = ValidationError) as ->.
      { unfold validate in Hv.
        destruct (json req) as [data|e]; [|done].
        destruct (json_truthy data); cbn [negb] in Hv; [|by injection Hv as <- _].
        destruct data as [| | | | |items|d]; try done.
        destruct (json_truthy (default JNull (d !! "url"))); cbn [negb] in Hv;
          [|by injection Hv as <- _].
        destruct (default JNull (d !! "url")) as [| | | |url| |]; try done.
        destruct (_ || _); [done|by injection Hv as <- _]. }
      by destruct (served_validation_error route now req ls msg Ha Hl Hv) as (_ & _ & ?).
    + by destruct (served_exception route now req ls e Ha Hl Hv) as (_ & _ & ?).
    + subst r. destruct route; cbn [limiter_of] in *.
      * by rewrite scrape_admitted.
      * by rewrite analyze_admitted.
  - intros data Hj Hf. apply Hrefused. unfold validate. by rewrite Hj, Hf.
  - intros d Hj Hne Hf. apply Hrefused. unfold validate.
    rewrite Hj, object_truthy by done. cbn [negb]. by rewrite Hf.
  - intros d url Hj Hu Hne Hs. apply Hrefused. unfold validate.
    rewrite Hj, object_truthy.
    2:{ intros ->. by rewrite lookup_empty in Hu. }
    cbn [negb]. rewrite Hu. cbn [default from_option id json_truthy].
    rewrite (proj2 (String.eqb_neq url "") Hne). cbn [negb]. by rewrite Hs.
  - intros e Hj. apply Hfailed. unfold validate. by rewrite Hj.
  - intros data Hj Ht Hno. apply Hfailed. unfold validate. rewrite Hj, Ht. cbn [negb].
    destruct data as [| | | | |items|d]; try done. by destruct (Hno d).
  - intros d url Hj Hu Ht Hno. apply Hfailed. unfold validate.
    rewrite Hj, object_truthy.
    2:{ intros ->. by rewrite lookup_empty in Hu. }
    cbn [negb]. rewrite Hu. cbn [default from_option id]. rewrite Ht. cbn [negb].
    destruct url as [| | | |s| |]; try done. by destruct (Hno s).
Qed.

Lemma reraise_effects named f : fetches (reraise named f) = [] /\ prompts (reraise named f) = [].
Proof. destruct f as [cls m|e]; cbn; [by case_bool_decide|done]. Qed.

Lemma handle_effects f : fetches (snd (handle f)) = [] /\ prompts (snd (handle f)) = [].
Proof. by destruct f. Qed.

Lemma fetch_page_effects url :
  fetches (snd (fetch_page web env url)) = [url]
  /\ prompts (snd (fetch_page web env url)) = [].
Proof.
  unfold fetch_page, scrape. destruct (web url) as [e|enc text atext]; [done|].
  by destruct (_ <? _)%nat.
Qed.

Lemma fetch_page_fails url e :
  web url = GetFails e ->
  fst (fetch_page web env url)
  = inl (APIError ScrapingError ("Failed to scrape URL: Scraping error: " ++ e)).
Proof. intros H. unfold fetch_page, scrape. by rewrite H. Qed.

(** X23.  A page that cannot be fetched.  When the URL is usable and
    the fetch fails with a request error, an admitted request to
    either route (the service key being configured for
    [/api/analyze]) is answered 400 with the fetch error in its
    message; the page was requested once and nothing was sent to the
    analysis service. *)
Theorem failed_fetch_is_a_400 (route : Route) (now : Q) (req : HttpRequest)
    (ls : Limiters) (d : gmap string Json) (url e : string) :
  Security.authenticate cfg (credentials req) = Return None ->
  fst (is_rate_limited (limiter_of route ls) now (remote_addr req)) = false ->
  json req = Return (JObject d) -> d !! "url" = Some (JString url) ->
  startswith "http://" url || startswith "https://" url = true ->
  (route = AnalyzeRoute -> Security.truthy (PERPLEXITY_API_KEY env) = true) ->
  web url = GetFails e ->
  let r := serve route now req ls in
  fst (fst r) = JsonReply 400 {["error" := "Failed to scrape URL: Scraping error: " ++ e]}
  /\ fetches (snd (fst r)) = [url]
  /\ prompts (snd (fst r)) = [].
Proof.
  intros Ha Hl Hj Hu Hs Hk Hw r. subst r.
  pose proof (validate_ok _ _ _ Hj Hu Hs) as Hv.
  pose proof (fetch_page_fails url e Hw) as Hf.
  pose proof (fetch_page_effects url) as [Hfe Hpr].
  destruct route; cbn [limiter_of] in *.
  - rewrite scrape_admitted by done. unfold scrape_url. rewrite Hv.
    destruct (fetch_page web env url) as [r1 tr1]. cbn [fst snd] in *. subst r1.
    cbn [fst snd reraise handle_failure status_code].
    rewrite bool_decide_eq_true_2 by set_solver.
    rewrite !fetches_app, !prompts_app, Hfe, Hpr. unfold to_dict. cbn [default].
    by rewrite insert_empty.
  - rewrite analyze_admitted by done. unfold analyze_url. rewrite Hv, (Hk eq_refl).
    cbn [negb].
    destruct (fetch_page web env url) as [r1 tr1]. cbn [fst snd] in *. subst r1.
    cbn [fst snd reraise handle_failure status_code].
    rewrite bool_decide_eq_true_2 by set_solver.
    rewrite !fetches_app, !prompts_app, Hfe, Hpr. unfold to_dict. cbn [default].
    by rewrite insert_empty.
Qed.

Lemma parse_page_raises html_content e :
  BeautifulSoup html_content = Raise e ->
  parse_page BeautifulSoup h2t_handle html_content = inl (PlainException e).
Proof. intros H. unfold parse_page, parse_content. by rewrite H. Qed.

(** X24.  A page the parser rejects.  When the fetched page makes the
    HTML parser raise, an admitted request to either route is answered
    with the generic 500 response, whose body carries the fixed message
    and an error id but not the parser's message; nothing is sent to
    the analysis service. *)
Theorem parser_failure_is_a_500 (route : Route) (now : Q) (req : HttpRequest)
    (ls : Limiters) (d : gmap string Json) (url html_content e : string) :
  Security.authenticate cfg (credentials req) = Return None ->
  fst (is_rate_limited (limiter_of route ls) now (remote_addr req)) = false ->
  json req = Return (JObject d) -> d !! "url" = Some (JString url) ->
  startswith "http://" url || startswith "https://" url = true ->
  (route = AnalyzeRoute -> Security.truthy (PERPLEXITY_API_KEY env) = true) ->
  fst (fetch_page web env url) = inr html_content ->
  BeautifulSoup html_content = Raise e ->
  let r := serve route now req ls in
  fst (fst r)
  = JsonReply 500
      (<["error_id" := error_id e]> {["error" := "An internal server error occurred"]})
  /\ fetches (snd (fst r)) = [url]
  /\ prompts (snd (fst r)) = [].
Proof.
  intros Ha Hl Hj Hu Hs Hk Hf Hb r. subst r.
  pose proof (validate_ok _ _ _ Hj Hu Hs) as Hv.
  pose proof (fetch_page_effects url) as [Hfe Hpr].
  destruct route; cbn [limiter_of] in *.
  - rewrite scrape_admitted by done. unfold scrape_url. rewrite Hv.
    destruct (fetch_page web env url) as [r1 tr1]. cbn [fst snd] in *. subst r1.
    rewrite (parse_page_raises _ _ Hb).
    cbn [fst snd reraise handle_failure].
    by rewrite !fetches_app, !prompts_app, Hfe, Hpr.
  - rewrite analyze_admitted by done. unfold analyze_url. rewrite Hv, (Hk eq_refl).
    cbn [negb].
    destruct (fetch_page web env url) as [r1 tr1]. cbn [fst snd] in *. subst r1.
    rewrite (parse_page_raises _ _ Hb).
    cbn [fst snd reraise handle_failure].
    by rewrite !fetches_app, !prompts_app, Hfe, Hpr.
Qed.

(** X25.  The service is down.  When the page was fetched and parsed
    and every call to the analysis service fails, the service is called
    three times on either route, but the routes answer differently:
    [/api/scrape] still answers with the page's data and reports the
    failure in [summary_error], [/api/analyze] answers 500; both
    messages end with the last call's error. *)
Theorem analysis_failure_by_route (route : Route) (now : Q) (req : HttpRequest)
    (ls : Limiters) (d : gmap string Json) (url html_content : string)
    (page : PageContent) :
  Security.authenticate cfg (credentials req) = Return None ->
  fst (is_rate_limited (limiter_of route ls) now (remote_addr req)) = false ->
  json req = Return (JObject d) -> d !! "url" = Some (JString url) ->
  startswith "http://" url || startswith "https://" url = true ->
  Security.truthy (PERPLEXITY_API_KEY env) = true ->
  fst (fetch_page web env url) = inr html_content ->
  parse_content h2t_handle BeautifulSoup html_content = Return page ->
  (forall prompt j, (j < 3)%nat -> call_fails api prompt j) ->
  let r := serve route now req ls in
  length (prompts (snd (fst r))) = 3%nat
  /\ exists prompt last,
       fst (_call_api api 2 prompt) = Raise last
       /\ match route with
          | ScrapeRoute =>
              fst (fst r)
              = ScrapeReply
                  {| sr_url := url;
                     sr_title := title page;
                     sr_description := description page;
                     sr_og_data := og_data page;
                     sr_content_length := len (content page);
                     sr_content_preview := shorten 500 (content page);
                     sr_summary :=
                       SummaryError
                         ("Error occurred while summarizing content: "
                          ++ "Perplexity API call error: " ++ last) |}
          | AnalyzeRoute =>
              fst (fst r)
              = JsonReply 500
                  {["error" := "Error occurred while analyzing content: "
                               ++ "Perplexity API call error: " ++ last]}
          end.
Proof.
  intros Ha Hl Hj Hu Hs Hk Hf Hp Hdown r. subst r.
  pose proof (validate_ok _ _ _ Hj Hu Hs) as Hv.
  pose proof (fetch_page_effects url) as [Hfe Hpr].
  destruct route; cbn [limiter_of] in *.
  - rewrite scrape_admitted by done. unfold scrape_url. rewrite Hv.
    destruct (fetch_page web env url) as [r1 tr1]. cbn [fst snd] in *. subst r1.
    unfold parse_page. rewrite Hp, Hk.
    destruct (analyze_all_fail (shorten 10000 (content page)) "summary" Hk
                (Hdown _)) as (last & Hlast & Hr & Hposts).
    destruct (analyze (analyzer_of env) api (shorten 10000 (content page)) "summary")
      as [res tr2]. cbn [fst snd] in *. subst res.
    cbn [fst snd]. rewrite app_nil_r.
    rewrite !prompts_app, Hpr, prompts_map_Ev, Hposts. split; [done|].
    by exists (_build_prompt (shorten 10000 (content page)) "summary"), last.
  - rewrite analyze_admitted by done. unfold analyze_url. rewrite Hv, Hk. cbn [negb].
    destruct (fetch_page web env url) as [r1 tr1]. cbn [fst snd] in *. subst r1.
    unfold parse_page. rewrite Hp.
    set (call := if json_truthy _ then _ else _).
    assert (exists content query_type,
               call = analyze (analyzer_of env) api content query_type)
      as (c & q & Hcall).
    { subst call. destruct (json_truthy _); by eexists _, _. }
    rewrite Hcall.
    destruct (analyze_all_fail c q Hk (Hdown _)) as (last & Hlast & Hr & Hposts).
    destruct (analyze (analyzer_of env) api c q) as [res tr2].
    cbn [fst snd] in *. subst res.
    cbn [fst snd handle_failure status_code].
    rewrite !prompts_app, Hpr, prompts_map_Ev, Hposts. split; [done|].
    exists (_build_prompt c q), last. split; [done|].
    unfold to_dict. cbn [default]. by rewrite insert_empty.
Qed.

(** X26.  No service key.  Without [PERPLEXITY_API_KEY] nothing is
    ever sent to the analysis service; [/api/analyze] refuses a valid
    request with 500 before fetching the page, while [/api/scrape]
    fetches it and, when it answers with the page's data, leaves the
    summary out. *)
Theorem without_service_key (route : Route) (now : Q) (req : HttpRequest)
    (ls : Limiters) (d : gmap string Json) (url : string) :
  Security.authenticate cfg (credentials req) = Return None ->
  fst (is_rate_limited (limiter_of route ls) now (remote_addr req)) = false ->
  json req = Return (JObject d) -> d !! "url" = Some (JString url) ->
  startswith "http://" url || startswith "https://" url = true ->
  Security.truthy (PERPLEXITY_API_KEY env) = false ->
  let r := serve route now req ls in
  prompts (snd (fst r)) = []
  /\ match route with
     | AnalyzeRoute =>
         fst (fst r) = JsonReply 500 {["error" := "Perplexity API key is not configured"]}
         /\ fetches (snd (fst r)) = []
     | ScrapeRoute =>
         fetches (snd (fst r)) = [url]
         /\ forall result, fst (fst r) = ScrapeReply result -> sr_summary result = NoSummary
     end.
Proof.
  intros Ha Hl Hj Hu Hs Hk r. subst r.
  pose proof (validate_ok _ _ _ Hj Hu Hs) as Hv.
  pose proof (fetch_page_effects url) as [Hfe Hpr].
  destruct route; cbn [limiter_of] in *.
  - rewrite scrape_admitted by done. unfold scrape_url. rewrite Hv, Hk.
    destruct (fetch_page web env url) as [[f|html_content] tr1]; cbn [fst snd] in *.
    + destruct (reraise_effects [ValidationError; ScrapingError] f) as [R1 R2].
      destruct (handle_effects f) as [H1 H2].
      rewrite !fetches_app, !prompts_app, Hfe, Hpr, R1, R2, H1, H2.
      repeat split; try done. intros result. by destruct f.
    + destruct (parse_page BeautifulSoup h2t_handle html_content) as [f|page];
        cbn [fst snd].
      * destruct (reraise_effects [ValidationError; ScrapingError] f) as [R1 R2].
        destruct (handle_effects f) as [H1 H2].
        rewrite !fetches_app, !prompts_app, Hfe, Hpr, R1, R2, H1, H2.
        repeat split; try done. intros result. by destruct f.
      * rewrite !fetches_app, !prompts_app, Hfe, Hpr.
        repeat split; try done. by intros result [= <-].
  - rewrite analyze_admitted by done. unfold analyze_url. rewrite Hv, Hk.
    cbn. unfold to_dict. cbn. by rewrite insert_empty.
Qed.

(** X27.  A custom query.  When the body has a non-empty
    [custom_query], every prompt [/api/analyze] sends is the query, the
    URL and at most 15003 characters of content, as they are: the
    [query_type] chooses no template, it is only echoed in the answer's
    metadata beside the query. *)
Theorem custom_query_is_sent_verbatim (now : Q) (req : HttpRequest) (ls : Limiters)
    (d : gmap string Json) (url custom_query : string) :
  Security.authenticate cfg (credentials req) = Return None ->
  fst (is_rate_limited (analysis_limiter ls) now (remote_addr req)) = false ->
  json req = Return (JObject d) -> d !! "url" = Some (JString url) ->
  startswith "http://" url || startswith "https://" url = true ->
  d !! "custom_query" = Some (JString custom_query) ->
  custom_query <> "" ->
  let r := serve AnalyzeRoute now req ls in
  Forall (fun p => exists c,
            (len c <= 15000 + 3)%nat
            /\ p = custom_query ++ NL ++ NL ++ "URL: " ++ url ++ NL ++ NL
                   ++ "Content:" ++ NL ++ c)
         (prompts (snd (fst r)))
  /\ forall result,
       fst (fst r) = AnalyzeReply result ->
       ar_custom_query result = JString custom_query
       /\ ar_query_type result = default (JString "analysis") (d !! "query_type").
Proof.
  intros Ha Hl Hj Hu Hs Hq Hne r. subst r.
  pose proof (validate_ok _ _ _ Hj Hu Hs) as Hv.
  pose proof (fetch_page_effects url) as [Hfe Hpr].
  rewrite analyze_admitted by done. unfold analyze_url. rewrite Hv.
  rewrite Hq. cbn [default from_option id json_truthy render].
  assert (String.eqb custom_query "" = false) as -> by by apply String.eqb_neq.
  cbn [negb].
  destruct (Security.truthy (PERPLEXITY_API_KEY env)); cbn [negb].
  2:{ cbn. split; [constructor|done]. }
  destruct (fetch_page web env url) as [[f|html_content] tr1]; cbn [fst snd] in *.
  { destruct (reraise_effects [ValidationError; ScrapingError; AnalysisError] f) as [R1 R2].
    destruct (handle_effects f) as [H1 H2].
    rewrite !prompts_app, Hpr, R2, H2. split; [constructor|]. intros result. by destruct f. }
  destruct (parse_page BeautifulSoup h2t_handle html_content) as [f|page]; cbn [fst snd].
  { destruct (reraise_effects [ValidationError; ScrapingError; AnalysisError] f) as [R1 R2].
    destruct (handle_effects f) as [H1 H2].
    rewrite !prompts_app, Hpr, R2, H2. split; [constructor|]. intros result. by destruct f. }
  match goal with |- context [analyze _ _ ?c "custom"] => set (prompt := c) end.
  destruct (analyze_posts prompt "custom") as (n & Hn & Hposts).
  assert (Forall (fun p => exists c,
            (len c <= 15000 + 3)%nat
            /\ p = custom_query ++ NL ++ NL ++ "URL: " ++ url ++ NL ++ NL
                   ++ "Content:" ++ NL ++ c) (repeat prompt n)) as HF.
  { apply List.Forall_forall. intros p Hp%repeat_spec. subst p.
    exists (shorten 15000 (content page)). split; [apply shorten_len|done]. }
  destruct (analyze (analyzer_of env) api prompt "custom") as [[res|e] tr2];
    cbn [fst snd] in *.
  - rewrite app_nil_r, !prompts_app, Hpr, prompts_map_Ev, Hposts.
    unfold log. cbn [app prompts flat_map]. rewrite ?app_nil_r.
    change (_build_prompt prompt "custom") with prompt.
    split; [exact HF|]. by intros result [= <-].
  - cbn [handle_failure fst snd].
    rewrite !prompts_app, Hpr, prompts_map_Ev, Hposts.
    unfold log. cbn [app prompts flat_map]. rewrite ?app_nil_r.
    change (_build_prompt prompt "custom") with prompt.
    split; [exact HF|]. done.
Qed.

(** The effects of the two views, whatever the request. *)
Lemma scrape_view_effects req :
  (length (fetches (snd (scrape_view req))) <= 1)%nat
  /\ exists n c,
       (n <= 3)%nat /\ (len c <= 10000 + 3)%nat
       /\ prompts (snd (scrape_view req)) = repeat (_build_prompt c "summary") n.
Proof.
  unfold scrape_url.
  destruct (validate (json req)) as [f|[d url]]; cbn [fst snd].
  { destruct (reraise_effects [ValidationError; ScrapingError] f) as [-> ->].
    split; [cbn; lia|]. exists 0%nat, "". repeat split; cbn; lia. }
  pose proof (fetch_page_effects url) as [Hfe Hpr].
  destruct (fetch_page web env url) as [[f|html_content] tr1]; cbn [fst snd] in *.
  { destruct (reraise_effects [ValidationError; ScrapingError] f) as [R1 R2].
    rewrite !fetches_app, !prompts_app, Hfe, Hpr, R1, R2.
    split; [cbn; lia|]. exists 0%nat, "". repeat split; cbn; lia. }
  destruct (parse_page BeautifulSoup h2t_handle html_content) as [f|page]; cbn [fst snd].
  { destruct (reraise_effects [ValidationError; ScrapingError] f) as [R1 R2].
    rewrite !fetches_app, !prompts_app, Hfe, Hpr, R1, R2.
    split; [cbn; lia|]. exists 0%nat, "". repeat split; cbn; lia. }
  destruct (Security.truthy (PERPLEXITY_API_KEY env)).
  2:{ cbn [fst snd]. rewrite !fetches_app, !prompts_app, Hfe, Hpr.
      split; [cbn; lia|]. exists 0%nat, "". repeat split; cbn; lia. }
  destruct (analyze_posts (shorten 10000 (content page)) "summary") as (n & Hn & Hposts).
  destruct (analyze (analyzer_of env) api (shorten 10000 (content page)) "summary")
    as [[res|e] tr2]; cbn [fst snd] in *.
  - rewrite !fetches_app, !prompts_app, Hfe, Hpr, prompts_map_Ev, fetches_map_Ev, Hposts.
    split; [unfold log; cbn; lia|]. exists n, (shorten 10000 (content page)).
    split; [done|]. split; [apply shorten_len|]. unfold log. cbn [app prompts flat_map].
    by rewrite app_nil_r.
  - rewrite !fetches_app, !prompts_app, Hfe, Hpr, prompts_map_Ev, fetches_map_Ev, Hposts.
    split; [unfold log; cbn; lia|]. exists n, (shorten 10000 (content page)).
    split; [done|]. split; [apply shorten_len|]. unfold log. cbn [app prompts flat_map].
    by rewrite app_nil_r.
Qed.

Lemma analyze_view_effects req :
  (length (fetches (snd (analyze_view req))) <= 1)%nat
  /\ (length (prompts (snd (analyze_view req))) <= 3)%nat.
Proof.
  unfold analyze_url.
  destruct (validate (json req)) as [f|[d url]]; cbn [fst snd].
  { destruct (reraise_effects [ValidationError; ScrapingError; AnalysisError] f)
      as [-> ->]. cbn; lia. }
  destruct (negb (Security.truthy (PERPLEXITY_API_KEY env))); [cbn; lia|].
  pose proof (fetch_page_effects url) as [Hfe Hpr].
  destruct (fetch_page web env url) as [[f|html_content] tr1]; cbn [fst snd] in *.
  { destruct (reraise_effects [ValidationError; ScrapingError; AnalysisError] f) as [R1 R2].
    rewrite !fetches_app, !prompts_app, Hfe, Hpr, R1, R2. cbn; lia. }
  destruct (parse_page BeautifulSoup h2t_handle html_content) as [f|page]; cbn [fst snd].
  { destruct (reraise_effects [ValidationError; ScrapingError; AnalysisError] f) as [R1 R2].
    rewrite !fetches_app, !prompts_app, Hfe, Hpr, R1, R2. cbn; lia. }
  set (call := if json_truthy _ then _ else _).
  assert (exists content query_type,
             call = analyze (analyzer_of env) api content query_type)
    as (c & q & Hcall).
  { subst call. destruct (json_truthy _); by eexists _, _. }
  rewrite Hcall. clear call Hcall.
  destruct (analyze_posts c q) as (n & Hn & Hposts).
  destruct (analyze (analyzer_of env) api c q) as [[res|e] tr2]; cbn [fst snd] in *.
  - rewrite !fetches_app, !prompts_app, Hfe, Hpr, prompts_map_Ev, fetches_map_Ev, Hposts.
    unfold log. cbn [app prompts fetches flat_map length]. rewrite app_nil_r, repeat_length. lia.
  - rewrite !fetches_app, !prompts_app, Hfe, Hpr, prompts_map_Ev, fetches_map_Ev, Hposts.
    unfold log. cbn [app prompts fetches flat_map length]. rewrite app_nil_r, repeat_length. lia.
Qed.

(** X28.  What one request can cost.  Whatever the request, the state
    of the limiters and the behaviour of the web and of the service,
    answering one request fetches at most one page and calls the
    analysis service at most three times; on [/api/scrape] every call
    carries the summary prompt around at most 10003 characters of
    content. *)
Theorem request_budget (route : Route) (now : Q) (req : HttpRequest) (ls : Limiters) :
  let tr := snd (fst (serve route now req ls)) in
  (length (fetches tr) <= 1)%nat
  /\ (length (prompts tr) <= 3)%nat
  /\ (route = ScrapeRoute ->
      Forall (fun p => exists c, (len c <= 10000 + 3)%nat /\ p = _build_prompt c "summary")
             (prompts tr)).
Proof.
  intros tr. subst tr.
  unfold full_dispatch_request, before_request.
  destruct (Security.authenticate cfg (credentials req)) as [[refusal|]|e];
    [cbn; repeat split; try lia; by constructor| |cbn; repeat split; try lia; by constructor].
  cbn [app]. unfold view_function, rate_limit.
  destruct route.
  - destruct (fst (is_rate_limited (api_limiter ls) now (remote_addr req)));
      [cbn; repeat split; try lia; by constructor|].
    destruct (scrape_view_effects req) as (Hf & n & c & Hn & Hc & Hp).
    destruct (scrape_view req) as [[f|a] tr]; cbn [fst snd] in *.
    + destruct (handle_effects f) as [H1 H2]. destruct (handle f) as [reply tr'].
      cbn [fst snd] in *. rewrite fetches_app, prompts_app, H1, H2, !app_nil_r, Hp.
      rewrite repeat_length. repeat split; [lia|lia|]. intros _.
      apply List.Forall_forall. intros p Hin%repeat_spec. by exists c.
    + rewrite Hp, repeat_length. repeat split; [lia|lia|]. intros _.
      apply List.Forall_forall. intros p Hin%repeat_spec. by exists c.
  - destruct (fst (is_rate_limited (analysis_limiter ls) now (remote_addr req)));
      [cbn; repeat split; try lia; by constructor|].
    destruct (analyze_view_effects req) as (Hf & Hp).
    destruct (analyze_view req) as [[f|a] tr]; cbn [fst snd] in *.
    + destruct (handle_effects f) as [H1 H2]. destruct (handle f) as [reply tr'].
      cbn [fst snd] in *. rewrite fetches_app, prompts_app, H1, H2, !app_nil_r.
      repeat split; [lia|lia|done].
    + repeat split; [lia|lia|done].
Qed.

End Routes.

(** ** The routes on a small world *)

Section RoutesOnSamples.
Import Py Bs4 Scraper Analyzer AnalyzerTrace Limiter App Samples.

Lemma stopped_by_the_hook_witness :
  let r := full_dispatch_request AppSamples.web rejecting_parser AppSamples.h2t_handle
             AppSamples.answering AppSamples.py_str AppSamples.error_id AppSamples.format_exc
             AppSamples.cfg AppSamples.env ScrapeRoute 0
             (AppSamples.request "/api/scrape" "guess" "203.0.113.7"
                (AppSamples.url_only "https://example.com/"))
             limiters_at_start in
  snd r = limiters_at_start
  /\ fetches (snd (fst r)) = []
  /\ prompts (snd (fst r)) = []
  /\ (forall refusal,
        Security.authenticate AppSamples.cfg
          (credentials (AppSamples.request "/api/scrape" "guess" "203.0.113.7"
                          (AppSamples.url_only "https://example.com/")))
        = Return (Some refusal) ->
        fst (fst r) = AuthReply refusal)
  /\ (forall e,
        Security.authenticate AppSamples.cfg
          (credentials (AppSamples.request "/api/scrape" "guess" "203.0.113.7"
                          (AppSamples.url_only "https://example.com/")))
        = Raise e ->
        fst (fst r)
        = JsonReply 500
            (<["error_id" := AppSamples.error_id e]>
               {["error" := "An internal server error occurred"]})).
Proof.
  apply (stopped_by_the_hook AppSamples.web rejecting_parser AppSamples.h2t_handle
           AppSamples.answering AppSamples.py_str AppSamples.error_id AppSamples.format_exc
           AppSamples.cfg AppSamples.env ScrapeRoute 0
           (AppSamples.request "/api/scrape" "guess" "203.0.113.7"
              (AppSamples.url_only "https://example.com/"))
           limiters_at_start).
  vm_compute. discriminate.
Defined.

Lemma limited_request_does_no_work_witness :
  let r := full_dispatch_request AppSamples.web rejecting_parser AppSamples.h2t_handle
             AppSamples.answering AppSamples.py_str AppSamples.error_id AppSamples.format_exc
             AppSamples.cfg AppSamples.env AnalyzeRoute 30
             (AppSamples.request "/api/analyze" "master" "203.0.113.7"
                (AppSamples.url_only "https://example.com/"))
             (AppSamples.exhausted "203.0.113.7") in
  fst (fst r) = RateLimitReply 5 60
  /\ fetches (snd (fst r)) = []
  /\ prompts (snd (fst r)) = []
  /\ LimiterRuns.stored (limiter_of AnalyzeRoute (snd r)) "203.0.113.7"
     = prune (limiter_of AnalyzeRoute (AppSamples.exhausted "203.0.113.7")) 30
         (LimiterRuns.stored (limiter_of AnalyzeRoute (AppSamples.exhausted "203.0.113.7"))
            "203.0.113.7")
  /\ limiter_of (other AnalyzeRoute) (snd r)
     = limiter_of (other AnalyzeRoute) (AppSamples.exhausted "203.0.113.7").
Proof.
  apply (limited_request_does_no_work AppSamples.web rejecting_parser AppSamples.h2t_handle
           AppSamples.answering AppSamples.py_str AppSamples.error_id AppSamples.format_exc
           AppSamples.cfg AppSamples.env AnalyzeRoute 30
           (AppSamples.request "/api/analyze" "master" "203.0.113.7"
              (AppSamples.url_only "https://example.com/"))
           (AppSamples.exhausted "203.0.113.7")).
  - vm_compute. reflexivity.
  - vm_compute. reflexivity.
Defined.

Lemma invalid_body_is_refused_witness :
  (let r := full_dispatch_request AppSamples.web rejecting_parser AppSamples.h2t_handle
              AppSamples.answering AppSamples.py_str AppSamples.error_id
              AppSamples.format_exc AppSamples.cfg AppSamples.env ScrapeRoute 0
              (AppSamples.request "/api/scrape" "master" "203.0.113.7"
                 (AppSamples.url_only "ftp://example.com/"))
              limiters_at_start in
   fst (fst r) = JsonReply 400 {["error" := "Not a valid URL"]}
   /\ snd (fst r) = [log ERROR "API Error: Not a valid URL (Code: 400)"])
  /\ (let r := full_dispatch_request AppSamples.web rejecting_parser AppSamples.h2t_handle
                 AppSamples.answering AppSamples.py_str AppSamples.error_id
                 AppSamples.format_exc AppSamples.cfg AppSamples.env AnalyzeRoute 0
                 (AppSamples.request "/api/analyze" "master" "203.0.113.7"
                    (JObject {["url" := JInt 123]}))
                 limiters_at_start in
      fst (fst r)
      = JsonReply 500
          (<["error_id" := AppSamples.error_id
                             "'int' object has no attribute 'startswith'"]>
             {["error" := "An internal server error occurred"]})
      /\ snd (fst r)
         = [log ERROR "Unexpected error: 'int' object has no attribute 'startswith'";
            log ERROR ("Unhandled Exception: 'int' object has no attribute 'startswith'"
                       ++ NL
                       ++ AppSamples.format_exc
                            "'int' object has no attribute 'startswith'")]).
Proof.
  split.
  - destruct (invalid_body_is_refused AppSamples.web rejecting_parser
                AppSamples.h2t_handle AppSamples.answering AppSamples.py_str
                AppSamples.error_id AppSamples.format_exc AppSamples.cfg AppSamples.env
                ScrapeRoute 0
                (AppSamples.request "/api/scrape" "master" "203.0.113.7"
                   (AppSamples.url_only "ftp://example.com/"))
                limiters_at_start)
      as (_ & _ & _ & H & _).
    + vm_compute. reflexivity.
    + vm_compute. reflexivity.
    + apply (H {["url" := JString "ftp://example.com/"]} "ftp://example.com/").
      * reflexivity.
      * apply lookup_singleton_eq.
      * discriminate.
      * reflexivity.
  - destruct (invalid_body_is_refused AppSamples.web rejecting_parser
                AppSamples.h2t_handle AppSamples.answering AppSamples.py_str
                AppSamples.error_id AppSamples.format_exc AppSamples.cfg AppSamples.env
                AnalyzeRoute 0
                (AppSamples.request "/api/analyze" "master" "203.0.113.7"
                   (JObject {["url" := JInt 123]}))
                limiters_at_start)
      as (_ & _ & _ & _ & _ & _ & H).
    + vm_compute. reflexivity.
    + vm_compute. reflexivity.
    + apply (H {["url" := JInt 123]} (JInt 123)).
      * reflexivity.
      * apply lookup_singleton_eq.
      * reflexivity.
      * discriminate.
Defined.

Lemma failed_fetch_is_a_400_witness :
  let r := full_dispatch_request AppSamples.web rejecting_parser AppSamples.h2t_handle
             AppSamples.answering AppSamples.py_str AppSamples.error_id AppSamples.format_exc
             AppSamples.cfg AppSamples.env ScrapeRoute 0
             (AppSamples.request "/api/scrape" "master" "203.0.113.7"
                (AppSamples.url_only "https://down.example/"))
             limiters_at_start in
  fst (fst r)
  = JsonReply 400
      {["error" := "Failed to scrape URL: Scraping error: " ++ "connection refused"]}
  /\ fetches (snd (fst r)) = ["https://down.example/"]
  /\ prompts (snd (fst r)) = [].
Proof.
  apply (failed_fetch_is_a_400 AppSamples.web rejecting_parser AppSamples.h2t_handle
           AppSamples.answering AppSamples.py_str AppSamples.error_id AppSamples.format_exc
           AppSamples.cfg AppSamples.env ScrapeRoute 0
           (AppSamples.request "/api/scrape" "master" "203.0.113.7"
              (AppSamples.url_only "https://down.example/"))
           limiters_at_start {["url" := JString "https://down.example/"]}
           "https://down.example/" "connection refused").
  - vm_compute. reflexivity.
  - vm_compute. reflexivity.
  - reflexivity.
  - apply lookup_singleton_eq.
  - reflexivity.
  - discriminate.
  - reflexivity.
Defined.

Lemma parser_failure_is_a_500_witness :
  let r := full_dispatch_request AppSamples.web rejecting_parser AppSamples.h2t_handle
             AppSamples.answering AppSamples.py_str AppSamples.error_id AppSamples.format_exc
             AppSamples.cfg AppSamples.env AnalyzeRoute 0
             (AppSamples.request "/api/analyze" "master" "203.0.113.7"
                (AppSamples.url_only "https://odd.example/"))
             limiters_at_start in
  fst (fst r)
  = JsonReply 500
      (<["error_id" := AppSamples.error_id "unknown status keyword 'x' in marked section"]>
         {["error" := "An internal server error occurred"]})
  /\ fetches (snd (fst r)) = ["https://odd.example/"]
  /\ prompts (snd (fst r)) = [].
Proof.
  apply (parser_failure_is_a_500 AppSamples.web rejecting_parser AppSamples.h2t_handle
           AppSamples.answering AppSamples.py_str AppSamples.error_id AppSamples.format_exc
           AppSamples.cfg AppSamples.env AnalyzeRoute 0
           (AppSamples.request "/api/analyze" "master" "203.0.113.7"
              (AppSamples.url_only "https://odd.example/"))
           limiters_at_start {["url" := JString "https://odd.example/"]}
           "https://odd.example/" "<![x[" "unknown status keyword 'x' in marked section").
  - vm_compute. reflexivity.
  - vm_compute. reflexivity.
  - reflexivity.
  - apply lookup_singleton_eq.
  - reflexivity.
  - reflexivity.
  - vm_compute. reflexivity.
  - reflexivity.
Defined.

Lemma analysis_failure_by_route_witness :
  let r := full_dispatch_request AppSamples.web rejecting_parser AppSamples.h2t_handle
             always_down AppSamples.py_str AppSamples.error_id AppSamples.format_exc
             AppSamples.cfg AppSamples.env ScrapeRoute 0
             (AppSamples.request "/api/scrape" "master" "203.0.113.7"
                (AppSamples.url_only "https://example.com/"))
             limiters_at_start in
  length (prompts (snd (fst r))) = 3%nat
  /\ exists prompt last,
       fst (_call_api always_down 2 prompt) = Raise last
       /\ fst (fst r)
          = ScrapeReply
              {| sr_url := "https://example.com/";
                 sr_title := "";
                 sr_description := "";
                 sr_og_data := ∅;
                 sr_content_length := len "Hello";
                 sr_content_preview := shorten 500 "Hello";
                 sr_summary :=
                   SummaryError
                     ("Error occurred while summarizing content: "
                      ++ "Perplexity API call error: " ++ last) |}.
Proof.
  apply (analysis_failure_by_route AppSamples.web rejecting_parser AppSamples.h2t_handle
           always_down AppSamples.py_str AppSamples.error_id AppSamples.format_exc
           AppSamples.cfg AppSamples.env ScrapeRoute 0
           (AppSamples.request "/api/scrape" "master" "203.0.113.7"
              (AppSamples.url_only "https://example.com/"))
           limiters_at_start {["url" := JString "https://example.com/"]}
           "https://example.com/" "Hello"
           {| title := ""; description := ""; og_data := ∅; content := "Hello" |}).
  - vm_compute. reflexivity.
  - vm_compute. reflexivity.
  - reflexivity.
  - apply lookup_singleton_eq.
  - reflexivity.
  - reflexivity.
  - vm_compute. reflexivity.
  - vm_compute. reflexivity.
  - intros prompt j _. by exists "Perplexity API call error: connection refused".
Defined.

Lemma without_service_key_witness :
  let r := full_dispatch_request AppSamples.web rejecting_parser AppSamples.h2t_handle
             AppSamples.answering AppSamples.py_str AppSamples.error_id AppSamples.format_exc
             AppSamples.cfg AppSamples.env_without_key AnalyzeRoute 0
             (AppSamples.request "/api/analyze" "master" "203.0.113.7"
                (AppSamples.url_only "https://example.com/"))
             limiters_at_start in
  prompts (snd (fst r)) = []
  /\ fst (fst r) = JsonReply 500 {["error" := "Perplexity API key is not configured"]}
  /\ fetches (snd (fst r)) = [].
Proof.
  apply (without_service_key AppSamples.web rejecting_parser AppSamples.h2t_handle
           AppSamples.answering AppSamples.py_str AppSamples.error_id AppSamples.format_exc
           AppSamples.cfg AppSamples.env_without_key AnalyzeRoute 0
           (AppSamples.request "/api/analyze" "master" "203.0.113.7"
              (AppSamples.url_only "https://example.com/"))
           limiters_at_start {["url" := JString "https://example.com/"]}
           "https://example.com/").
  - vm_compute. reflexivity.
  - vm_compute. reflexivity.
  - reflexivity.
  - apply lookup_singleton_eq.
  - reflexivity.
  - reflexivity.
Defined.

Lemma custom_query_is_sent_verbatim_witness :
  let r := full_dispatch_request AppSamples.web rejecting_parser AppSamples.h2t_handle
             AppSamples.answering AppSamples.py_str AppSamples.error_id
             AppSamples.format_exc AppSamples.cfg AppSamples.env AnalyzeRoute 0
             (AppSamples.request "/api/analyze" "master" "203.0.113.7"
                (JObject (<["custom_query" := JString "Who wrote this?"]>
                            {["url" := JString "https://example.com/"]})))
             limiters_at_start in
  Forall (fun p => exists c,
            (len c <= 15000 + 3)%nat
            /\ p = "Who wrote this?" ++ NL ++ NL ++ "URL: " ++ "https://example.com/"
                   ++ NL ++ NL ++ "Content:" ++ NL ++ c)
         (prompts (snd (fst r)))
  /\ forall result,
       fst (fst r) = AnalyzeReply result ->
       ar_custom_query result = JString "Who wrote this?"
       /\ ar_query_type result
          = default (JString "analysis")
              ((<["custom_query" := JString "Who wrote this?"]>
                  ({["url" := JString "https://example.com/"]} : gmap string Json))
                 !! "query_type").
Proof.
  apply (custom_query_is_sent_verbatim AppSamples.web rejecting_parser
           AppSamples.h2t_handle
           AppSamples.answering AppSamples.py_str AppSamples.error_id
           AppSamples.format_exc AppSamples.cfg AppSamples.env 0
           (AppSamples.request "/api/analyze" "master" "203.0.113.7"
              (JObject (<["custom_query" := JString "Who wrote this?"]>
                          {["url" := JString "https://example.com/"]})))
           limiters_at_start
           (<["custom_query" := JString "Who wrote this?"]>
              {["url" := JString "https://example.com/"]})
           "https://example.com/" "Who wrote this?").
  - vm_compute. reflexivity.
  - vm_compute. reflexivity.
  - reflexivity.
  - by rewrite lookup_insert_ne.
  - reflexivity.
  - apply lookup_insert_eq.
  - discriminate.
Defined.

End RoutesOnSamples.
